(** * ninetyfive: the grid manager (internal/gridmanager)

    A shallow embedding of the RSI/RSX grid strategy of the trading bot and
    the verification of its specification, with the code around it: the
    configuration (configs), the Jupiter wrapper (internal/jupiter) and the
    loop of [main].

    - Go's [float64] is IEEE 754 binary64: it is modelled by Rocq's primitive
      floats, so the arithmetic, the comparisons (false on NaN, [0 == -0]) and
      the rounding are those the program runs with, every operation rounded
      on its own (as on amd64; the Go compiler fuses [x*y + z] on some other
      targets).
    - Go's [int] is the 64-bit two's complement integer: it is modelled by [Z]
      with the wrap-around written out ([wrap64]).
    - [gridLines] is a slice assigned by index: a [list float] with stdpp's
      lookup and insert.
    - The logger is an interface value; the lines a call writes are collected
      in a trace next to the result.
    - A Go map is a finite map of stdpp ([gmap]); a call that returns a value
      and an error returns a sum, or the pair where the caller reads both.
    - The services of the outside (the Secret Manager, the pricing endpoint,
      Jupiter, the chain monitor) are arguments: what they answer. *)

From Stdlib Require Import ZArith Floats Lia Bool String Ascii DecimalString.
From stdpp Require Import list gmap strings.

Local Open Scope Z_scope.

(** ** Machine integers *)

Definition wrap64 (z : Z) : Z := (z + 2 ^ 63) mod 2 ^ 64 - 2 ^ 63.

Definition iadd (a b : Z) : Z := wrap64 (a + b).
Definition isub (a b : Z) : Z := wrap64 (a - b).

(** [float64(n)] for an [int] n: exact up to 2^53, rounded to nearest even
    above. *)
Definition float64_of_int (z : Z) : float :=
  if z =? - 2 ^ 63 then (- (of_uint63 (Uint63.of_Z (2 ^ 62)) * 2))%float
  else if z <? 0 then (- of_uint63 (Uint63.of_Z (- z)))%float
  else of_uint63 (Uint63.of_Z z).

(** [for x := 0; x < n; x++ { s = body x s }] *)
Definition for_loop {S : Type} (n : Z) (body : Z -> S -> S) (s : S) : S :=
  fold_left (fun acc i => body (Z.of_nat i) acc) (seq 0 (Z.to_nat n)) s.

(** ** internal/common *)

Inductive Signal : Set := BuySignal | SellSignal | DoNothingSignal.

Definition Signal_string (s : Signal) : string :=
  match s with
  | BuySignal => "BUY"
  | SellSignal => "SELL"
  | DoNothingSignal => "DO_NOTHING"
  end.

(** ** internal/logger *)

Inductive Severity : Set := SevDebug | SevInfo | SevWarn | SevError.

Inductive LogArg : Set :=
| AFloat (x : float)
| AInt (n : Z)
| ABool (b : bool)
| AStr (s : string).

(** One line handed to a sink. *)
Record Entry : Set := { severity : Severity; format : string; args : list LogArg }.

(** [Event]: [Msg] formats and writes; what it writes is up to the
    implementation. *)
Record Event : Set := { Msg : string -> list LogArg -> list Entry }.

(** [Logger]: the four levelled event makers. *)
Record Logger : Set := { Debug : Event; Info : Event; Warn : Event; Error : Event }.

(** [LocalLogger]: one zerolog line per message, at the event's level. *)
Definition LocalEvent (sev : Severity) : Event :=
  {| Msg := fun fmt a => [ {| severity := sev; format := fmt; args := a |} ] |}.

Definition LocalLogger : Logger :=
  {| Debug := LocalEvent SevDebug; Info := LocalEvent SevInfo;
     Warn := LocalEvent SevWarn; Error := LocalEvent SevError |}.

(** [CloudLogger]: one line per message, and one more for an attached
    error. *)
Definition CloudEvent (sev : Severity) (err : option string) : Event :=
  {| Msg := fun fmt a =>
       {| severity := sev; format := fmt; args := a |} ::
       match err with
       | Some e => [ {| severity := sev; format := e; args := [] |} ]
       | None => []
       end |}.

Definition CloudLogger : Logger :=
  {| Debug := CloudEvent SevDebug None; Info := CloudEvent SevInfo None;
     Warn := CloudEvent SevWarn None; Error := CloudEvent SevError None |}.

(** A sink that drops everything. *)
Definition NopLogger : Logger :=
  let e := {| Msg := fun _ _ => [] |} in
  {| Debug := e; Info := e; Warn := e; Error := e |}.

(** zerolog's package-level [log.Printf]: a debug line on the global
    logger, whatever logger the manager holds. *)
Definition log_Printf (fmt : string) (a : list LogArg) : list Entry :=
  [ {| severity := SevDebug; format := fmt; args := a |} ].

(** ** internal/gridmanager *)

Definition DirUp : Z := 1.
Definition DirNeutral : Z := 0.
Definition DirDown : Z := -1.

Definition RsiTypeClassic : Z := 0.
Definition RsiTypeRSX : Z := 1.

Record GridManager : Set := {
  (* user-set parameters *)
  RsiLength : Z;
  NumberOfGrids : Z;
  MarketDirection : Z;
  NoTradeZonePips : Z;
  AggressionLevel : Z;
  CurrentRsiType : Z;
  (* bar-to-bar state *)
  lastRsiValue : float;
  currentRsi : float;
  lastSignal : float;
  lastSignalIndex : Z;
  signalLine : float;
  (* RSI memory *)
  avgGain : float;
  avgLoss : float;
  prevRawPrice : float;
  (* RSX memory *)
  f8 : float; f10 : float; f28 : float; f30 : float;
  f38 : float; f40 : float; f48 : float; f50 : float;
  f58 : float; f60 : float; f68 : float; f70 : float;
  f78 : float; f80 : float; f88 : float; f90 : float;
  f90_ : float; f0 : float;
  gridLines : list float;
  buy : bool;
  sell : bool;
  log : Logger
}.

(** Field assignment [gm.x = v]: the record rebuilt with one field replaced. *)
Definition rebuild (gm : GridManager) : GridManager :=
  Build_GridManager
    (RsiLength gm) (NumberOfGrids gm) (MarketDirection gm) (NoTradeZonePips gm)
    (AggressionLevel gm) (CurrentRsiType gm)
    (lastRsiValue gm) (currentRsi gm) (lastSignal gm) (lastSignalIndex gm) (signalLine gm)
    (avgGain gm) (avgLoss gm) (prevRawPrice gm)
    (f8 gm) (f10 gm) (f28 gm) (f30 gm) (f38 gm) (f40 gm) (f48 gm) (f50 gm)
    (f58 gm) (f60 gm) (f68 gm) (f70 gm) (f78 gm) (f80 gm) (f88 gm) (f90 gm)
    (f90_ gm) (f0 gm)
    (gridLines gm) (buy gm) (sell gm) (log gm).

Ltac assign_field proj :=
  let v := fresh "v" in
  let gm := fresh "gm" in
  intros v gm;
  let whole := eval cbv beta delta [rebuild] in (rebuild gm) in
  lazymatch eval pattern (proj gm) in whole with
  | ?k _ => let r := eval cbv beta in (k v) in exact r
  end.

Definition set_RsiLength : Z -> GridManager -> GridManager :=
  ltac:(assign_field RsiLength).
Definition set_NumberOfGrids : Z -> GridManager -> GridManager :=
  ltac:(assign_field NumberOfGrids).
Definition set_MarketDirection : Z -> GridManager -> GridManager :=
  ltac:(assign_field MarketDirection).
Definition set_NoTradeZonePips : Z -> GridManager -> GridManager :=
  ltac:(assign_field NoTradeZonePips).
Definition set_AggressionLevel : Z -> GridManager -> GridManager :=
  ltac:(assign_field AggressionLevel).
Definition set_CurrentRsiType : Z -> GridManager -> GridManager :=
  ltac:(assign_field CurrentRsiType).
Definition set_lastRsiValue : float -> GridManager -> GridManager :=
  ltac:(assign_field lastRsiValue).
Definition set_currentRsi : float -> GridManager -> GridManager :=
  ltac:(assign_field currentRsi).
Definition set_lastSignal : float -> GridManager -> GridManager :=
  ltac:(assign_field lastSignal).
Definition set_lastSignalIndex : Z -> GridManager -> GridManager :=
  ltac:(assign_field lastSignalIndex).
Definition set_signalLine : float -> GridManager -> GridManager :=
  ltac:(assign_field signalLine).
Definition set_avgGain : float -> GridManager -> GridManager :=
  ltac:(assign_field avgGain).
Definition set_avgLoss : float -> GridManager -> GridManager :=
  ltac:(assign_field avgLoss).
Definition set_prevRawPrice : float -> GridManager -> GridManager :=
  ltac:(assign_field prevRawPrice).
Definition set_f8 : float -> GridManager -> GridManager := ltac:(assign_field f8).
Definition set_f10 : float -> GridManager -> GridManager := ltac:(assign_field f10).
Definition set_f28 : float -> GridManager -> GridManager := ltac:(assign_field f28).
Definition set_f30 : float -> GridManager -> GridManager := ltac:(assign_field f30).
Definition set_f38 : float -> GridManager -> GridManager := ltac:(assign_field f38).
Definition set_f40 : float -> GridManager -> GridManager := ltac:(assign_field f40).
Definition set_f48 : float -> GridManager -> GridManager := ltac:(assign_field f48).
Definition set_f50 : float -> GridManager -> GridManager := ltac:(assign_field f50).
Definition set_f58 : float -> GridManager -> GridManager := ltac:(assign_field f58).
Definition set_f60 : float -> GridManager -> GridManager := ltac:(assign_field f60).
Definition set_f68 : float -> GridManager -> GridManager := ltac:(assign_field f68).
Definition set_f70 : float -> GridManager -> GridManager := ltac:(assign_field f70).
Definition set_f78 : float -> GridManager -> GridManager := ltac:(assign_field f78).
Definition set_f80 : float -> GridManager -> GridManager := ltac:(assign_field f80).
Definition set_f88 : float -> GridManager -> GridManager := ltac:(assign_field f88).
Definition set_f90 : float -> GridManager -> GridManager := ltac:(assign_field f90).
Definition set_f90_ : float -> GridManager -> GridManager := ltac:(assign_field f90_).
Definition set_f0 : float -> GridManager -> GridManager := ltac:(assign_field f0).
Definition set_gridLines : list float -> GridManager -> GridManager :=
  ltac:(assign_field gridLines).
Definition set_buy : bool -> GridManager -> GridManager := ltac:(assign_field buy).
Definition set_sell : bool -> GridManager -> GridManager := ltac:(assign_field sell).
Definition set_log : Logger -> GridManager -> GridManager := ltac:(assign_field log).

(** [&GridManager{}]: every field at its zero value. The [log] field is read
    only after [NewGridManager] has assigned it, so the record is built with
    the logger it will hold; a nil logger (a panic at the first message) is
    not a value of [Logger]. *)
Definition zeroGridManager (logger : Logger) : GridManager :=
  {| RsiLength := 0; NumberOfGrids := 0; MarketDirection := 0; NoTradeZonePips := 0;
     AggressionLevel := 0; CurrentRsiType := 0;
     lastRsiValue := 0; currentRsi := 0;
     lastSignal := 0; lastSignalIndex := 0; signalLine := 0;
     avgGain := 0; avgLoss := 0; prevRawPrice := 0;
     f8 := 0; f10 := 0; f28 := 0; f30 := 0; f38 := 0; f40 := 0; f48 := 0; f50 := 0;
     f58 := 0; f60 := 0; f68 := 0; f70 := 0; f78 := 0; f80 := 0; f88 := 0; f90 := 0;
     f90_ := 0; f0 := 0;
     gridLines := []; buy := false; sell := false; log := logger |}.

(** Comparisons the source writes with [>] and [>=]. *)
Notation "x >? y" := (PrimFloat.ltb y x) (at level 70, no associativity) : float_scope.
Notation "x >=? y" := (PrimFloat.leb y x) (at level 70, no associativity) : float_scope.

(** The writes of a call, in order, next to its result. *)
Definition Logged (A : Type) : Type := (A * list Entry)%type.

Definition ret {A : Type} (a : A) : Logged A := (a, []).

Definition bind {A B : Type} (m : Logged A) (k : A -> Logged B) : Logged B :=
  (fst (k (fst m)), snd m ++ snd (k (fst m))).

Definition write (es : list Entry) : Logged unit := (tt, es).

Notation "m ;;; k" := (bind m (fun _ => k))
  (at level 100, right associativity).

Definition parseDirection (dir : string) : Z :=
  if String.eqb dir "up" then DirUp
  else if String.eqb dir "down" then DirDown
  else DirNeutral.

Definition parseNoTradeZone (nt : string) : Z :=
  if String.eqb nt "45-55" then 5
  else if String.eqb nt "40-60" then 10
  else if String.eqb nt "35-65" then 15
  else if String.eqb nt "30-70" then 20
  else 0.

Definition parseAggression (agg : string) : Z :=
  if String.eqb agg "med" then 1
  else if String.eqb agg "high" then 2
  else 0.

Definition parseRsiType (t : string) : Z :=
  if String.eqb t "rsx" then RsiTypeRSX else RsiTypeClassic.

(** [initGridLines]. [None] is a run-time panic: [make] with a negative
    length, or the store to [gridLines[0]] of an empty slice. *)
Definition initGridLines (gm : GridManager) : option GridManager :=
  let n := NumberOfGrids gm in
  if n <? 0 then None
  else
    let lines := replicate (Z.to_nat n) 0%float in
    if n <? 2 then
      if n <? 1 then None
      else Some (set_gridLines (<[ 0%nat := 50%float ]> lines) gm)
    else
      let step := (100 / float64_of_int (isub n 1))%float in
      let lines :=
        for_loop n (fun i l => <[ Z.to_nat i := (step * float64_of_int i)%float ]> l) lines in
      let lines := <[ 0%nat := 1%float ]> lines in
      let lines := <[ Z.to_nat (isub n 1) := 99%float ]> lines in
      Some (set_gridLines lines gm).

(** [NewGridManager]: [None] when [initGridLines] panics. *)
Definition NewGridManager (rsiLength numberOfGrids : Z)
    (direction ntZone aggLevel rsiType : string) (logger : Logger)
  : option (Logged GridManager) :=
  let gm := zeroGridManager logger in
  let gm := set_RsiLength rsiLength gm in
  let gm := set_NumberOfGrids (iadd numberOfGrids 1) gm in
  let gm := set_MarketDirection (parseDirection direction) gm in
  let gm := set_NoTradeZonePips (parseNoTradeZone ntZone) gm in
  let gm := set_AggressionLevel (parseAggression aggLevel) gm in
  let gm := set_CurrentRsiType (parseRsiType rsiType) gm in
  let gm := set_prevRawPrice 0%float gm in
  let gm := set_avgGain 0%float gm in
  let gm := set_avgLoss 0%float gm in
  let gm := set_lastSignal 0%float gm in
  let gm := set_lastSignalIndex 0 gm in
  let gm := set_signalLine 50%float gm in
  match initGridLines gm with
  | None => None
  | Some gm =>
      let gm := set_log logger gm in
      Some (write (Msg (Info (log gm))
                     "[GridManager] Initialized with RsiLength=%d, Grids=%d, Dir=%s, NTZ=%s, Agg=%s, RsiType=%s"
                     [AInt rsiLength; AInt numberOfGrids; AStr direction; AStr ntZone;
                      AStr aggLevel; AStr rsiType]) ;;;
            ret gm)
  end.

(** [getGridValue]: 0 outside the slice. *)
Definition getGridValue (gm : GridManager) (idx : Z) : float :=
  if (idx <? 0) || (idx >=? Z.of_nat (length (gridLines gm))) then 0%float
  else default 0%float (gridLines gm !! Z.to_nat idx).

Definition clamp (v min max : float) : float :=
  if (v <? min)%float then min
  else if (v >? max)%float then max
  else v.

(** [computeRSI]: the value returned and the manager after the call. *)
Definition computeRSI (gm : GridManager) (price : float) : float * GridManager :=
  if (prevRawPrice gm =? 0)%float then (50%float, set_prevRawPrice price gm)
  else
    let delta := (price - prevRawPrice gm)%float in
    let gm := set_prevRawPrice price gm in
    let gain := if (delta >? 0)%float then delta else 0%float in
    let loss := if (delta >? 0)%float then 0%float else (- delta)%float in
    let gm :=
      if (avgGain gm =? 0)%float && (avgLoss gm =? 0)%float then
        set_avgLoss loss (set_avgGain gain gm)
      else
        let alpha := (1 / float64_of_int (RsiLength gm))%float in
        let gm := set_avgGain ((1 - alpha) * avgGain gm + alpha * gain)%float gm in
        set_avgLoss ((1 - alpha) * avgLoss gm + alpha * loss)%float gm in
    if (avgLoss gm =? 0)%float then (100%float, gm)
    else
      let rs := (avgGain gm / avgLoss gm)%float in
      let rsi := (100 - 100 / (1 + rs))%float in
      (clamp rsi 0 100, gm).

(** The warm-up threshold of the RSX: [float64(RsiLength - 1)], at least 5. *)
Definition rsxThreshold (gm : GridManager) : float :=
  let x := float64_of_int (isub (RsiLength gm) 1) in
  if (x <? 5)%float then 5%float else x.

(** The two momentum terms a non-first [computeRSX] call divides: v14 from
    the signed cascade, v20 from the cascade of absolute moves. They are the
    locals of the source, computed from the fields before the call. *)
Section Cascade.
Variables (gm : GridManager) (price : float).

Let v8 : float := (100 * price - f8 gm)%float.
Let f18 : float := (3 / float64_of_int (iadd (RsiLength gm) 2))%float.
Let f20 : float := (1 - f18)%float.

Definition rsx_f28 : float := (f20 * f28 gm + f18 * v8)%float.
Definition rsx_f30 : float := (f18 * rsx_f28 + f20 * f30 gm)%float.
Let vC : float := (1.5 * rsx_f28 - 0.5 * rsx_f30)%float.

Definition rsx_f38 : float := (f20 * f38 gm + f18 * vC)%float.
Definition rsx_f40 : float := (f18 * rsx_f38 + f20 * f40 gm)%float.
Let v10 : float := (1.5 * rsx_f38 - 0.5 * rsx_f40)%float.

Definition rsx_f48 : float := (f20 * f48 gm + f18 * v10)%float.
Definition rsx_f50 : float := (f18 * rsx_f48 + f20 * f50 gm)%float.
Definition rsx_v14 : float := (1.5 * rsx_f48 - 0.5 * rsx_f50)%float.

Definition rsx_f58 : float := (f20 * f58 gm + f18 * abs v8)%float.
Definition rsx_f60 : float := (f18 * rsx_f58 + f20 * f60 gm)%float.
Let v18 : float := (1.5 * rsx_f58 - 0.5 * rsx_f60)%float.

Definition rsx_f68 : float := (f20 * f68 gm + f18 * v18)%float.
Definition rsx_f70 : float := (f18 * rsx_f68 + f20 * f70 gm)%float.
Let v1C : float := (1.5 * rsx_f68 - 0.5 * rsx_f70)%float.

Definition rsx_f78 : float := (f20 * f78 gm + f18 * v1C)%float.
Definition rsx_f80 : float := (f18 * rsx_f78 + f20 * f80 gm)%float.
Definition rsx_v20 : float := (1.5 * rsx_f78 - 0.5 * rsx_f80)%float.
End Cascade.

(** [computeRSX]: the value returned and the manager after the call. *)
Definition computeRSX (gm : GridManager) (price : float) : float * GridManager :=
  if (f8 gm =? 0)%float && (f10 gm =? 0)%float then
    let gm := set_f8 (100 * price)%float gm in
    let gm := set_f10 (f8 gm) gm in
    let gm := set_f90_ 1%float gm in
    let gm := set_f88 (rsxThreshold gm) gm in
    (50%float, gm)
  else
    let oldF8 := f8 gm in
    let v14 := rsx_v14 gm price in
    let v20 := rsx_v20 gm price in
    let gm :=
      set_f80 (rsx_f80 gm price) (set_f78 (rsx_f78 gm price)
      (set_f70 (rsx_f70 gm price) (set_f68 (rsx_f68 gm price)
      (set_f60 (rsx_f60 gm price) (set_f58 (rsx_f58 gm price)
      (set_f50 (rsx_f50 gm price) (set_f48 (rsx_f48 gm price)
      (set_f40 (rsx_f40 gm price) (set_f38 (rsx_f38 gm price)
      (set_f30 (rsx_f30 gm price) (set_f28 (rsx_f28 gm price)
      (set_f8 (100 * price)%float gm)))))))))))) in
    let gm :=
      set_f90_ (if (f90_ gm =? 0)%float then 1%float
                else if (f88 gm <=? f90_ gm)%float then (f88 gm + 1)%float
                else (f90_ gm + 1)%float) gm in
    let gm := if (f88 gm =? 0)%float then set_f88 (rsxThreshold gm) gm else gm in
    let fTemp0 :=
      if (f88 gm >=? f90_ gm)%float && negb (f8 gm =? oldF8)%float then 1%float else 0%float in
    let gm := set_f0 fTemp0 gm in
    let gm :=
      if (f88 gm =? f90_ gm)%float && (f0 gm =? 0)%float then set_f90 0%float gm
      else set_f90 (f90_ gm) gm in
    let rsxVal :=
      if (f88 gm <? f90 gm)%float && (v20 >? 0)%float then ((v14 / v20 + 1) * 50)%float
      else 50%float in
    (clamp rsxVal 0 100, gm).

Definition getBuyLineIndex (gm : GridManager) : Z :=
  for_loop (NumberOfGrids gm) (fun x idx =>
    let lineVal := getGridValue gm x in
    let idx :=
      if (lastRsiValue gm <? lineVal)%float && (currentRsi gm >=? lineVal)%float
         && (lastRsiValue gm <=? signalLine gm)%float
      then x else idx in
    if (lastRsiValue gm >? 99)%float && (currentRsi gm <=? 99)%float
    then isub (NumberOfGrids gm) 1 else idx) 0.

Definition getSellLineIndex (gm : GridManager) : Z :=
  for_loop (NumberOfGrids gm) (fun x idx =>
    let lineVal := getGridValue gm x in
    let idx :=
      if (lastRsiValue gm >? lineVal)%float && (currentRsi gm <=? lineVal)%float
         && (lastRsiValue gm >=? signalLine gm)%float
      then x else idx in
    if (lastRsiValue gm <? 1)%float && (currentRsi gm >=? 1)%float
    then 0 else idx) 0.

Definition applyAggressionFilter (gm : GridManager) : GridManager :=
  let gi := (100 / float64_of_int (isub (NumberOfGrids gm) 1))%float in
  if AggressionLevel gm >? 0 then
    let topIdx := isub (isub (NumberOfGrids gm) 1) (AggressionLevel gm) in
    let botIdx := iadd 1 (AggressionLevel gm) in
    let topVal := getGridValue gm topIdx in
    let botVal := getGridValue gm botIdx in
    let gm :=
      if (currentRsi gm >? signalLine gm)%float && (lastRsiValue gm >=? botVal)%float
      then set_buy false gm else gm in
    if (currentRsi gm <? signalLine gm)%float && (lastRsiValue gm <=? topVal)%float
    then set_sell false gm else gm
  else
    let gm :=
      if (lastRsiValue gm >? signalLine gm - gi)%float then set_buy false gm else gm in
    if (lastRsiValue gm <? signalLine gm + gi)%float then set_sell false gm else gm.

Definition applyNoTradeZoneFilter (gm : GridManager) : GridManager :=
  let lowerBound := (50 - float64_of_int (NoTradeZonePips gm))%float in
  let upperBound := (50 + float64_of_int (NoTradeZonePips gm))%float in
  if (lastRsiValue gm >? lowerBound)%float && (lastRsiValue gm <? upperBound)%float
  then set_sell false (set_buy false gm)
  else gm.

Definition applyDirectionFilter (gm : GridManager) : GridManager :=
  if (currentRsi gm <? 100)%float || (currentRsi gm >? 1)%float then
    let gi := (100 / float64_of_int (isub (NumberOfGrids gm) 1))%float in
    let gm :=
      if (MarketDirection gm =? DirDown) && (currentRsi gm >=? signalLine gm - 2 * gi)%float
      then set_buy false gm else gm in
    if (MarketDirection gm =? DirUp) && (currentRsi gm <=? signalLine gm + 2 * gi)%float
    then set_sell false gm else gm
  else gm.

(** Step 1 of [Process]: the oscillator of this bar, stored in [currentRsi]. *)
Definition computeOscillator (gm : GridManager) (price : float) : GridManager :=
  if CurrentRsiType gm =? RsiTypeRSX then
    let r := computeRSX gm price in set_currentRsi (fst r) (snd r)
  else
    let r := computeRSI gm price in set_currentRsi (fst r) (snd r).

(** Steps 2 to 8 of [Process]: what runs once the warm-up test has failed. *)
Definition Process_steady (gm : GridManager) : Logged (Signal * GridManager) :=
  write (Msg (Debug (log gm)) "[GridManager] RSI/RSX=%.2f (prev=%.2f)"
           [AFloat (currentRsi gm); AFloat (lastRsiValue gm)]) ;;;
  let gm := set_sell false (set_buy false gm) in
  let buyIdx := getBuyLineIndex gm in
  let sellIdx := getSellLineIndex gm in
  let gm := set_sell (sellIdx >? 0) (set_buy (buyIdx >? 0) gm) in
  write (log_Printf "[GridManager] BuyLineIndex=%d, SellLineIndex=%d => buy=%t, sell=%t"
           [AInt buyIdx; AInt sellIdx; ABool (buy gm); ABool (sell gm)]) ;;;
  let gm := applyAggressionFilter gm in
  write (log_Printf "[GridManager] After aggression => buy=%t, sell=%t"
           [ABool (buy gm); ABool (sell gm)]) ;;;
  let gm := applyNoTradeZoneFilter gm in
  write (log_Printf "[GridManager] After no-trade zone => buy=%t, sell=%t"
           [ABool (buy gm); ABool (sell gm)]) ;;;
  let gm := applyDirectionFilter gm in
  write (log_Printf "[GridManager] After direction filter => buy=%t, sell=%t"
           [ABool (buy gm); ABool (sell gm)]) ;;;
  let out :=
    if buy gm then
      (BuySignal, set_lastSignalIndex buyIdx (set_lastSignal 1%float gm))
    else if sell gm then
      (SellSignal, set_lastSignalIndex sellIdx (set_lastSignal (-1)%float gm))
    else (DoNothingSignal, gm) in
  let outSignal := fst out in
  let gm := snd out in
  let gm := set_signalLine (getGridValue gm (lastSignalIndex gm)) gm in
  write (log_Printf "[GridManager] signalLine=%.2f, lastSignal=%.0f, lastSignalIndex=%d, finalSignal=%s"
           [AFloat (signalLine gm); AFloat (lastSignal gm); AInt (lastSignalIndex gm);
            AStr (Signal_string outSignal)]) ;;;
  let gm := set_lastRsiValue (currentRsi gm) gm in
  ret (outSignal, gm).

(** [Process]: one bar. Both returns of the source carry a nil error, so the
    result is the signal, with the manager after the call. *)
Definition Process (gm : GridManager) (price : float) : Logged (Signal * GridManager) :=
  write (Msg (Debug (log gm)) "[GridManager] Processing new bar. Price=%.4f" [AFloat price]) ;;;
  let gm := computeOscillator gm price in
  if (lastRsiValue gm =? 0)%float then
    let gm := set_lastRsiValue (currentRsi gm) gm in
    write (Msg (Debug (log gm)) "[GridManager] First bar - warming up. CurrentRSI=%.2f => DO_NOTHING."
             [AFloat (currentRsi gm)]) ;;;
    ret (DoNothingSignal, gm)
  else Process_steady gm.

(** The signal and the manager of a call, without the log lines. *)
Definition Process_signal (gm : GridManager) (price : float) : Signal :=
  fst (fst (Process gm price)).

Definition Process_state (gm : GridManager) (price : float) : GridManager :=
  snd (fst (Process gm price)).

(** The warm-up test of [Process]: the previous oscillator value is zero. *)
Definition warm (gm : GridManager) : bool := (lastRsiValue gm =? 0)%float.

(** The main loop feeds one price after the other into the same manager:
    the signal and the manager after each call, in order. *)
Fixpoint feed (gm : GridManager) (prices : list float) : list (Signal * GridManager) :=
  match prices with
  | [] => []
  | p :: ps => (Process_signal gm p, Process_state gm p) :: feed (Process_state gm p) ps
  end.

(** The manager after a whole price sequence. *)
Definition final (gm : GridManager) (prices : list float) : GridManager :=
  fold_left Process_state prices gm.

(** The manager [NewGridManager] returns to a caller that logs locally
    (the zero manager where construction panics). *)
Definition newManager (rsiLength numberOfGrids : Z)
    (direction ntZone aggLevel rsiType : string) : GridManager :=
  match NewGridManager rsiLength numberOfGrids direction ntZone aggLevel rsiType LocalLogger with
  | Some r => fst r
  | None => zeroGridManager LocalLogger
  end.

(** The line that construction writes to that caller's log. *)
Definition newManagerLog (rsiLength numberOfGrids : Z)
    (direction ntZone aggLevel rsiType : string) : list Entry :=
  match NewGridManager rsiLength numberOfGrids direction ntZone aggLevel rsiType LocalLogger with
  | Some r => snd r
  | None => []
  end.

(** The stages of [Process_steady], named: steps 2-3, steps 4-6, steps 7-8. *)
Definition detectCrossings (gm : GridManager) : GridManager :=
  let gm := set_sell false (set_buy false gm) in
  set_sell (getSellLineIndex gm >? 0) (set_buy (getBuyLineIndex gm >? 0) gm).

Definition filterPipeline (gm : GridManager) : GridManager :=
  applyDirectionFilter (applyNoTradeZoneFilter (applyAggressionFilter gm)).

Definition resolveSignal (gm : GridManager) (buyIdx sellIdx : Z) : Signal * GridManager :=
  let out :=
    if buy gm then
      (BuySignal, set_lastSignalIndex buyIdx (set_lastSignal 1%float gm))
    else if sell gm then
      (SellSignal, set_lastSignalIndex sellIdx (set_lastSignal (-1)%float gm))
    else (DoNothingSignal, gm) in
  let gm := snd out in
  let gm := set_signalLine (getGridValue gm (lastSignalIndex gm)) gm in
  (fst out, set_lastRsiValue (currentRsi gm) gm).

(** A ladder read from first to last never goes down. *)
Fixpoint nondecreasingb (l : list float) : bool :=
  match l with
  | [] => true
  | x :: t => forallb (fun y => (x <=? y)%float) t && nondecreasingb t
  end.

(** [computeRSI] with the division by the average loss checked: [None] when
    the divisor is zero. *)
Definition div_checked (a b : float) : option float :=
  if (b =? 0)%float then None else Some (a / b)%float.

Definition computeRSI_checked (gm : GridManager) (price : float)
  : option (float * GridManager) :=
  if (prevRawPrice gm =? 0)%float then Some (50%float, set_prevRawPrice price gm)
  else
    let delta := (price - prevRawPrice gm)%float in
    let gm := set_prevRawPrice price gm in
    let gain := if (delta >? 0)%float then delta else 0%float in
    let loss := if (delta >? 0)%float then 0%float else (- delta)%float in
    let gm :=
      if (avgGain gm =? 0)%float && (avgLoss gm =? 0)%float then
        set_avgLoss loss (set_avgGain gain gm)
      else
        let alpha := (1 / float64_of_int (RsiLength gm))%float in
        let gm := set_avgGain ((1 - alpha) * avgGain gm + alpha * gain)%float gm in
        set_avgLoss ((1 - alpha) * avgLoss gm + alpha * loss)%float gm in
    if (avgLoss gm =? 0)%float then Some (100%float, gm)
    else
      match div_checked (avgGain gm) (avgLoss gm) with
      | None => None
      | Some rs =>
          let rsi := (100 - 100 / (1 + rs))%float in
          Some (clamp rsi 0 100, gm)
      end.

(** The two halves of a non-first [computeRSX] call, named: the cascade
    (down to [v20]), and the warm-up counters with the value returned. *)
Definition rsx_cascade (gm : GridManager) (price : float) : GridManager :=
  set_f80 (rsx_f80 gm price) (set_f78 (rsx_f78 gm price)
  (set_f70 (rsx_f70 gm price) (set_f68 (rsx_f68 gm price)
  (set_f60 (rsx_f60 gm price) (set_f58 (rsx_f58 gm price)
  (set_f50 (rsx_f50 gm price) (set_f48 (rsx_f48 gm price)
  (set_f40 (rsx_f40 gm price) (set_f38 (rsx_f38 gm price)
  (set_f30 (rsx_f30 gm price) (set_f28 (rsx_f28 gm price)
  (set_f8 (100 * price)%float gm)))))))))))).

Definition rsx_finish (gm : GridManager) (oldF8 v14 v20 : float) : float * GridManager :=
  let gm :=
    set_f90_ (if (f90_ gm =? 0)%float then 1%float
              else if (f88 gm <=? f90_ gm)%float then (f88 gm + 1)%float
              else (f90_ gm + 1)%float) gm in
  let gm := if (f88 gm =? 0)%float then set_f88 (rsxThreshold gm) gm else gm in
  let fTemp0 :=
    if (f88 gm >=? f90_ gm)%float && negb (f8 gm =? oldF8)%float then 1%float else 0%float in
  let gm := set_f0 fTemp0 gm in
  let gm :=
    if (f88 gm =? f90_ gm)%float && (f0 gm =? 0)%float then set_f90 0%float gm
    else set_f90 (f90_ gm) gm in
  let rsxVal :=
    if (f88 gm <? f90 gm)%float && (v20 >? 0)%float then ((v14 / v20 + 1) * 50)%float
    else 50%float in
  (clamp rsxVal 0 100, gm).

(** The slice [initGridLines] stores when there are at least two lines:
    [n] multiples of the step, then the two ends overwritten. *)
Definition evenLadder (n : Z) : list float :=
  let step := (100 / float64_of_int (isub n 1))%float in
  let lines :=
    for_loop n (fun i l => <[ Z.to_nat i := (step * float64_of_int i)%float ]> l)
             (replicate (Z.to_nat n) 0%float) in
  <[ Z.to_nat (isub n 1) := 99%float ]> (<[ 0%nat := 1%float ]> lines).

(** Every earlier line is at most every later line. *)
Definition nondecreasing (l : list float) : Prop :=
  forall (i j : nat) (x y : float),
    (i < j)%nat -> l !! i = Some x -> l !! j = Some y -> (x <=? y)%float = true.

(** ** Frames and invariants used in the proofs *)

(** The indicator step writes the oscillator memory only. *)
Record indicator_frame (gm gm' : GridManager) : Prop := {
  fr_RsiLength : RsiLength gm' = RsiLength gm;
  fr_NumberOfGrids : NumberOfGrids gm' = NumberOfGrids gm;
  fr_MarketDirection : MarketDirection gm' = MarketDirection gm;
  fr_NoTradeZonePips : NoTradeZonePips gm' = NoTradeZonePips gm;
  fr_AggressionLevel : AggressionLevel gm' = AggressionLevel gm;
  fr_CurrentRsiType : CurrentRsiType gm' = CurrentRsiType gm;
  fr_lastRsiValue : lastRsiValue gm' = lastRsiValue gm;
  fr_lastSignal : lastSignal gm' = lastSignal gm;
  fr_lastSignalIndex : lastSignalIndex gm' = lastSignalIndex gm;
  fr_signalLine : signalLine gm' = signalLine gm;
  fr_gridLines : gridLines gm' = gridLines gm;
  fr_log : log gm' = log gm
}.

(** [gm'] is [gm] with other flags. *)
Definition flags_only (gm gm' : GridManager) : Prop :=
  gm' = set_sell (sell gm') (set_buy (buy gm') gm).

(** What a call never writes: the configuration, the ladder, the logger. *)
Record config_frame (gm gm' : GridManager) : Prop := {
  cf_RsiLength : RsiLength gm' = RsiLength gm;
  cf_NumberOfGrids : NumberOfGrids gm' = NumberOfGrids gm;
  cf_MarketDirection : MarketDirection gm' = MarketDirection gm;
  cf_NoTradeZonePips : NoTradeZonePips gm' = NoTradeZonePips gm;
  cf_AggressionLevel : AggressionLevel gm' = AggressionLevel gm;
  cf_CurrentRsiType : CurrentRsiType gm' = CurrentRsiType gm;
  cf_gridLines : gridLines gm' = gridLines gm;
  cf_log : log gm' = log gm
}.

(** What the stages after the indicator step leave of the oscillator memory. *)
Record oscillator_kept (gm gm' : GridManager) : Prop := {
  ok_f8 : f8 gm' = f8 gm;
  ok_f10 : f10 gm' = f10 gm;
  ok_f88 : f88 gm' = f88 gm;
  ok_f90_ : f90_ gm' = f90_ gm;
  ok_currentRsi : currentRsi gm' = currentRsi gm
}.

(** The state [NewGridManager] hands out. *)
Record fresh (gm : GridManager) : Prop := {
  fresh_grids : 1 <= NumberOfGrids gm < 2 ^ 63;
  fresh_length : Z.of_nat (length (gridLines gm)) = NumberOfGrids gm;
  fresh_ladder : 2 <= NumberOfGrids gm -> gridLines gm = evenLadder (NumberOfGrids gm);
  fresh_lastRsiValue : lastRsiValue gm = 0%float;
  fresh_lastSignal : lastSignal gm = 0%float;
  fresh_lastSignalIndex : lastSignalIndex gm = 0;
  fresh_signalLine : signalLine gm = 50%float;
  fresh_prevRawPrice : prevRawPrice gm = 0%float;
  fresh_f8 : f8 gm = 0%float;
  fresh_f10 : f10 gm = 0%float;
  fresh_f88 : f88 gm = 0%float
}.

(** The invariant of a manager in use: a ladder of [NumberOfGrids] lines and
    a last signal index that points into it. *)
Record wf (gm : GridManager) : Prop := {
  wf_grids : 1 <= NumberOfGrids gm < 2 ^ 63;
  wf_length : Z.of_nat (length (gridLines gm)) = NumberOfGrids gm;
  wf_index : 0 <= lastSignalIndex gm < NumberOfGrids gm
}.

(** Either the RSX has not seen a bar yet, or its threshold is set. *)
Definition rsx_started (gm : GridManager) : Prop :=
  (f8 gm =? 0)%float && (f10 gm =? 0)%float = true \/ f88 gm = rsxThreshold gm.

(** The invariant of an RSX manager in use. *)
Definition rsx_inv (gm0 gm : GridManager) : Prop :=
  rsx_started gm /\ CurrentRsiType gm = RsiTypeRSX /\ RsiLength gm = RsiLength gm0.

(** ** What the callers of the manager can read off its answers *)

(** The code [Process] stores in [lastSignal] for a signal; DoNothing stores
    nothing. *)
Definition signalCode (s : Signal) (previous : float) : float :=
  match s with
  | BuySignal => 1%float
  | SellSignal => (-1)%float
  | DoNothingSignal => previous
  end.

(** The last Buy or Sell of a run of answers, as [lastSignal] codes it. *)
Definition lastEmitted (previous : float) (signals : list Signal) : float :=
  fold_left (fun acc s => signalCode s acc) signals previous.

(** The two ways the signal memory of a manager can stand: no Buy or Sell
    answered yet, or the code of one with the ladder index that gave it. *)
Definition signalMemory (gm : GridManager) : Prop :=
  (lastSignal gm = 0%float /\ lastSignalIndex gm = 0) \/
  ((lastSignal gm = 1%float \/ lastSignal gm = (-1)%float) /\
   0 < lastSignalIndex gm < NumberOfGrids gm).

(** The tests of the two scans, as the loops of [getBuyLineIndex] and
    [getSellLineIndex] write them: the crossing of line [x], and the test
    that overrides the index whatever the line. *)
Definition buyCrossing (gm : GridManager) (x : Z) : bool :=
  (lastRsiValue gm <? getGridValue gm x)%float && (currentRsi gm >=? getGridValue gm x)%float
  && (lastRsiValue gm <=? signalLine gm)%float.

Definition buyReentry (gm : GridManager) : bool :=
  (lastRsiValue gm >? 99)%float && (currentRsi gm <=? 99)%float.

Definition sellCrossing (gm : GridManager) (x : Z) : bool :=
  (lastRsiValue gm >? getGridValue gm x)%float && (currentRsi gm <=? getGridValue gm x)%float
  && (lastRsiValue gm >=? signalLine gm)%float.

Definition sellReset (gm : GridManager) : bool :=
  (lastRsiValue gm <? 1)%float && (currentRsi gm >=? 1)%float.

(** The RSX has not seen a bar yet: the test of the first branch of
    [computeRSX]. *)
Definition rsx_unseeded (gm : GridManager) : bool := (f8 gm =? 0)%float && (f10 gm =? 0)%float.

(** The progress counter of a seeded RSX stands at one of 1 .. [k], under a
    threshold of at least 5. *)
Definition rsx_counting (gm : GridManager) (k : Z) : Prop :=
  (f88 gm <? 5)%float = false /\ exists j, 1 <= j <= k /\ f90_ gm = float64_of_int j.

(** An RSX manager within its first [k] bars. *)
Definition rsx_early (gm0 gm : GridManager) (k : Z) : Prop :=
  rsx_inv gm0 gm /\
  (lastRsiValue gm = 0%float \/ lastRsiValue gm = 50%float) /\
  (rsx_unseeded gm = true \/ rsx_counting gm k).

(** ** configs *)

(** Go's [error], by its message. *)
Definition error : Set := string.

(** [strconv.Itoa] *)
Definition Itoa (n : Z) : string := NilZero.string_of_int (Z.to_int n).

(** [Config]: the parameters read from the YAML file and the environment,
    the cache of secrets, and the Secret Manager client, which is what it
    answers to [AccessSecretVersion] for a path. *)
Record Config : Type := {
  BaseCurrency : string;
  BuyOrderSize : float;
  CommitmentTimeoutSeconds : Z;
  Environment : string;
  GcpProjectId : string;
  IntervalSeconds : Z;
  MaxRetriesTxMonitor : Z;
  QuoteCurrency : string;
  SellOrderSize : float;
  SmSecretKeyName : string;
  SmSecretKeyVersion : Z;
  secrets : gmap string string;
  sm : string -> error + string
}.

Definition set_sm (client : string -> error + string) (c : Config) : Config :=
  {| BaseCurrency := BaseCurrency c; BuyOrderSize := BuyOrderSize c;
     CommitmentTimeoutSeconds := CommitmentTimeoutSeconds c; Environment := Environment c;
     GcpProjectId := GcpProjectId c; IntervalSeconds := IntervalSeconds c;
     MaxRetriesTxMonitor := MaxRetriesTxMonitor c; QuoteCurrency := QuoteCurrency c;
     SellOrderSize := SellOrderSize c; SmSecretKeyName := SmSecretKeyName c;
     SmSecretKeyVersion := SmSecretKeyVersion c; secrets := secrets c; sm := client |}.

Definition set_secrets (m : gmap string string) (c : Config) : Config :=
  {| BaseCurrency := BaseCurrency c; BuyOrderSize := BuyOrderSize c;
     CommitmentTimeoutSeconds := CommitmentTimeoutSeconds c; Environment := Environment c;
     GcpProjectId := GcpProjectId c; IntervalSeconds := IntervalSeconds c;
     MaxRetriesTxMonitor := MaxRetriesTxMonitor c; QuoteCurrency := QuoteCurrency c;
     SellOrderSize := SellOrderSize c; SmSecretKeyName := SmSecretKeyName c;
     SmSecretKeyVersion := SmSecretKeyVersion c; secrets := m; sm := sm c |}.

(** [getSecret]: the payload of the secret at the full path built from the
    project, the shorthand name and the version. *)
Definition getSecret (c : Config) (name : string) (version : Z) : error + string :=
  let path :=
    ("projects/" ++ GcpProjectId c ++ "/secrets/" ++ name ++ "/versions/" ++ Itoa version)%string in
  match sm c path with
  | inl err => inl err
  | inr payload => inr payload
  end.

(** [NewConfig]. [read] is what viper's [ReadInConfig] and [Unmarshal] give:
    an error, or the struct filled from the file and the environment. *)
Definition NewConfig (read : error + Config) (client : string -> error + string)
  : error + Config :=
  match read with
  | inl err => inl err
  | inr cfg =>
      let cfg := set_sm client cfg in
      let cfg := set_secrets ∅ cfg in
      match getSecret cfg (SmSecretKeyName cfg) (SmSecretKeyVersion cfg) with
      | inl err => inl err
      | inr sk => inr (set_secrets (<[ SmSecretKeyName cfg := sk ]> (secrets cfg)) cfg)
      end
  end.

(** [SecretKey] *)
Definition SecretKey (c : Config) : error + string :=
  match secrets c !! SmSecretKeyName c with
  | Some sk => inr sk
  | None => inl "secret key not found"%string
  end.

(** ** internal/jupiter *)

Record PriceData : Set := { Id : string; Type_ : string; Price : string }.

(** [strings.Split(s, sep)] for a one-byte separator: the pieces between
    the occurrences of [sep], one more piece than there are occurrences. *)
Fixpoint Split (s : string) (sep : ascii) : list string :=
  match s with
  | EmptyString => [EmptyString]
  | String c rest =>
      if Ascii.eqb c sep then EmptyString :: Split rest sep
      else
        match Split rest sep with
        | part :: parts => String c part :: parts
        | [] => [String c EmptyString]
        end
  end.

(** The body of the loop of [getDecimals]: the precision read off one price
    string. *)
Definition priceDecimals (price : string) : Z :=
  let priceParts := Split price "."%char in
  if negb (Z.of_nat (length priceParts) =? 2) then 0
  else
    match priceParts !! 1%nat with
    | Some part => Z.of_nat (String.length part)
    | None => 0
    end.

(** [getDecimals], over what [getPrices] answers. *)
Definition getDecimals (getPrices : list string -> error + gmap string PriceData)
    (tokenAddresses : list string) : error + gmap string Z :=
  match getPrices tokenAddresses with
  | inl err => inl err
  | inr prices =>
      inr (map_fold (fun token priceData decimals =>
                       <[ token := priceDecimals (Price priceData) ]> decimals)
                    ∅ prices)
  end.

(** [GetPrice], over what [getPrices] answers and [strconv.ParseFloat]:
    the value and the error returned. *)
Definition GetPrice (getPrices : list string -> error + gmap string PriceData)
    (ParseFloat : string -> float * option error) (currency : string)
  : float * option error :=
  match getPrices [currency] with
  | inl err => (0%float, Some err)
  | inr prices =>
      match prices !! currency with
      | None => (0%float, Some ("no prices for " ++ currency)%string)
      | Some priceData => ParseFloat (Price priceData)
      end
  end.

Inductive CommitmentStatus : Set :=
  CommitmentProcessed | CommitmentConfirmed | CommitmentFinalized.

Record MonitorResponse : Set := { InstructionErr : option error }.

Definition stages : list CommitmentStatus :=
  [CommitmentProcessed; CommitmentConfirmed; CommitmentFinalized].

(** The loop of [MonitorTx], from [count] tries made and stage [stageIndex]:
    [count] and [stageIndex] when it is left. [wait n stage] is what
    [WaitForCommitmentStatus] answers to the [n]-th try, asked for [stage].
    [None] is an index out of the range of [stages], or [fuel] used up. *)
Fixpoint monitorLoop (wait : Z -> CommitmentStatus -> error + MonitorResponse)
    (maxRetries : Z) (fuel : nat) (count stageIndex : Z) : option (Z * Z) :=
  if count <? maxRetries then
    match fuel with
    | O => None
    | S fuel =>
        let count := iadd count 1 in
        if (stageIndex <? 0) || (stageIndex >=? Z.of_nat (length stages)) then None
        else
          match stages !! Z.to_nat stageIndex with
          | None => None
          | Some stage =>
              match wait count stage with
              | inl _ => monitorLoop wait maxRetries fuel count stageIndex
              | inr res =>
                  match InstructionErr res with
                  | Some _ => monitorLoop wait maxRetries fuel count stageIndex
                  | None =>
                      let stageIndex := iadd stageIndex 1 in
                      if stageIndex >=? Z.of_nat (length stages) then Some (count, stageIndex)
                      else monitorLoop wait maxRetries fuel count stageIndex
                  end
              end
          end
    end
  else Some (count, stageIndex).

(** [MonitorTx]: the tries made (each one after a sleep of five seconds) and
    the lines written. The loop makes at most [MaxRetriesTxMonitor] rounds. *)
Definition MonitorTx (cfg : Config) (wait : Z -> CommitmentStatus -> error + MonitorResponse)
    (txId : string) (log : Logger) : option (Logged Z) :=
  match monitorLoop wait (MaxRetriesTxMonitor cfg) (Z.to_nat (MaxRetriesTxMonitor cfg)) 0 0 with
  | None => None
  | Some (count, _) =>
      if count >=? MaxRetriesTxMonitor cfg then
        Some (count,
              Msg (Error log) "could not get commitment status after %d retries for %s"
                  [AInt (MaxRetriesTxMonitor cfg); AStr txId])
      else
        Some (count,
              Msg (Info log) "commitment status is finalized for transaction %s" [AStr txId])
  end.

(** How many times the byte [c] occurs in [s]. *)
Fixpoint occurrences (c : ascii) (s : string) : nat :=
  match s with
  | EmptyString => O
  | String a rest => if Ascii.eqb a c then S (occurrences c rest) else occurrences c rest
  end.

(** ** main *)

Inductive LoggingClient : Set := loggingClient.

(** [logger.NewLogger] *)
Definition NewLogger (client : option LoggingClient) : Logger :=
  match client with
  | None => LocalLogger
  | Some _ => CloudLogger
  end.

(** [LocalEvent.Err]: a new zerolog event at the error level that carries
    [err] as a field; the field is recorded after the arguments. *)
Definition LocalEvent_Err (err : error) : Event :=
  {| Msg := fun fmt a => [ {| severity := SevError; format := fmt; args := a ++ [AStr err] |} ] |}.

(** [log.Error().Err(err)] on the logger [NewLogger client]: the local
    event above, or the cloud event with [err] attached. *)
Definition Error_Err (client : option LoggingClient) (err : error) : Event :=
  match client with
  | None => LocalEvent_Err err
  | Some _ => CloudEvent SevError (Some err)
  end.

(** What the services answer during one round of the loop: the pricing
    endpoint to [getPrices], and Jupiter and the chain to [SubmitSwap] (the
    transaction id and the error returned). *)
Record Network : Type := {
  getPrices : list string -> error + gmap string PriceData;
  SubmitSwap : string -> string -> float -> string * option error
}.

(** What a round does, in order. *)
Inductive Effect : Type :=
| Sleep (nanoseconds : Z)
| Log (lines : list Entry)
| Swap (baseCurrency quoteCurrency : string) (amount : float)
| Go_MonitorTx (txId : string).

(** After a call of [SubmitSwap]: the error logged, or the swap logged and
    its monitor started. *)
Definition submitted (client : option LoggingClient) (answer : string * option error)
  : list Effect :=
  match snd answer with
  | Some err => [Log (Msg (Error_Err client err) "failed to submit swap" [])]
  | None =>
      [Log (Msg (Info (NewLogger client)) "submitted swap %s" [AStr (fst answer)]);
       Go_MonitorTx (fst answer)]
  end.

(** One round of the loop of [main]: the sleep of [IntervalSeconds] (a
    [time.Duration], in nanoseconds), the price, the signal, the swap.
    [Process] returns a nil error, so the branch that logs its failure is
    not taken. *)
Definition iteration (cfg : Config) (client : option LoggingClient)
    (ParseFloat : string -> float * option error) (net : Network) (gm : GridManager)
  : list Effect * GridManager :=
  let log := NewLogger client in
  let sleep := Sleep (wrap64 (IntervalSeconds cfg * 1000000000)) in
  let fetch := GetPrice (getPrices net) ParseFloat (QuoteCurrency cfg) in
  match snd fetch with
  | Some err =>
      ([sleep; Log (Msg (Error_Err client err) "failed to get quote currency price" [])], gm)
  | None =>
      let price := fst fetch in
      let r := Process gm price in
      let signal := fst (fst r) in
      let gm := snd (fst r) in
      let head :=
        [sleep;
         Log (Msg (Info log) "quote currency price - $%f" [AFloat price]);
         Log (snd r);
         Log (Msg (Info log) "%s signal received" [AStr (Signal_string signal)])] in
      match signal with
      | BuySignal =>
          (head ++ Swap (BaseCurrency cfg) (QuoteCurrency cfg) (BuyOrderSize cfg)
                :: submitted client
                     (SubmitSwap net (BaseCurrency cfg) (QuoteCurrency cfg) (BuyOrderSize cfg)),
           gm)
      | SellSignal =>
          (head ++ Swap (QuoteCurrency cfg) (BaseCurrency cfg) (SellOrderSize cfg)
                :: submitted client
                     (SubmitSwap net (QuoteCurrency cfg) (BaseCurrency cfg) (SellOrderSize cfg)),
           gm)
      | DoNothingSignal =>
          (head ++ [Log (Msg (Info log) "no action taken this interval" [])], gm)
      end
  end.

(** The first rounds of the endless loop, one [Network] a round. *)
Fixpoint mainLoop (cfg : Config) (client : option LoggingClient)
    (ParseFloat : string -> float * option error) (nets : list Network) (gm : GridManager)
  : list Effect * GridManager :=
  match nets with
  | [] => ([], gm)
  | net :: rest =>
      let r := iteration cfg client ParseFloat net gm in
      let r' := mainLoop cfg client ParseFloat rest (snd r) in
      (fst r ++ fst r', snd r')
  end.

(** [main] from the logger on: the grid manager is built, the set-up is
    logged, and the loop runs. [cfg] and [client] are what the start-up
    gave. [None] is the panic of [NewGridManager]. *)
Definition main (cfg : Config) (client : option LoggingClient)
    (ParseFloat : string -> float * option error) (nets : list Network)
  : option (list Effect * GridManager) :=
  let log := NewLogger client in
  match NewGridManager 7 10 "neutral" "35-65" "low" "rsx" log with
  | None => None
  | Some r =>
      let loop := mainLoop cfg client ParseFloat nets (fst r) in
      Some (Log (snd r)
            :: Log (Msg (Info log)
                      "setup successfully completed initializing system configuration, logging, Secret Manager, and Jupiter Client"
                      [])
            :: fst loop,
            snd loop)
  end.

(** The prices the loop got, in order: those of the rounds whose [GetPrice]
    returned no error. *)
Definition fetched (cfg : Config) (ParseFloat : string -> float * option error)
    (nets : list Network) : list float :=
  flat_map (fun net =>
              let fetch := GetPrice (getPrices net) ParseFloat (QuoteCurrency cfg) in
              match snd fetch with
              | Some _ => []
              | None => [fst fetch]
              end) nets.

(** The swaps asked for in a trace, and the monitors started. *)
Definition swaps (trace : list Effect) : list (string * string * float) :=
  flat_map (fun e => match e with Swap b q a => [(b, q, a)] | _ => [] end) trace.

Definition monitors (trace : list Effect) : list string :=
  flat_map (fun e => match e with Go_MonitorTx txId => [txId] | _ => [] end) trace.

(** The swap a signal stands for. *)
Definition order (cfg : Config) (s : Signal) : list (string * string * float) :=
  match s with
  | BuySignal => [(BaseCurrency cfg, QuoteCurrency cfg, BuyOrderSize cfg)]
  | SellSignal => [(QuoteCurrency cfg, BaseCurrency cfg, SellOrderSize cfg)]
  | DoNothingSignal => []
  end.

(** ** A configuration and services to run the code on *)

Definition sampleConfig (maxRetries : Z) : Config :=
  {| BaseCurrency := "USDC"; BuyOrderSize := 1; CommitmentTimeoutSeconds := 60;
     Environment := "production"; GcpProjectId := "nf"; IntervalSeconds := 60;
     MaxRetriesTxMonitor := maxRetries; QuoteCurrency := "SOL"; SellOrderSize := 2;
     SmSecretKeyName := "wallet"; SmSecretKeyVersion := 3;
     secrets := ∅; sm := fun _ => inl "no client"%string |}.

Definition sampleSecrets (path : string) : error + string :=
  if String.eqb path "projects/nf/secrets/wallet/versions/3"
  then inr "5Kb8"%string else inl "not found"%string.

Definition samplePrices (tokenAddresses : list string) : error + gmap string PriceData :=
  inr {[ "SOL"%string := {| Id := "SOL"; Type_ := "derivedPrice"; Price := "171.2500" |} ]}.

Definition sampleParseFloat (s : string) : float * option error :=
  if String.eqb s "171.2500" then (171.25%float, None)
  else (0%float, Some "invalid syntax"%string).

Definition sampleNetwork : Network :=
  {| getPrices := samplePrices; SubmitSwap := fun _ _ _ => ("tx"%string, None) |}.

(** A monitor that confirms every stage but for a time-out at the second
    try, and one that confirms every stage at once. *)
Definition sampleWait (n : Z) (stage : CommitmentStatus) : error + MonitorResponse :=
  if n =? 2 then inl "timeout"%string else inr {| InstructionErr := None |}.

Definition cleanWait (n : Z) (stage : CommitmentStatus) : error + MonitorResponse :=
  inr {| InstructionErr := None |}.

(** Not a number: the binary64 value that compares with nothing, itself
    included. *)
Definition not_a_number (x : float) : Prop := Prim2SF x = S754_nan.

(** A manager whose indicator memory holds a NaN that every later bar
    inherits, for the variant it runs: the average loss or the previous raw
    price of the classic RSI, with 50 or a NaN as the previous oscillator
    value; the last smoothing stage or the scaled price of the RSX, with 50
    as the previous oscillator value. *)
Definition poisoned (gm : GridManager) : Prop :=
  if CurrentRsiType gm =? RsiTypeRSX
  then (not_a_number (f78 gm) \/ not_a_number (f8 gm)) /\ lastRsiValue gm = 50%float
  else (not_a_number (avgLoss gm) \/ not_a_number (prevRawPrice gm)) /\
       (not_a_number (lastRsiValue gm) \/ lastRsiValue gm = 50%float).

(** * Properties *)

(** ** Comparisons of binary64 values *)

Section FloatOrder.
Implicit Types x y : float.

(** Below zero is below five. *)
Lemma ltb_0_ltb_5 x : (x <? 0)%float = true -> (x <? 5)%float = true.
Proof.
  rewrite !FloatAxioms.ltb_spec.
  set (c0 := Prim2SF 0); vm_compute in c0; subst c0.
  set (c5 := Prim2SF 5); vm_compute in c5; subst c5.
  destruct (Prim2SF x) as [[]|[]| |[] m e]; cbv [SFltb SFcompare]; intros H; first [reflexivity | discriminate H].
Qed.

(** A value that compares at all is below 100 or above 1. *)
Lemma leb_true_in_range x y :
  (x <=? y)%float = true -> (x <? 100)%float || (x >? 1)%float = true.
Proof.
  rewrite FloatAxioms.leb_spec, !FloatAxioms.ltb_spec.
  set (c := Prim2SF 100); vm_compute in c; subst c.
  set (c := Prim2SF 1); vm_compute in c; subst c.
  destruct (Prim2SF x) as [[]|[]| |[] m e]; cbv [SFltb SFleb SFcompare]; intros H;
    try reflexivity; try discriminate H.
  destruct (Z.compare_spec e (-46)) as [->|Hlt|Hgt].
  - apply orb_true_iff; right; reflexivity.
  - reflexivity.
  - rewrite (proj2 (Z.compare_lt_iff (-52) e)) by lia. apply orb_true_r.
Qed.

Lemma geb_true_in_range x y :
  (x >=? y)%float = true -> (x <? 100)%float || (x >? 1)%float = true.
Proof.
  rewrite FloatAxioms.leb_spec, !FloatAxioms.ltb_spec.
  set (c := Prim2SF 100); vm_compute in c; subst c.
  set (c := Prim2SF 1); vm_compute in c; subst c.
  destruct (Prim2SF y) as [[]|[]| |[] m' e'];
    destruct (Prim2SF x) as [[]|[]| |[] m e]; cbv [SFltb SFleb SFcompare]; intros H;
    try reflexivity; try discriminate H.
  all: destruct (Z.compare_spec e (-46)) as [->|Hlt|Hgt];
    [ apply orb_true_iff; right; reflexivity
    | reflexivity
    | rewrite (proj2 (Z.compare_lt_iff (-52) e)) by lia; apply orb_true_r ].
Qed.
End FloatOrder.

(** ** What each stage of a call touches *)

(** Reading a field of a record that was just assigned. *)
Ltac fields :=
  cbn [RsiLength NumberOfGrids MarketDirection NoTradeZonePips AggressionLevel CurrentRsiType
       lastRsiValue currentRsi lastSignal lastSignalIndex signalLine
       avgGain avgLoss prevRawPrice
       f8 f10 f28 f30 f38 f40 f48 f50 f58 f60 f68 f70 f78 f80 f88 f90 f90_ f0
       gridLines buy sell log
       set_RsiLength set_NumberOfGrids set_MarketDirection set_NoTradeZonePips
       set_AggressionLevel set_CurrentRsiType
       set_lastRsiValue set_currentRsi set_lastSignal set_lastSignalIndex set_signalLine
       set_avgGain set_avgLoss set_prevRawPrice
       set_f8 set_f10 set_f28 set_f30 set_f38 set_f40 set_f48 set_f50 set_f58 set_f60
       set_f68 set_f70 set_f78 set_f80 set_f88 set_f90 set_f90_ set_f0
       set_gridLines set_buy set_sell set_log fst snd] in *.

Ltac split_ifs :=
  repeat match goal with
         | |- context [if ?c then _ else _] => destruct c
         end.

Lemma computeRSI_frame gm price : indicator_frame gm (snd (computeRSI gm price)).
Proof. unfold computeRSI. split_ifs; constructor; reflexivity. Qed.

Lemma computeRSX_frame gm price : indicator_frame gm (snd (computeRSX gm price)).
Proof. unfold computeRSX. split_ifs; constructor; reflexivity. Qed.

Lemma computeOscillator_frame gm price : indicator_frame gm (computeOscillator gm price).
Proof.
  unfold computeOscillator. destruct (CurrentRsiType gm =? RsiTypeRSX).
  - destruct (computeRSX_frame gm price); constructor; assumption.
  - destruct (computeRSI_frame gm price); constructor; assumption.
Qed.

Lemma flags_only_trans gm1 gm2 gm3 :
  flags_only gm1 gm2 -> flags_only gm2 gm3 -> flags_only gm1 gm3.
Proof. unfold flags_only. intros H12 H23. rewrite H23 at 1. rewrite H12 at 1. reflexivity. Qed.

Lemma detectCrossings_flags gm : flags_only gm (detectCrossings gm).
Proof. reflexivity. Qed.

Lemma applyAggressionFilter_flags gm : flags_only gm (applyAggressionFilter gm).
Proof. unfold applyAggressionFilter. split_ifs; destruct gm; reflexivity. Qed.

Lemma applyNoTradeZoneFilter_flags gm : flags_only gm (applyNoTradeZoneFilter gm).
Proof. unfold applyNoTradeZoneFilter. split_ifs; destruct gm; reflexivity. Qed.

Lemma applyDirectionFilter_flags gm : flags_only gm (applyDirectionFilter gm).
Proof. unfold applyDirectionFilter. split_ifs; destruct gm; reflexivity. Qed.

Lemma filterPipeline_flags gm : flags_only gm (filterPipeline gm).
Proof.
  unfold filterPipeline.
  eapply flags_only_trans; [apply applyAggressionFilter_flags|].
  eapply flags_only_trans; [apply applyNoTradeZoneFilter_flags|].
  apply applyDirectionFilter_flags.
Qed.

Lemma filterPipeline_eq gm :
  filterPipeline gm = applyDirectionFilter (applyNoTradeZoneFilter (applyAggressionFilter gm)).
Proof. reflexivity. Qed.

(** The crossing scan reads neither flag. *)
Lemma getBuyLineIndex_flags gm b s :
  getBuyLineIndex (set_sell s (set_buy b gm)) = getBuyLineIndex gm.
Proof. reflexivity. Qed.

Lemma getSellLineIndex_flags gm b s :
  getSellLineIndex (set_sell s (set_buy b gm)) = getSellLineIndex gm.
Proof. reflexivity. Qed.

(** [Process], stage by stage. *)
Lemma Process_steady_stages gm :
  fst (Process_steady gm) =
  resolveSignal (filterPipeline (detectCrossings gm)) (getBuyLineIndex gm) (getSellLineIndex gm).
Proof.
  unfold Process_steady, resolveSignal, filterPipeline, detectCrossings.
  cbn [bind write ret fst snd].
  rewrite ?getBuyLineIndex_flags, ?getSellLineIndex_flags.
  reflexivity.
Qed.

Lemma Process_stages gm price :
  fst (Process gm price) =
  let gm1 := computeOscillator gm price in
  if warm gm then (DoNothingSignal, set_lastRsiValue (currentRsi gm1) gm1)
  else resolveSignal (filterPipeline (detectCrossings gm1))
                     (getBuyLineIndex gm1) (getSellLineIndex gm1).
Proof.
  unfold Process, warm. cbn [bind write ret fst snd].
  rewrite (fr_lastRsiValue _ _ (computeOscillator_frame gm price)).
  destruct (lastRsiValue gm =? 0)%float; [reflexivity|].
  apply Process_steady_stages.
Qed.

Lemma flags_only_frame gm gm' :
  flags_only gm gm' -> indicator_frame gm gm' /\ currentRsi gm' = currentRsi gm.
Proof. intros ->. split; [constructor|]; reflexivity. Qed.

Lemma Process_signal_stages gm price :
  Process_signal gm price =
  if warm gm then DoNothingSignal
  else fst (resolveSignal (filterPipeline (detectCrossings (computeOscillator gm price)))
              (getBuyLineIndex (computeOscillator gm price))
              (getSellLineIndex (computeOscillator gm price))).
Proof.
  unfold Process_signal. rewrite Process_stages. cbv zeta.
  destruct (warm gm); reflexivity.
Qed.

Lemma Process_state_stages gm price :
  Process_state gm price =
  if warm gm
  then set_lastRsiValue (currentRsi (computeOscillator gm price)) (computeOscillator gm price)
  else snd (resolveSignal (filterPipeline (detectCrossings (computeOscillator gm price)))
              (getBuyLineIndex (computeOscillator gm price))
              (getSellLineIndex (computeOscillator gm price))).
Proof.
  unfold Process_state. rewrite Process_stages. cbv zeta.
  destruct (warm gm); reflexivity.
Qed.

(** The signal is read off the two flags. *)
Lemma resolveSignal_signal gm bi si :
  fst (resolveSignal gm bi si) =
  if buy gm then BuySignal else if sell gm then SellSignal else DoNothingSignal.
Proof. unfold resolveSignal. destruct (buy gm), (sell gm); reflexivity. Qed.

(** ** The filters only suppress *)

Lemma applyAggressionFilter_clears gm :
  (buy (applyAggressionFilter gm) = true -> buy gm = true) /\
  (sell (applyAggressionFilter gm) = true -> sell gm = true).
Proof. unfold applyAggressionFilter. split_ifs; split; cbn; congruence. Qed.

Lemma applyNoTradeZoneFilter_clears gm :
  (buy (applyNoTradeZoneFilter gm) = true -> buy gm = true) /\
  (sell (applyNoTradeZoneFilter gm) = true -> sell gm = true).
Proof. unfold applyNoTradeZoneFilter. split_ifs; split; cbn; congruence. Qed.

Lemma applyDirectionFilter_clears gm :
  (buy (applyDirectionFilter gm) = true -> buy gm = true) /\
  (sell (applyDirectionFilter gm) = true -> sell gm = true).
Proof. unfold applyDirectionFilter. split_ifs; split; cbn; congruence. Qed.

Lemma filterPipeline_clears gm :
  (buy (filterPipeline gm) = true -> buy gm = true) /\
  (sell (filterPipeline gm) = true -> sell gm = true).
Proof.
  unfold filterPipeline.
  destruct (applyAggressionFilter_clears gm) as [Ha Ha'].
  destruct (applyNoTradeZoneFilter_clears (applyAggressionFilter gm)) as [Hn Hn'].
  destruct (applyDirectionFilter_clears (applyNoTradeZoneFilter (applyAggressionFilter gm)))
    as [Hd Hd'].
  split; auto.
Qed.

Lemma not_true_false (b b' : bool) : (b' = true -> b = true) -> b = false -> b' = false.
Proof. destruct b, b'; intuition congruence. Qed.

(** C7: each of the three filters can take a flag from true to false and
    never from false to true; so flags that enter the pipeline both false
    leave it both false, the signal resolved from them is DoNothing, and a
    bar on which the crossing scan raises neither flag ends in DoNothing. *)
Theorem filters_only_suppress gm price :
  ((buy (applyAggressionFilter gm) = true -> buy gm = true) /\
   (sell (applyAggressionFilter gm) = true -> sell gm = true)) /\
  ((buy (applyNoTradeZoneFilter gm) = true -> buy gm = true) /\
   (sell (applyNoTradeZoneFilter gm) = true -> sell gm = true)) /\
  ((buy (applyDirectionFilter gm) = true -> buy gm = true) /\
   (sell (applyDirectionFilter gm) = true -> sell gm = true)) /\
  (buy gm = false -> sell gm = false ->
   buy (filterPipeline gm) = false /\ sell (filterPipeline gm) = false /\
   forall bi si, fst (resolveSignal (filterPipeline gm) bi si) = DoNothingSignal) /\
  (buy (detectCrossings (computeOscillator gm price)) = false ->
   sell (detectCrossings (computeOscillator gm price)) = false ->
   Process_signal gm price = DoNothingSignal).
Proof.
  assert (Hpipe : forall g, buy g = false -> sell g = false ->
            buy (filterPipeline g) = false /\ sell (filterPipeline g) = false /\
            forall bi si, fst (resolveSignal (filterPipeline g) bi si) = DoNothingSignal).
  { intros g Hb Hs. destruct (filterPipeline_clears g) as [Hb' Hs'].
    pose proof (not_true_false _ _ Hb' Hb) as Eb.
    pose proof (not_true_false _ _ Hs' Hs) as Es.
    split; [exact Eb|]. split; [exact Es|].
    intros bi si. rewrite resolveSignal_signal, Eb, Es. reflexivity. }
  split; [apply applyAggressionFilter_clears|].
  split; [apply applyNoTradeZoneFilter_clears|].
  split; [apply applyDirectionFilter_clears|].
  split; [apply Hpipe|].
  intros Hb Hs. rewrite Process_signal_stages.
  destruct (warm gm); [reflexivity|].
  apply (Hpipe _ Hb Hs).
Qed.

Lemma filters_only_suppress_witness :
  Process_signal (final (newManager 7 10 "neutral" "35-65" "low" "rsi") [100; 100]%float) 100
  = DoNothingSignal.
Proof.
  apply (filters_only_suppress
           (final (newManager 7 10 "neutral" "35-65" "low" "rsi") [100; 100]%float) 100);
    vm_compute; reflexivity.
Defined.

(** ** Frames through the stages of a steady call *)

Lemma indicator_frame_trans gm1 gm2 gm3 :
  indicator_frame gm1 gm2 -> indicator_frame gm2 gm3 -> indicator_frame gm1 gm3.
Proof. intros [] []. constructor; congruence. Qed.

Lemma getGridValue_ext gm gm' idx :
  gridLines gm' = gridLines gm -> getGridValue gm' idx = getGridValue gm idx.
Proof. unfold getGridValue. intros ->. reflexivity. Qed.

Section SteadyStages.
Variables (gm : GridManager) (price : float).

Let gm1 := computeOscillator gm price.
Let gmc := detectCrossings gm1.
Let gma := applyAggressionFilter gmc.
Let gmn := applyNoTradeZoneFilter gma.

Lemma crossings_frame : indicator_frame gm gmc /\ currentRsi gmc = currentRsi gm1.
Proof.
  destruct (flags_only_frame _ _ (detectCrossings_flags gm1)) as [F E].
  split; [|exact E].
  exact (indicator_frame_trans _ _ _ (computeOscillator_frame gm price) F).
Qed.

Lemma aggression_frame : indicator_frame gm gma /\ currentRsi gma = currentRsi gm1.
Proof.
  destruct crossings_frame as [F E].
  destruct (flags_only_frame _ _ (applyAggressionFilter_flags gmc)) as [F' E'].
  split; [exact (indicator_frame_trans _ _ _ F F')|exact (eq_trans E' E)].
Qed.

Lemma noTradeZone_frame : indicator_frame gm gmn /\ currentRsi gmn = currentRsi gm1.
Proof.
  destruct aggression_frame as [F E].
  destruct (flags_only_frame _ _ (applyNoTradeZoneFilter_flags gma)) as [F' E'].
  split; [exact (indicator_frame_trans _ _ _ F F')|exact (eq_trans E' E)].
Qed.

Lemma pipeline_frame :
  indicator_frame gm (filterPipeline gmc) /\ currentRsi (filterPipeline gmc) = currentRsi gm1.
Proof.
  destruct noTradeZone_frame as [F E].
  destruct (flags_only_frame _ _ (applyDirectionFilter_flags gmn)) as [F' E'].
  split; [exact (indicator_frame_trans _ _ _ F F')|exact (eq_trans E' E)].
Qed.
End SteadyStages.

(** ** The no-trade zone *)

(** C8: when the previous oscillator value lies strictly between 50 - ntz
    and 50 + ntz, the no-trade-zone filter leaves both flags false and
    [Process] answers DoNothing whatever crossing the bar shows; so it does
    with a width of 15 and a previous value of 55. *)
Theorem noTradeZone_silences gm price :
  ((lastRsiValue gm >? 50 - float64_of_int (NoTradeZonePips gm))%float
   && (lastRsiValue gm <? 50 + float64_of_int (NoTradeZonePips gm))%float = true ->
   buy (applyNoTradeZoneFilter gm) = false /\
   sell (applyNoTradeZoneFilter gm) = false /\
   Process_signal gm price = DoNothingSignal) /\
  (NoTradeZonePips gm = 15 -> lastRsiValue gm = 55%float ->
   Process_signal gm price = DoNothingSignal).
Proof.
  assert (Hgen : (lastRsiValue gm >? 50 - float64_of_int (NoTradeZonePips gm))%float
     && (lastRsiValue gm <? 50 + float64_of_int (NoTradeZonePips gm))%float = true ->
     buy (applyNoTradeZoneFilter gm) = false /\
     sell (applyNoTradeZoneFilter gm) = false /\
     Process_signal gm price = DoNothingSignal).
  { intros Hz.
    split; [unfold applyNoTradeZoneFilter; rewrite Hz; reflexivity|].
    split; [unfold applyNoTradeZoneFilter; rewrite Hz; reflexivity|].
    rewrite Process_signal_stages. destruct (warm gm); [reflexivity|].
    rewrite resolveSignal_signal, filterPipeline_eq.
    set (gma := applyAggressionFilter (detectCrossings (computeOscillator gm price))).
    destruct (aggression_frame gm price) as [F _]. fold gma in F.
    assert (Hn : applyNoTradeZoneFilter gma = set_sell false (set_buy false gma)).
    { unfold applyNoTradeZoneFilter.
      rewrite (fr_lastRsiValue _ _ F), (fr_NoTradeZonePips _ _ F), Hz. reflexivity. }
    destruct (applyDirectionFilter_clears (applyNoTradeZoneFilter gma)) as [Hb Hs].
    rewrite Hn in Hb, Hs. rewrite Hn.
    rewrite (not_true_false _ _ Hb eq_refl), (not_true_false _ _ Hs eq_refl).
    reflexivity. }
  split; [exact Hgen|].
  intros Hw Hl. apply Hgen. rewrite Hw, Hl. vm_compute. reflexivity.
Qed.

Lemma noTradeZone_silences_witness :
  Process_signal (final (newManager 7 10 "neutral" "35-65" "low" "rsi") [100; 110; 72]%float) 150
  = DoNothingSignal.
Proof.
  apply (proj1 (noTradeZone_silences
           (final (newManager 7 10 "neutral" "35-65" "low" "rsi") [100; 110; 72]%float) 150)).
  vm_compute. reflexivity.
Defined.

(** The same four bars with and without the zone: the fourth bar, whose
    previous oscillator value 61.2 lies in 35-65, answers Buy without the
    zone and DoNothing with it. *)
Lemma noTradeZone_example :
  map fst (feed (newManager 7 10 "neutral" "n/a" "low" "rsi") [100; 110; 72; 150]%float)
  = [DoNothingSignal; DoNothingSignal; SellSignal; BuySignal] /\
  map fst (feed (newManager 7 10 "neutral" "35-65" "low" "rsi") [100; 110; 72; 150]%float)
  = [DoNothingSignal; DoNothingSignal; SellSignal; DoNothingSignal].
Proof. vm_compute. auto. Qed.

(** ** What a DoNothing call leaves behind *)

Lemma resolveSignal_quiet gp bi si :
  buy gp = false -> sell gp = false ->
  snd (resolveSignal gp bi si) =
  set_lastRsiValue (currentRsi gp) (set_signalLine (getGridValue gp (lastSignalIndex gp)) gp).
Proof. unfold resolveSignal. intros -> ->. reflexivity. Qed.

Lemma signal_DoNothing_flags gp bi si :
  fst (resolveSignal gp bi si) = DoNothingSignal -> buy gp = false /\ sell gp = false.
Proof.
  rewrite resolveSignal_signal. destruct (buy gp), (sell gp); intros H; try discriminate H.
  split; reflexivity.
Qed.

Lemma resolveSignal_currentRsi gp bi si :
  currentRsi (snd (resolveSignal gp bi si)) = currentRsi gp.
Proof. unfold resolveSignal. destruct (buy gp), (sell gp); reflexivity. Qed.

(** A steady call that answers DoNothing writes the signal line only, with
    the ladder value at the last signal index it found. *)
Lemma steady_quiet_carry gm price :
  warm gm = false ->
  Process_signal gm price = DoNothingSignal ->
  lastSignal (Process_state gm price) = lastSignal gm /\
  lastSignalIndex (Process_state gm price) = lastSignalIndex gm /\
  signalLine (Process_state gm price) = getGridValue gm (lastSignalIndex gm).
Proof.
  intros Hw Hsig.
  rewrite Process_signal_stages, Hw in Hsig. rewrite Process_state_stages, Hw.
  destruct (pipeline_frame gm price) as [F _].
  apply signal_DoNothing_flags in Hsig. destruct Hsig as [Hb Hs].
  rewrite (resolveSignal_quiet _ _ _ Hb Hs).
  revert F. generalize (filterPipeline (detectCrossings (computeOscillator gm price))).
  intros gp F. fields.
  rewrite (fr_lastSignalIndex _ _ F), (getGridValue_ext _ _ _ (fr_gridLines _ _ F)).
  split; [exact (fr_lastSignal _ _ F)|]. split; reflexivity.
Qed.

(** C1 (as the code has it): a call that answers DoNothing keeps the last
    signal and the last signal index. The signal line is kept by a warm-up
    call; a steady call recomputes it as the ladder value at the (kept) last
    signal index, so it is unchanged exactly when it already was that ladder
    value. *)
Theorem DoNothing_carry gm price :
  Process_signal gm price = DoNothingSignal ->
  lastSignal (Process_state gm price) = lastSignal gm /\
  lastSignalIndex (Process_state gm price) = lastSignalIndex gm /\
  signalLine (Process_state gm price) =
    (if warm gm then signalLine gm else getGridValue gm (lastSignalIndex gm)) /\
  (signalLine gm = getGridValue gm (lastSignalIndex gm) ->
   signalLine (Process_state gm price) = signalLine gm).
Proof.
  intros Hsig.
  assert (H3 : lastSignal (Process_state gm price) = lastSignal gm /\
               lastSignalIndex (Process_state gm price) = lastSignalIndex gm /\
               signalLine (Process_state gm price) =
               (if warm gm then signalLine gm else getGridValue gm (lastSignalIndex gm))).
  { destruct (warm gm) eqn:Hw.
    - rewrite Process_state_stages, Hw.
      destruct (computeOscillator_frame gm price) as [_ _ _ _ _ _ _ E1 E2 E3 _ _].
      revert E1 E2 E3. generalize (computeOscillator gm price). intros g E1 E2 E3.
      split; [exact E1|]. split; [exact E2|exact E3].
    - apply steady_quiet_carry; assumption. }
  destruct H3 as (H1 & H2 & H3).
  split; [exact H1|]. split; [exact H2|]. split; [exact H3|].
  intros Hline. rewrite H3. destruct (warm gm); [reflexivity|]. symmetry. exact Hline.
Qed.

Lemma DoNothing_carry_witness :
  signalLine (Process_state
                (final (newManager 7 10 "neutral" "35-65" "low" "rsi") [100; 110; 72]%float) 150)
  = signalLine (final (newManager 7 10 "neutral" "35-65" "low" "rsi") [100; 110; 72]%float).
Proof.
  refine (proj2 (proj2 (proj2 (DoNothing_carry
           (final (newManager 7 10 "neutral" "35-65" "low" "rsi") [100; 110; 72]%float) 150
           _))) _);
    vm_compute; reflexivity.
Defined.

(** C1, as stated, fails on the second bar of a fresh manager: the call is
    past warm-up and answers DoNothing, the signal line was 50 with last
    index 0 before it, and is 1 after it. *)
Lemma DoNothing_moves_signalLine :
  let gm := Process_state (newManager 7 10 "neutral" "35-65" "low" "rsi") 100 in
  warm gm = false /\
  Process_signal gm 101 = DoNothingSignal /\
  lastSignalIndex gm = 0 /\
  signalLine gm = 50%float /\
  signalLine (Process_state gm 101) = 1%float /\
  signalLine (Process_state gm 101) <> signalLine gm.
Proof.
  vm_compute. do 5 (split; [reflexivity|]).
  intros H. apply (f_equal (fun x => (x =? 1)%float)) in H. vm_compute in H. discriminate H.
Qed.

(** ** The direction filter *)

Lemma applyDirectionFilter_up g :
  MarketDirection g = DirUp ->
  (currentRsi g <=? signalLine g + 2 * (100 / float64_of_int (isub (NumberOfGrids g) 1)))%float
  = true ->
  sell (applyDirectionFilter g) = false.
Proof.
  intros Hdir Hle. unfold applyDirectionFilter. cbv zeta.
  rewrite (leb_true_in_range _ _ Hle), Hdir.
  change (DirUp =? DirDown) with false. cbn [andb].
  rewrite Hdir, Hle. reflexivity.
Qed.

Lemma applyDirectionFilter_down g :
  MarketDirection g = DirDown ->
  (currentRsi g >=? signalLine g - 2 * (100 / float64_of_int (isub (NumberOfGrids g) 1)))%float
  = true ->
  buy (applyDirectionFilter g) = false.
Proof.
  intros Hdir Hge. unfold applyDirectionFilter. cbv zeta.
  rewrite (geb_true_in_range _ _ Hge), Hdir.
  change (DirDown =? DirDown) with true. cbn [andb]. rewrite Hge.
  fields. rewrite Hdir. reflexivity.
Qed.

Lemma applyDirectionFilter_neutral g :
  MarketDirection g = DirNeutral -> applyDirectionFilter g = g.
Proof.
  intros Hdir. unfold applyDirectionFilter. cbv zeta. rewrite Hdir.
  change (DirNeutral =? DirDown) with false. cbn [andb]. rewrite Hdir.
  change (DirNeutral =? DirUp) with false. cbn [andb].
  destruct (_ || _); reflexivity.
Qed.

(** C3 (as the code has it): with bias Up a Sell is answered only when the
    oscillator of the bar is not at or below the signal line plus two grid
    steps; with bias Down a Buy only when it is not at or above the signal
    line minus two grid steps; with bias Neutral the direction filter
    returns the manager it was given. *)
Theorem direction_gate gm price :
  let gi := (100 / float64_of_int (isub (NumberOfGrids gm) 1))%float in
  (MarketDirection gm = DirUp -> Process_signal gm price = SellSignal ->
   (currentRsi (Process_state gm price) <=? signalLine gm + 2 * gi)%float = false) /\
  (MarketDirection gm = DirDown -> Process_signal gm price = BuySignal ->
   (currentRsi (Process_state gm price) >=? signalLine gm - 2 * gi)%float = false) /\
  (MarketDirection gm = DirNeutral -> applyDirectionFilter gm = gm).
Proof.
  cbv zeta.
  assert (Hcur : warm gm = false ->
                 currentRsi (Process_state gm price) = currentRsi (computeOscillator gm price)).
  { intros Hw. rewrite Process_state_stages, Hw.
    destruct (pipeline_frame gm price) as [_ E]. rewrite <- E.
    apply resolveSignal_currentRsi. }
  split; [|split].
  - intros Hdir Hsig. rewrite Process_signal_stages in Hsig.
    destruct (warm gm) eqn:Hw; [discriminate|]. rewrite (Hcur eq_refl).
    rewrite resolveSignal_signal, filterPipeline_eq in Hsig.
    destruct (noTradeZone_frame gm price) as [F E].
    rewrite <- E, <- (fr_signalLine _ _ F), <- (fr_NumberOfGrids _ _ F).
    rewrite <- (fr_MarketDirection _ _ F) in Hdir.
    revert Hsig Hdir. clear.
    generalize (applyNoTradeZoneFilter (applyAggressionFilter
                 (detectCrossings (computeOscillator gm price)))).
    intros g Hsig Hdir.
    destruct (_ <=? _)%float eqn:Hle; [exfalso|reflexivity].
    rewrite (applyDirectionFilter_up g Hdir Hle) in Hsig.
    destruct (buy _); discriminate.
  - intros Hdir Hsig. rewrite Process_signal_stages in Hsig.
    destruct (warm gm) eqn:Hw; [discriminate|]. rewrite (Hcur eq_refl).
    rewrite resolveSignal_signal, filterPipeline_eq in Hsig.
    destruct (noTradeZone_frame gm price) as [F E].
    rewrite <- E, <- (fr_signalLine _ _ F), <- (fr_NumberOfGrids _ _ F).
    rewrite <- (fr_MarketDirection _ _ F) in Hdir.
    revert Hsig Hdir. clear.
    generalize (applyNoTradeZoneFilter (applyAggressionFilter
                 (detectCrossings (computeOscillator gm price)))).
    intros g Hsig Hdir.
    destruct (_ <=? _)%float eqn:Hge; [exfalso|reflexivity].
    rewrite (applyDirectionFilter_down g Hdir Hge) in Hsig.
    destruct (sell _); discriminate.
  - apply applyDirectionFilter_neutral.
Qed.

Lemma direction_gate_witness :
  (currentRsi (Process_state (final (newManager 7 10 "up" "n/a" "low" "rsi") [100; 110]%float) 35)
   <=? signalLine (final (newManager 7 10 "up" "n/a" "low" "rsi") [100; 110]%float)
       + 2 * (100 / float64_of_int
                      (isub (NumberOfGrids
                               (final (newManager 7 10 "up" "n/a" "low" "rsi")
                                      [100; 110]%float)) 1)))%float
  = false.
Proof.
  refine (proj1 (direction_gate
                   (final (newManager 7 10 "up" "n/a" "low" "rsi") [100; 110]%float) 35) _ _);
    vm_compute; reflexivity.
Defined.

(** C3, as stated, fails: a manager built with direction "up" answers Sell
    on the third bar of the prices 100, 110, 35. *)
Lemma up_bias_sells :
  MarketDirection (newManager 7 10 "up" "n/a" "low" "rsi") = DirUp /\
  map fst (feed (newManager 7 10 "up" "n/a" "low" "rsi") [100; 110; 35]%float)
  = [DoNothingSignal; DoNothingSignal; SellSignal].
Proof. vm_compute. auto. Qed.

(** ** Classic RSI and a zero average loss *)

(** C6: on a bar that is not the first one for the classic RSI (the
    previous raw price is seeded), a zero updated average loss makes the
    oscillator exactly 100, and the quotient by the average loss is never
    taken with a zero divisor: the variant with the checked division
    returns what [computeRSI] returns. *)
Theorem zero_loss_gives_100 gm price :
  (prevRawPrice gm =? 0)%float = false ->
  ((avgLoss (snd (computeRSI gm price)) =? 0)%float = true ->
   fst (computeRSI gm price) = 100%float) /\
  (CurrentRsiType gm = RsiTypeClassic ->
   (avgLoss (computeOscillator gm price) =? 0)%float = true ->
   currentRsi (computeOscillator gm price) = 100%float) /\
  computeRSI_checked gm price = Some (computeRSI gm price).
Proof.
  intros Hseed.
  assert (H1 : (avgLoss (snd (computeRSI gm price)) =? 0)%float = true ->
               fst (computeRSI gm price) = 100%float).
  { unfold computeRSI. rewrite Hseed. cbv zeta.
    match goal with
    | |- context [if ?c then set_avgLoss ?a ?g else ?h] =>
        generalize (if c then set_avgLoss a g else h)
    end.
    intros g. destruct (avgLoss g =? 0)%float eqn:Hz; cbn [fst snd]; [reflexivity|].
    rewrite Hz. discriminate. }
  split; [exact H1|]. split.
  - intros Hty. unfold computeOscillator. rewrite Hty.
    change (RsiTypeClassic =? RsiTypeRSX) with false. cbv iota zeta.
    generalize H1. generalize (computeRSI gm price). intros r H. exact H.
  - unfold computeRSI_checked, computeRSI. rewrite Hseed. cbv zeta.
    match goal with
    | |- context [if ?c then set_avgLoss ?a ?g else ?h] =>
        generalize (if c then set_avgLoss a g else h)
    end.
    intros g. unfold div_checked. destruct (avgLoss g =? 0)%float; reflexivity.
Qed.

Lemma zero_loss_gives_100_witness :
  fst (computeRSI (final (newManager 7 10 "neutral" "35-65" "low" "rsi") [100]%float) 101)
  = 100%float.
Proof.
  refine (proj1 (zero_loss_gives_100
                   (final (newManager 7 10 "neutral" "35-65" "low" "rsi") [100]%float) 101 _) _);
    vm_compute; reflexivity.
Defined.

(** ** Loops and machine integers *)

Lemma wrap64_id z : - 2 ^ 63 <= z < 2 ^ 63 -> wrap64 z = z.
Proof.
  intros H. unfold wrap64.
  rewrite Z.mod_small; [lia|].
  change (2 ^ 64) with (2 ^ 63 + 2 ^ 63). lia.
Qed.

Lemma wrap64_range z : - 2 ^ 63 <= wrap64 z < 2 ^ 63.
Proof.
  unfold wrap64.
  pose proof (Z.mod_pos_bound (z + 2 ^ 63) (2 ^ 64) eq_refl) as H.
  change (2 ^ 64) with (2 ^ 63 + 2 ^ 63) in H at 3. lia.
Qed.

(** A property kept by every round of a loop holds when it ends. *)
Lemma for_loop_ind {S : Type} (P : S -> Prop) (n : Z) (body : Z -> S -> S) (s : S) :
  P s ->
  (forall i acc, 0 <= i < n -> P acc -> P (body i acc)) ->
  P (for_loop n body s).
Proof.
  intros Hs Hbody. unfold for_loop.
  assert (Hin : forall i : nat, In i (seq 0 (Z.to_nat n)) -> 0 <= Z.of_nat i < n).
  { intros i Hi. apply in_seq in Hi. lia. }
  revert s Hs Hin. generalize (seq 0 (Z.to_nat n)) as l.
  induction l as [|k l IH]; intros s Hs Hin; cbn [fold_left]; [exact Hs|].
  apply IH.
  - apply Hbody; [apply Hin; left; reflexivity|exact Hs].
  - intros i Hi. apply Hin. right. exact Hi.
Qed.

(** ** The ladder *)

Lemma initGridLines_even gm :
  2 <= NumberOfGrids gm ->
  initGridLines gm = Some (set_gridLines (evenLadder (NumberOfGrids gm)) gm).
Proof.
  intros Hn. unfold initGridLines. cbv zeta.
  destruct (Z.ltb_spec (NumberOfGrids gm) 0) as [?|_]; [lia|].
  destruct (Z.ltb_spec (NumberOfGrids gm) 2) as [?|_]; [lia|].
  reflexivity.
Qed.

Lemma evenLadder_length n : length (evenLadder n) = Z.to_nat n.
Proof.
  unfold evenLadder. cbv zeta. rewrite !length_insert.
  apply (for_loop_ind (fun l => length l = Z.to_nat n)).
  - apply length_replicate.
  - intros i acc _ H. rewrite length_insert. exact H.
Qed.

Lemma evenLadder_first n : 2 <= n < 2 ^ 63 -> evenLadder n !! 0%nat = Some 1%float.
Proof.
  intros Hn. pose proof (evenLadder_length n) as Hlen. revert Hlen.
  unfold evenLadder. cbv zeta. unfold isub. rewrite (wrap64_id (n - 1)) by lia.
  rewrite !length_insert. intros Hlen.
  rewrite list_lookup_insert_ne by lia.
  apply list_lookup_insert_eq. rewrite Hlen. lia.
Qed.

Lemma evenLadder_last n :
  2 <= n < 2 ^ 63 -> evenLadder n !! Z.to_nat (n - 1) = Some 99%float.
Proof.
  intros Hn. pose proof (evenLadder_length n) as Hlen. revert Hlen.
  unfold evenLadder. cbv zeta. unfold isub. rewrite (wrap64_id (n - 1)) by lia.
  rewrite !length_insert. intros Hlen.
  apply list_lookup_insert_eq. rewrite length_insert, Hlen. lia.
Qed.

Lemma nondecreasingb_sound l : nondecreasingb l = true -> nondecreasing l.
Proof.
  induction l as [|a l IH]; intros Hb i j x y Hij Hi Hj.
  - discriminate Hi.
  - cbn [nondecreasingb] in Hb. apply andb_true_iff in Hb. destruct Hb as [Ha Hl].
    destruct j as [|j]; [lia|]. cbn in Hj.
    destruct i as [|i].
    + cbn in Hi. injection Hi as ->.
      rewrite forallb_forall in Ha. apply Ha.
      apply list_elem_of_In. eapply list_elem_of_lookup_2. exact Hj.
    + cbn in Hi. apply (IH Hl i j); [lia|exact Hi|exact Hj].
Qed.

(** The hundred ladders with 1 to 100 grids, checked one by one. *)
Lemma evenLadder_checked :
  forallb (fun k => nondecreasingb (evenLadder (Z.of_nat k + 1))) (seq 1 100) = true.
Proof. vm_compute. reflexivity. Qed.

Lemma evenLadder_nondecreasing g : 1 <= g <= 100 -> nondecreasing (evenLadder (g + 1)).
Proof.
  intros Hg. apply nondecreasingb_sound.
  pose proof evenLadder_checked as H. rewrite forallb_forall in H.
  replace g with (Z.of_nat (Z.to_nat g)) by lia.
  apply H. apply in_seq. lia.
Qed.

(** ** A freshly constructed manager *)

Lemma NewGridManager_inv rsiLength numberOfGrids direction ntZone aggLevel rsiType logger gm tr :
  NewGridManager rsiLength numberOfGrids direction ntZone aggLevel rsiType logger
  = Some (gm, tr) ->
  fresh gm /\
  RsiLength gm = rsiLength /\
  NumberOfGrids gm = iadd numberOfGrids 1 /\
  MarketDirection gm = parseDirection direction /\
  NoTradeZonePips gm = parseNoTradeZone ntZone /\
  AggressionLevel gm = parseAggression aggLevel /\
  CurrentRsiType gm = parseRsiType rsiType /\
  log gm = logger.
Proof.
  unfold NewGridManager. cbv zeta.
  pose proof (wrap64_range (numberOfGrids + 1)) as Hr. fold (iadd numberOfGrids 1) in Hr.
  revert Hr. generalize (iadd numberOfGrids 1) as n. intros n Hr.
  destruct (Z_lt_le_dec n 2) as [H2|H2].
  - unfold initGridLines. cbv zeta. fields.
    destruct (Z.ltb_spec n 0) as [?|H0]; [discriminate|].
    destruct (Z.ltb_spec n 2) as [_|?]; [|lia].
    destruct (Z.ltb_spec n 1) as [?|H1]; [discriminate|].
    assert (n = 1) as -> by lia.
    intros [= <- _]. split; [constructor|]; cbn; intuition (try reflexivity; try lia).
  - rewrite initGridLines_even by (fields; exact H2). fields.
    intros [= <- _]. split; [constructor|]; fields; intuition (try reflexivity; try lia).
    rewrite evenLadder_length. lia.
Qed.

Lemma NewGridManager_some rsiLength numberOfGrids direction ntZone aggLevel rsiType logger :
  1 <= numberOfGrids < 2 ^ 63 - 1 ->
  exists gm tr,
    NewGridManager rsiLength numberOfGrids direction ntZone aggLevel rsiType logger
    = Some (gm, tr).
Proof.
  intros Hg. unfold NewGridManager. cbv zeta.
  rewrite initGridLines_even; [eexists; eexists; reflexivity|].
  fields. unfold iadd. rewrite wrap64_id; lia.
Qed.

(** C4 (as the code has it): for a grid count g from 1 up (below the
    largest [int], so that g + 1 does not wrap) construction succeeds with
    a ladder of g + 1 lines whose first is 1 and whose last is 99; for g up
    to 100 the ladder never goes down from first to last. *)
Theorem ladder_shape rsiLength g direction ntZone aggLevel rsiType logger :
  1 <= g < 2 ^ 63 - 1 ->
  exists gm tr,
    NewGridManager rsiLength g direction ntZone aggLevel rsiType logger = Some (gm, tr) /\
    length (gridLines gm) = Z.to_nat (g + 1) /\
    gridLines gm !! 0%nat = Some 1%float /\
    gridLines gm !! Z.to_nat g = Some 99%float /\
    (g <= 100 -> nondecreasing (gridLines gm)).
Proof.
  intros Hg.
  destruct (NewGridManager_some rsiLength g direction ntZone aggLevel rsiType logger Hg)
    as (gm & tr & Hnew).
  exists gm, tr. split; [exact Hnew|].
  destruct (NewGridManager_inv _ _ _ _ _ _ _ _ _ Hnew) as (Hf & _ & Hn & _).
  unfold iadd in Hn. rewrite wrap64_id in Hn by lia.
  rewrite (fresh_ladder _ Hf), Hn by lia.
  split; [apply evenLadder_length|].
  split; [apply evenLadder_first; lia|].
  split.
  - replace g with (g + 1 - 1) at 1 by lia. apply evenLadder_last. lia.
  - intros H100. apply evenLadder_nondecreasing. lia.
Qed.

Lemma ladder_shape_witness :
  exists gm tr,
    NewGridManager 7 10 "neutral" "35-65" "low" "rsx" LocalLogger = Some (gm, tr) /\
    length (gridLines gm) = Z.to_nat (10 + 1) /\
    gridLines gm !! 0%nat = Some 1%float /\
    gridLines gm !! Z.to_nat 10 = Some 99%float /\
    (10 <= 100 -> nondecreasing (gridLines gm)).
Proof. apply (ladder_shape 7 10 "neutral" "35-65" "low" "rsx" LocalLogger). lia. Defined.

(** C4, as stated, fails from 101 grids on: the step 100/101 is below 1, so
    the second line lies under the first. *)
Lemma ladder_101_goes_down :
  let l := gridLines (newManager 7 101 "neutral" "35-65" "low" "rsi") in
  length l = 102%nat /\
  l !! 0%nat = Some 1%float /\
  l !! 1%nat = Some (100 / 101)%float /\
  (1 <=? 100 / 101)%float = false /\
  ~ nondecreasing l.
Proof.
  cbv zeta.
  assert (H0 : gridLines (newManager 7 101 "neutral" "35-65" "low" "rsi") !! 0%nat
               = Some 1%float) by (vm_compute; reflexivity).
  assert (H1 : gridLines (newManager 7 101 "neutral" "35-65" "low" "rsi") !! 1%nat
               = Some (100 / 101)%float) by (vm_compute; reflexivity).
  assert (Hlt : (1 <=? 100 / 101)%float = false) by (vm_compute; reflexivity).
  split; [vm_compute; reflexivity|]. split; [exact H0|]. split; [exact H1|].
  split; [exact Hlt|].
  intros Hnd. rewrite (Hnd 0%nat 1%nat _ _ (Nat.lt_0_1) H0 H1) in Hlt. discriminate Hlt.
Qed.

(** ** What stays for the life of a manager *)

Lemma config_frame_refl gm : config_frame gm gm.
Proof. constructor; reflexivity. Qed.

Lemma config_frame_trans gm1 gm2 gm3 :
  config_frame gm1 gm2 -> config_frame gm2 gm3 -> config_frame gm1 gm3.
Proof. intros [] []. constructor; congruence. Qed.

Lemma indicator_config gm gm' : indicator_frame gm gm' -> config_frame gm gm'.
Proof. intros []. constructor; assumption. Qed.

Lemma resolveSignal_config gp bi si : config_frame gp (snd (resolveSignal gp bi si)).
Proof. unfold resolveSignal. destruct (buy gp), (sell gp); constructor; reflexivity. Qed.

Lemma set_lastRsiValue_config v g : config_frame g (set_lastRsiValue v g).
Proof. constructor; reflexivity. Qed.

Lemma Process_state_config gm price : config_frame gm (Process_state gm price).
Proof.
  rewrite Process_state_stages. destruct (warm gm).
  - eapply config_frame_trans; [|apply set_lastRsiValue_config].
    apply indicator_config, computeOscillator_frame.
  - eapply config_frame_trans; [|apply resolveSignal_config].
    apply indicator_config, pipeline_frame.
Qed.

Lemma final_cons gm p ps : final gm (p :: ps) = final (Process_state gm p) ps.
Proof. reflexivity. Qed.

Lemma final_config gm ps : config_frame gm (final gm ps).
Proof.
  revert gm. induction ps as [|p ps IH]; intros gm.
  - apply config_frame_refl.
  - rewrite final_cons. eapply config_frame_trans; [apply Process_state_config|apply IH].
Qed.

(** ** The signal line and the ladder *)

Lemma getBuyLineIndex_range gm :
  1 <= NumberOfGrids gm < 2 ^ 63 -> 0 <= getBuyLineIndex gm < NumberOfGrids gm.
Proof.
  intros Hn. unfold getBuyLineIndex.
  apply (for_loop_ind (fun idx => 0 <= idx < NumberOfGrids gm)); [lia|].
  intros i acc Hi Hacc. cbv zeta.
  unfold isub. rewrite wrap64_id by lia.
  split_ifs; lia.
Qed.

Lemma getSellLineIndex_range gm :
  1 <= NumberOfGrids gm < 2 ^ 63 -> 0 <= getSellLineIndex gm < NumberOfGrids gm.
Proof.
  intros Hn. unfold getSellLineIndex.
  apply (for_loop_ind (fun idx => 0 <= idx < NumberOfGrids gm)); [lia|].
  intros i acc Hi Hacc. cbv zeta.
  split_ifs; lia.
Qed.

Lemma getGridValue_In gm idx :
  0 <= idx < Z.of_nat (length (gridLines gm)) -> In (getGridValue gm idx) (gridLines gm).
Proof.
  intros Hidx. unfold getGridValue.
  destruct (Z.ltb_spec idx 0) as [?|_]; [lia|].
  destruct (Z.geb_spec idx (Z.of_nat (length (gridLines gm)))) as [?|_]; [lia|].
  cbn [orb].
  destruct (lookup_lt_is_Some_2 (gridLines gm) (Z.to_nat idx)) as [x Hx]; [lia|].
  rewrite Hx. cbn [default]. apply list_elem_of_In. eapply list_elem_of_lookup_2. exact Hx.
Qed.

Lemma fresh_wf gm : fresh gm -> wf gm.
Proof.
  intros []. constructor; try assumption.
  rewrite fresh_lastSignalIndex0. lia.
Qed.

(** After steps 7-8 the signal line is the ladder value at the last signal
    index, and that index is one of the two scanned ones or the old one. *)
Lemma resolveSignal_line gp bi si :
  signalLine (snd (resolveSignal gp bi si))
  = getGridValue (snd (resolveSignal gp bi si)) (lastSignalIndex (snd (resolveSignal gp bi si)))
  /\ (lastSignalIndex (snd (resolveSignal gp bi si)) = bi \/
      lastSignalIndex (snd (resolveSignal gp bi si)) = si \/
      lastSignalIndex (snd (resolveSignal gp bi si)) = lastSignalIndex gp).
Proof. unfold resolveSignal. destruct (buy gp), (sell gp); cbn; auto. Qed.

Lemma steady_index gm price :
  wf gm -> warm gm = false ->
  0 <= lastSignalIndex (Process_state gm price) < NumberOfGrids gm.
Proof.
  intros [Hn Hlen Hidx] Hw. rewrite Process_state_stages, Hw.
  destruct (pipeline_frame gm price) as [F _].
  pose proof (computeOscillator_frame gm price) as F1.
  pose proof (getBuyLineIndex_range (computeOscillator gm price)) as Hb.
  pose proof (getSellLineIndex_range (computeOscillator gm price)) as Hs.
  rewrite (fr_NumberOfGrids _ _ F1) in Hb, Hs.
  destruct (resolveSignal_line
              (filterPipeline (detectCrossings (computeOscillator gm price)))
              (getBuyLineIndex (computeOscillator gm price))
              (getSellLineIndex (computeOscillator gm price))) as [_ [-> | [-> | ->]]].
  - apply Hb, Hn.
  - apply Hs, Hn.
  - rewrite (fr_lastSignalIndex _ _ F). exact Hidx.
Qed.

Lemma Process_state_wf gm price : wf gm -> wf (Process_state gm price).
Proof.
  intros Hwf. pose proof (Process_state_config gm price) as C.
  destruct (warm gm) eqn:Hw.
  - destruct Hwf as [Hn Hlen Hidx].
    constructor; rewrite ?(cf_NumberOfGrids _ _ C), ?(cf_gridLines _ _ C); try assumption.
    rewrite Process_state_stages, Hw.
    change (0 <= lastSignalIndex (computeOscillator gm price) < NumberOfGrids gm).
    rewrite (fr_lastSignalIndex _ _ (computeOscillator_frame gm price)). exact Hidx.
  - pose proof (steady_index gm price Hwf Hw) as Hi. destruct Hwf as [Hn Hlen Hidx].
    constructor; rewrite ?(cf_NumberOfGrids _ _ C), ?(cf_gridLines _ _ C); assumption.
Qed.

Lemma final_wf gm ps : wf gm -> wf (final gm ps).
Proof.
  revert gm. induction ps as [|p ps IH]; intros gm Hwf; [exact Hwf|].
  rewrite final_cons. apply IH, Process_state_wf, Hwf.
Qed.

Lemma steady_signalLine gm price :
  warm gm = false ->
  signalLine (Process_state gm price)
  = getGridValue (Process_state gm price) (lastSignalIndex (Process_state gm price)).
Proof.
  intros Hw. rewrite Process_state_stages, Hw. apply resolveSignal_line.
Qed.

Lemma steady_signalLine_In gm price :
  wf gm -> warm gm = false -> In (signalLine (Process_state gm price)) (gridLines gm).
Proof.
  intros Hwf Hw. rewrite (steady_signalLine gm price Hw).
  pose proof (steady_index gm price Hwf Hw) as Hi.
  pose proof (Process_state_config gm price) as C.
  rewrite <- (cf_gridLines _ _ C). apply getGridValue_In.
  rewrite (cf_gridLines _ _ C), (wf_length _ Hwf). exact Hi.
Qed.

Lemma getGridValue_lookup gm idx x :
  0 <= idx -> gridLines gm !! Z.to_nat idx = Some x -> getGridValue gm idx = x.
Proof.
  intros Hidx Hx. unfold getGridValue.
  pose proof (lookup_lt_Some _ _ _ Hx) as Hlt.
  destruct (Z.ltb_spec idx 0) as [?|_]; [lia|].
  destruct (Z.geb_spec idx (Z.of_nat (length (gridLines gm)))) as [?|_]; [lia|].
  cbn [orb]. rewrite Hx. reflexivity.
Qed.

(** The first bar of either indicator gives 50. *)
Lemma computeOscillator_first gm price :
  prevRawPrice gm = 0%float -> f8 gm = 0%float -> f10 gm = 0%float ->
  currentRsi (computeOscillator gm price) = 50%float.
Proof.
  intros Hp H8 H10. unfold computeOscillator, computeRSX, computeRSI.
  rewrite Hp, H8, H10. change (0 =? 0)%float with true. cbn [andb].
  destruct (CurrentRsiType gm =? RsiTypeRSX); reflexivity.
Qed.

(** The first call on a fresh manager is the warm-up; it leaves 50 as the
    previous oscillator value, so the second call is a steady one. *)
Lemma first_call gm price :
  fresh gm ->
  warm gm = true /\
  warm (Process_state gm price) = false /\
  Process_signal gm price = DoNothingSignal /\
  signalLine (Process_state gm price) = 50%float /\
  lastSignalIndex (Process_state gm price) = 0.
Proof.
  intros Hf.
  assert (Hw : warm gm = true).
  { unfold warm. rewrite (fresh_lastRsiValue _ Hf). reflexivity. }
  split; [exact Hw|].
  rewrite Process_signal_stages, Process_state_stages, Hw.
  pose proof (computeOscillator_first gm price (fresh_prevRawPrice _ Hf)
                (fresh_f8 _ Hf) (fresh_f10 _ Hf)) as H50.
  destruct (computeOscillator_frame gm price) as [_ _ _ _ _ _ _ _ Ei El _ _].
  rewrite (fresh_lastSignalIndex _ Hf) in Ei. rewrite (fresh_signalLine _ Hf) in El.
  revert H50 Ei El. generalize (computeOscillator gm price). intros g H50 Ei El.
  unfold warm. fields. rewrite H50.
  split; [reflexivity|]. split; [reflexivity|]. split; assumption.
Qed.

Lemma warm_signalLine gm price :
  warm gm = true -> signalLine (Process_state gm price) = signalLine gm.
Proof.
  intros Hw. rewrite Process_state_stages, Hw.
  destruct (computeOscillator_frame gm price) as [_ _ _ _ _ _ _ _ _ El _ _].
  revert El. generalize (computeOscillator gm price). intros g El. exact El.
Qed.

Lemma signalLine_stays_In gm ps :
  wf gm -> In (signalLine gm) (gridLines gm) ->
  In (signalLine (final gm ps)) (gridLines gm).
Proof.
  revert gm. induction ps as [|p ps IH]; intros gm Hwf Hin; [exact Hin|].
  rewrite final_cons.
  rewrite <- (cf_gridLines _ _ (Process_state_config gm p)).
  apply IH; [apply Process_state_wf, Hwf|].
  rewrite (cf_gridLines _ _ (Process_state_config gm p)).
  destruct (warm gm) eqn:Hw.
  - rewrite (warm_signalLine gm p Hw). exact Hin.
  - apply steady_signalLine_In; assumption.
Qed.

(** C10: a call that gets past the warm-up branch leaves the signal line
    equal to the ladder value at the last signal index, a value of the
    ladder; on a constructed manager the first call is the warm-up and the
    second is steady, so from the second call on the signal line is always
    a ladder value; and when that second call answers DoNothing the initial
    50 has become ladder[0] = 1. *)
Theorem signalLine_on_ladder rsiLength g direction ntZone aggLevel rsiType logger gm0 tr :
  1 <= g < 2 ^ 63 ->
  NewGridManager rsiLength g direction ntZone aggLevel rsiType logger = Some (gm0, tr) ->
  (forall ps p,
      warm (final gm0 ps) = false ->
      signalLine (Process_state (final gm0 ps) p)
      = getGridValue (Process_state (final gm0 ps) p)
                     (lastSignalIndex (Process_state (final gm0 ps) p)) /\
      In (signalLine (Process_state (final gm0 ps) p)) (gridLines gm0)) /\
  (forall p1 p2 ps, In (signalLine (final gm0 (p1 :: p2 :: ps))) (gridLines gm0)) /\
  (forall p1 p2,
      signalLine (Process_state gm0 p1) = 50%float /\
      warm (Process_state gm0 p1) = false /\
      gridLines gm0 !! 0%nat = Some 1%float /\
      (Process_signal (Process_state gm0 p1) p2 = DoNothingSignal ->
       signalLine (Process_state (Process_state gm0 p1) p2) = 1%float)).
Proof.
  intros Hg Hnew.
  destruct (NewGridManager_inv _ _ _ _ _ _ _ _ _ Hnew) as (Hf & _ & Hn & _).
  pose proof (fresh_wf _ Hf) as Hwf.
  assert (Hsteady : forall ps p, warm (final gm0 ps) = false ->
            In (signalLine (Process_state (final gm0 ps) p)) (gridLines gm0)).
  { intros ps p Hw. rewrite <- (cf_gridLines _ _ (final_config gm0 ps)).
    apply steady_signalLine_In; [apply final_wf, Hwf|exact Hw]. }
  split; [|split].
  - intros ps p Hw. split; [apply steady_signalLine, Hw|apply Hsteady, Hw].
  - intros p1 p2 ps. rewrite !final_cons.
    destruct (first_call gm0 p1 Hf) as (_ & Hw1 & _).
    pose proof (Process_state_wf _ p1 Hwf) as Hwf1.
    pose proof (Process_state_wf _ p2 Hwf1) as Hwf2.
    pose proof (config_frame_trans _ _ _ (Process_state_config gm0 p1)
                  (Process_state_config (Process_state gm0 p1) p2)) as C2.
    rewrite <- (cf_gridLines _ _ C2).
    apply signalLine_stays_In; [exact Hwf2|].
    rewrite (cf_gridLines _ _ (Process_state_config (Process_state gm0 p1) p2)).
    apply steady_signalLine_In; assumption.
  - intros p1 p2.
    destruct (first_call gm0 p1 Hf) as (_ & Hw1 & _ & Hl1 & Hi1).
    assert (H0 : gridLines gm0 !! 0%nat = Some 1%float).
    { assert (Hn2 : 2 <= NumberOfGrids gm0 < 2 ^ 63).
      { pose proof (fresh_grids _ Hf) as Hr. split; [|lia].
        rewrite Hn. unfold iadd.
        destruct (Z_lt_le_dec g (2 ^ 63 - 1)) as [Hlt|Hge].
        - rewrite wrap64_id; lia.
        - rewrite Hn in Hr. unfold iadd in Hr.
          assert (g = 2 ^ 63 - 1) as -> by lia.
          vm_compute in Hr. destruct Hr as [Hr _]. exfalso. apply Hr. reflexivity. }
      rewrite (fresh_ladder _ Hf) by lia. apply evenLadder_first. exact Hn2. }
    split; [exact Hl1|]. split; [exact Hw1|]. split; [exact H0|].
    intros Hsig.
    destruct (steady_quiet_carry (Process_state gm0 p1) p2 Hw1 Hsig) as (_ & _ & Hline).
    rewrite Hline, Hi1.
    apply getGridValue_lookup; [lia|].
    rewrite (cf_gridLines _ _ (Process_state_config gm0 p1)). exact H0.
Qed.

Lemma signalLine_on_ladder_witness :
  In (signalLine (final (newManager 7 10 "neutral" "35-65" "low" "rsi")
                        (100 :: 101 :: [99; 105; 90])%float))
     (gridLines (newManager 7 10 "neutral" "35-65" "low" "rsi")).
Proof.
  refine (proj1 (proj2 (signalLine_on_ladder 7 10 "neutral" "35-65" "low" "rsi" LocalLogger
                          (newManager 7 10 "neutral" "35-65" "low" "rsi")
                          (newManagerLog 7 10 "neutral" "35-65" "low" "rsi") _ _))
                100%float 101%float [99; 105; 90]%float);
    [lia | vm_compute; reflexivity].
Defined.

(** ** The warm-up of the RSX *)

Lemma rsxThreshold_ext gm gm' :
  RsiLength gm' = RsiLength gm -> rsxThreshold gm' = rsxThreshold gm.
Proof. unfold rsxThreshold. intros ->. reflexivity. Qed.

(** The threshold is never below zero. *)
Lemma rsxThreshold_not_neg gm : (rsxThreshold gm <? 0)%float = false.
Proof.
  unfold rsxThreshold. cbv zeta.
  generalize (float64_of_int (isub (RsiLength gm) 1)). intros x.
  destruct (x <? 5)%float eqn:H5; [reflexivity|].
  destruct (x <? 0)%float eqn:H0; [|reflexivity].
  apply ltb_0_ltb_5 in H0. congruence.
Qed.

Ltac split_inner_ifs :=
  repeat match goal with
         | |- context [if ?c then _ else _] =>
             lazymatch c with
             | context [if _ then _ else _] => fail
             | _ => destruct c eqn:?
             end
         end.

Lemma computeRSX_halves gm price :
  computeRSX gm price =
  if (f8 gm =? 0)%float && (f10 gm =? 0)%float then
    (50%float,
     set_f88 (rsxThreshold gm)
       (set_f90_ 1%float (set_f10 (100 * price)%float (set_f8 (100 * price)%float gm))))
  else rsx_finish (rsx_cascade gm price) (f8 gm) (rsx_v14 gm price) (rsx_v20 gm price).
Proof. reflexivity. Qed.

Lemma clamp_50 : clamp 50 0 100 = 50%float.
Proof. reflexivity. Qed.

Lemma rsx_finish_value g oldF8 v14 v20 :
  f88 g = rsxThreshold g ->
  f88 (snd (rsx_finish g oldF8 v14 v20)) = rsxThreshold g /\
  ((f90_ (snd (rsx_finish g oldF8 v14 v20)) >? f88 (snd (rsx_finish g oldF8 v14 v20)))%float
   = false -> fst (rsx_finish g oldF8 v14 v20) = 50%float) /\
  (fst (rsx_finish g oldF8 v14 v20) = 50%float \/
   (f90_ (snd (rsx_finish g oldF8 v14 v20)) >? f88 (snd (rsx_finish g oldF8 v14 v20)))%float
   = true /\
   (v20 >? 0)%float = true /\
   fst (rsx_finish g oldF8 v14 v20) = clamp ((v14 / v20 + 1) * 50)%float 0 100).
Proof.
  intros Hthr. pose proof (rsxThreshold_not_neg g) as Hneg.
  destruct g. unfold rsx_finish, rsxThreshold in *. cbv zeta in *. fields. subst.
  match type of Hneg with (?e <? 0)%float = false => generalize dependent e end.
  intros t Hneg.
  match goal with |- context [set_f90_ ?e] => generalize e end. intros x.
  destruct (t =? 0)%float; fields.
  all: match goal with |- context [set_f0 ?e] => generalize e end; intros ft.
  all: destruct ((t =? x)%float && (ft =? 0)%float); fields.
  all: try (rewrite Hneg; cbn [andb]; rewrite clamp_50;
            split; [reflexivity|]; split; [reflexivity|left; reflexivity]).
  all: destruct (t <? x)%float eqn:Hx; destruct (0 <? v20)%float eqn:Hv; cbn [andb];
    rewrite ?clamp_50;
    (split; [reflexivity|]; split; [intros; first [reflexivity|discriminate]|]);
    first [left; reflexivity | right; split; [reflexivity|]; split; reflexivity].
Qed.

(** The threshold is set by the first bar and never moves; the value is 50
    until the progress counter passes it. *)
Lemma computeRSX_value gm price :
  rsx_started gm ->
  rsx_started (snd (computeRSX gm price)) /\
  f88 (snd (computeRSX gm price)) = rsxThreshold gm /\
  ((f90_ (snd (computeRSX gm price)) >? f88 (snd (computeRSX gm price)))%float = false ->
   fst (computeRSX gm price) = 50%float) /\
  (fst (computeRSX gm price) = 50%float \/
   (f90_ (snd (computeRSX gm price)) >? f88 (snd (computeRSX gm price)))%float = true /\
   (rsx_v20 gm price >? 0)%float = true /\
   fst (computeRSX gm price)
   = clamp ((rsx_v14 gm price / rsx_v20 gm price + 1) * 50)%float 0 100).
Proof.
  intros Hs.
  assert (H : f88 (snd (computeRSX gm price)) = rsxThreshold gm /\
    ((f90_ (snd (computeRSX gm price)) >? f88 (snd (computeRSX gm price)))%float = false ->
     fst (computeRSX gm price) = 50%float) /\
    (fst (computeRSX gm price) = 50%float \/
     (f90_ (snd (computeRSX gm price)) >? f88 (snd (computeRSX gm price)))%float = true /\
     (rsx_v20 gm price >? 0)%float = true /\
     fst (computeRSX gm price)
     = clamp ((rsx_v14 gm price / rsx_v20 gm price + 1) * 50)%float 0 100)).
  { rewrite computeRSX_halves.
    destruct ((f8 gm =? 0)%float && (f10 gm =? 0)%float) eqn:Hfirst.
    - fields. split; [reflexivity|]. split; [reflexivity|]. left; reflexivity.
    - destruct Hs as [Hs|Hs]; [congruence|].
      assert (Hc : f88 (rsx_cascade gm price) = rsxThreshold (rsx_cascade gm price)).
      { rewrite (rsxThreshold_ext gm (rsx_cascade gm price) eq_refl). exact Hs. }
      rewrite <- (rsxThreshold_ext gm (rsx_cascade gm price) eq_refl).
      apply rsx_finish_value. exact Hc. }
  split; [|exact H].
  right. destruct H as [H _]. rewrite H.
  symmetry. apply rsxThreshold_ext.
  apply (fr_RsiLength _ _ (computeRSX_frame gm price)).
Qed.

Lemma oscillator_kept_trans gm1 gm2 gm3 :
  oscillator_kept gm1 gm2 -> oscillator_kept gm2 gm3 -> oscillator_kept gm1 gm3.
Proof. intros [] []. constructor; congruence. Qed.

Lemma flags_only_oscillator gm gm' : flags_only gm gm' -> oscillator_kept gm gm'.
Proof. intros ->. constructor; reflexivity. Qed.

Lemma resolveSignal_oscillator gp bi si : oscillator_kept gp (snd (resolveSignal gp bi si)).
Proof. unfold resolveSignal. destruct (buy gp), (sell gp); constructor; reflexivity. Qed.

Lemma Process_state_oscillator gm price :
  oscillator_kept (computeOscillator gm price) (Process_state gm price).
Proof.
  rewrite Process_state_stages. destruct (warm gm).
  - generalize (computeOscillator gm price). intros g. constructor; reflexivity.
  - eapply oscillator_kept_trans; [|apply resolveSignal_oscillator].
    apply flags_only_oscillator.
    eapply flags_only_trans; [apply detectCrossings_flags|apply filterPipeline_flags].
Qed.

Lemma computeOscillator_rsx gm price :
  CurrentRsiType gm = RsiTypeRSX ->
  computeOscillator gm price
  = set_currentRsi (fst (computeRSX gm price)) (snd (computeRSX gm price)).
Proof. intros Hty. unfold computeOscillator. rewrite Hty. reflexivity. Qed.

Lemma rsx_step gm0 gm price :
  rsx_inv gm0 gm ->
  rsx_inv gm0 (Process_state gm price) /\
  f88 (Process_state gm price) = rsxThreshold gm0 /\
  ((f90_ (Process_state gm price) >? f88 (Process_state gm price))%float = false ->
   currentRsi (Process_state gm price) = 50%float) /\
  (currentRsi (Process_state gm price) = 50%float \/
   (f90_ (Process_state gm price) >? f88 (Process_state gm price))%float = true /\
   (rsx_v20 gm price >? 0)%float = true /\
   currentRsi (Process_state gm price)
   = clamp ((rsx_v14 gm price / rsx_v20 gm price + 1) * 50)%float 0 100).
Proof.
  intros (Hs & Hty & Hlen).
  pose proof (Process_state_config gm price) as C.
  destruct (Process_state_oscillator gm price) as [E8 E10 E88 E90 Ecur].
  rewrite (computeOscillator_rsx gm price Hty) in E8, E10, E88, E90, Ecur.
  destruct (computeRSX_value gm price Hs) as (Hs' & H88 & Hlow & Hhigh).
  revert E8 E10 E88 E90 Ecur Hs' H88 Hlow Hhigh.
  generalize (computeRSX gm price). intros r. fields. unfold rsx_started.
  intros E8 E10 E88 E90 Ecur Hs' H88 Hlow Hhigh.
  rewrite E88, E90, Ecur.
  rewrite (rsxThreshold_ext gm gm0 (eq_sym Hlen)).
  split; [|split; [exact H88|split; [exact Hlow|exact Hhigh]]].
  split; [|split].
  - right. rewrite E88, H88. symmetry.
    apply rsxThreshold_ext. apply (cf_RsiLength _ _ C).
  - rewrite (cf_CurrentRsiType _ _ C). exact Hty.
  - rewrite (cf_RsiLength _ _ C). exact Hlen.
Qed.

Lemma final_rsx_inv gm0 gm ps : rsx_inv gm0 gm -> rsx_inv gm0 (final gm ps).
Proof.
  revert gm. induction ps as [|p ps IH]; intros gm Hinv; [exact Hinv|].
  rewrite final_cons. apply IH. apply (rsx_step gm0 gm p Hinv).
Qed.

Lemma fresh_rsx_inv gm0 :
  fresh gm0 -> CurrentRsiType gm0 = RsiTypeRSX -> rsx_inv gm0 gm0.
Proof.
  intros Hf Hty. split; [|split; [exact Hty|reflexivity]].
  left. rewrite (fresh_f8 _ Hf), (fresh_f10 _ Hf). reflexivity.
Qed.

(** C5: with the RSX variant, on every call of every price sequence fed to
    a constructed manager, the threshold is max(period - 1, 5); as long as
    the progress counter has not passed it the oscillator is exactly 50;
    and a value other than 50 comes only with the counter past the
    threshold and v20 > 0, and is (v14/v20 + 1) * 50 clamped to [0, 100]. *)
Theorem rsx_neutral_until_warm
    rsiLength g direction ntZone aggLevel logger gm0 tr prices p :
  NewGridManager rsiLength g direction ntZone aggLevel "rsx" logger = Some (gm0, tr) ->
  f88 (Process_state (final gm0 prices) p) = rsxThreshold gm0 /\
  ((f90_ (Process_state (final gm0 prices) p)
    >? f88 (Process_state (final gm0 prices) p))%float = false ->
   currentRsi (Process_state (final gm0 prices) p) = 50%float) /\
  (currentRsi (Process_state (final gm0 prices) p) = 50%float \/
   (f90_ (Process_state (final gm0 prices) p)
    >? f88 (Process_state (final gm0 prices) p))%float = true /\
   (rsx_v20 (final gm0 prices) p >? 0)%float = true /\
   currentRsi (Process_state (final gm0 prices) p)
   = clamp ((rsx_v14 (final gm0 prices) p / rsx_v20 (final gm0 prices) p + 1) * 50)%float
           0 100).
Proof.
  intros Hnew.
  destruct (NewGridManager_inv _ _ _ _ _ _ _ _ _ Hnew) as (Hf & _ & _ & _ & _ & _ & Hty & _).
  pose proof (final_rsx_inv gm0 gm0 prices (fresh_rsx_inv gm0 Hf Hty)) as Hinv.
  apply (rsx_step gm0 (final gm0 prices) p Hinv).
Qed.

Lemma rsx_neutral_until_warm_witness :
  currentRsi (Process_state (final (newManager 7 10 "neutral" "n/a" "med" "rsx")
                                   [100; 99; 105]%float) 90)
  = 50%float.
Proof.
  refine (proj1 (proj2 (rsx_neutral_until_warm 7 10 "neutral" "n/a" "med" LocalLogger
                          (newManager 7 10 "neutral" "n/a" "med" "rsx")
                          (newManagerLog 7 10 "neutral" "n/a" "med" "rsx")
                          [100; 99; 105]%float 90%float _)) _);
    vm_compute; reflexivity.
Defined.

(** With period 7 the threshold is 6: six bars at 50, and the seventh, with
    the counter at 7, leaves 50. *)
Lemma rsx_seventh_bar :
  let gm0 := newManager 7 10 "neutral" "n/a" "med" "rsx" in
  let bars := feed gm0 [100; 99; 105; 90; 100; 101; 102]%float in
  rsxThreshold gm0 = 6%float /\
  map (fun r => f90_ (snd r)) bars = [1; 2; 3; 4; 5; 6; 7]%float /\
  map (fun r => (currentRsi (snd r) =? 50)%float) bars
  = [true; true; true; true; true; true; false].
Proof. vm_compute. auto. Qed.

(** ** The logger is only written to *)

Ltac log_commutes :=
  fields; repeat (split_inner_ifs; fields); first [reflexivity | congruence].

Lemma computeRSI_log lg gm price :
  computeRSI (set_log lg gm) price
  = (fst (computeRSI gm price), set_log lg (snd (computeRSI gm price))).
Proof. destruct gm. unfold computeRSI. cbv zeta. log_commutes. Qed.

Lemma rsx_finish_log lg g oldF8 v14 v20 :
  rsx_finish (set_log lg g) oldF8 v14 v20
  = (fst (rsx_finish g oldF8 v14 v20), set_log lg (snd (rsx_finish g oldF8 v14 v20))).
Proof. destruct g. unfold rsx_finish, rsxThreshold. cbv zeta. log_commutes. Qed.

Lemma computeRSX_log lg gm price :
  computeRSX (set_log lg gm) price
  = (fst (computeRSX gm price), set_log lg (snd (computeRSX gm price))).
Proof.
  rewrite !computeRSX_halves.
  change (f8 (set_log lg gm)) with (f8 gm). change (f10 (set_log lg gm)) with (f10 gm).
  destruct ((f8 gm =? 0)%float && (f10 gm =? 0)%float); [reflexivity|].
  change (rsx_cascade (set_log lg gm) price) with (set_log lg (rsx_cascade gm price)).
  change (rsx_v14 (set_log lg gm) price) with (rsx_v14 gm price).
  change (rsx_v20 (set_log lg gm) price) with (rsx_v20 gm price).
  apply rsx_finish_log.
Qed.

Lemma computeOscillator_log lg gm price :
  computeOscillator (set_log lg gm) price = set_log lg (computeOscillator gm price).
Proof.
  unfold computeOscillator. rewrite computeRSX_log, computeRSI_log.
  change (CurrentRsiType (set_log lg gm)) with (CurrentRsiType gm).
  destruct (CurrentRsiType gm =? RsiTypeRSX); reflexivity.
Qed.

Lemma getBuyLineIndex_log lg gm : getBuyLineIndex (set_log lg gm) = getBuyLineIndex gm.
Proof. reflexivity. Qed.

Lemma getSellLineIndex_log lg gm : getSellLineIndex (set_log lg gm) = getSellLineIndex gm.
Proof. reflexivity. Qed.

Lemma detectCrossings_log lg gm :
  detectCrossings (set_log lg gm) = set_log lg (detectCrossings gm).
Proof. reflexivity. Qed.

Lemma applyAggressionFilter_log lg gm :
  applyAggressionFilter (set_log lg gm) = set_log lg (applyAggressionFilter gm).
Proof.
  destruct gm. unfold applyAggressionFilter, getGridValue. cbv zeta. log_commutes.
Qed.

Lemma applyNoTradeZoneFilter_log lg gm :
  applyNoTradeZoneFilter (set_log lg gm) = set_log lg (applyNoTradeZoneFilter gm).
Proof. destruct gm. unfold applyNoTradeZoneFilter. cbv zeta. log_commutes. Qed.

Lemma applyDirectionFilter_log lg gm :
  applyDirectionFilter (set_log lg gm) = set_log lg (applyDirectionFilter gm).
Proof. destruct gm. unfold applyDirectionFilter. cbv zeta. log_commutes. Qed.

Lemma filterPipeline_log lg gm :
  filterPipeline (set_log lg gm) = set_log lg (filterPipeline gm).
Proof.
  rewrite !filterPipeline_eq.
  rewrite applyAggressionFilter_log, applyNoTradeZoneFilter_log, applyDirectionFilter_log.
  reflexivity.
Qed.

Lemma resolveSignal_log lg gp bi si :
  resolveSignal (set_log lg gp) bi si
  = (fst (resolveSignal gp bi si), set_log lg (snd (resolveSignal gp bi si))).
Proof.
  destruct gp. unfold resolveSignal, getGridValue. cbv zeta. fields.
  destruct buy0, sell0; reflexivity.
Qed.

(** A call on a manager that holds another logger: the same signal, and the
    same manager but for the logger it holds. *)
Lemma Process_log lg gm price :
  Process_signal (set_log lg gm) price = Process_signal gm price /\
  Process_state (set_log lg gm) price = set_log lg (Process_state gm price).
Proof.
  rewrite !Process_signal_stages, !Process_state_stages.
  change (warm (set_log lg gm)) with (warm gm).
  rewrite computeOscillator_log.
  generalize (computeOscillator gm price). intros g.
  rewrite getBuyLineIndex_log, getSellLineIndex_log, detectCrossings_log, filterPipeline_log,
    resolveSignal_log.
  generalize (resolveSignal (filterPipeline (detectCrossings g))
                (getBuyLineIndex g) (getSellLineIndex g)).
  intros r. destruct (warm gm); split; reflexivity.
Qed.

Lemma feed_log lg gm prices :
  feed (set_log lg gm) prices = map (fun r => (fst r, set_log lg (snd r))) (feed gm prices).
Proof.
  revert gm. induction prices as [|p ps IH]; intros gm; [reflexivity|].
  cbn [feed map fst snd]. destruct (Process_log lg gm p) as [-> ->].
  rewrite IH. reflexivity.
Qed.

(** Construction with another logger: the same manager but for the logger
    it holds, and a panic with one is a panic with the other. *)
Lemma NewGridManager_log rsiLength g direction ntZone aggLevel rsiType lg1 lg2 :
  option_map fst (NewGridManager rsiLength g direction ntZone aggLevel rsiType lg2)
  = option_map (fun r => set_log lg2 (fst r))
               (NewGridManager rsiLength g direction ntZone aggLevel rsiType lg1).
Proof.
  unfold NewGridManager, initGridLines. cbv zeta. fields.
  generalize (iadd g 1). intros n.
  destruct (n <? 0); [reflexivity|].
  destruct (n <? 2); [destruct (n <? 1)|]; reflexivity.
Qed.

(** C9: two managers constructed from the same configuration and fed the
    same prices answer the same signals and are, after every call, the same
    manager but for the logger they hold; with the same logger they are the
    same outright. *)
Theorem Process_deterministic
    rsiLength g direction ntZone aggLevel rsiType lg1 lg2 gm1 tr1 gm2 tr2 prices :
  NewGridManager rsiLength g direction ntZone aggLevel rsiType lg1 = Some (gm1, tr1) ->
  NewGridManager rsiLength g direction ntZone aggLevel rsiType lg2 = Some (gm2, tr2) ->
  map fst (feed gm1 prices) = map fst (feed gm2 prices) /\
  map (fun r => set_log lg2 (snd r)) (feed gm1 prices) = map snd (feed gm2 prices) /\
  (lg1 = lg2 -> feed gm1 prices = feed gm2 prices).
Proof.
  intros H1 H2.
  assert (Hsame : lg1 = lg2 -> feed gm1 prices = feed gm2 prices).
  { intros <-. rewrite H1 in H2. injection H2 as <- _. reflexivity. }
  assert (Hgm : gm2 = set_log lg2 gm1).
  { pose proof (NewGridManager_log rsiLength g direction ntZone aggLevel rsiType lg1 lg2) as H.
    rewrite H1, H2 in H. cbn [option_map fst] in H. injection H as ->. reflexivity. }
  split; [|split; [|exact Hsame]]; rewrite Hgm, feed_log, map_map; apply map_ext;
    intros r; reflexivity.
Qed.

Lemma Process_deterministic_witness :
  map fst (feed (newManager 7 10 "neutral" "35-65" "low" "rsi") [100; 101; 99; 105; 90]%float)
  = map fst (feed (set_log NopLogger (newManager 7 10 "neutral" "35-65" "low" "rsi"))
                  [100; 101; 99; 105; 90]%float).
Proof.
  refine (proj1 (Process_deterministic 7 10 "neutral" "35-65" "low" "rsi"
                   LocalLogger NopLogger
                   (newManager 7 10 "neutral" "35-65" "low" "rsi")
                   (newManagerLog 7 10 "neutral" "35-65" "low" "rsi")
                   (set_log NopLogger (newManager 7 10 "neutral" "35-65" "low" "rsi"))
                   [] [100; 101; 99; 105; 90]%float _ _));
    vm_compute; reflexivity.
Defined.

(** ** Warm-up *)

(** The first call on a constructed manager answers DoNothing whatever the
    price, and only seeds the memory. *)
Lemma first_call_DoNothing rsiLength g direction ntZone aggLevel rsiType logger gm0 tr price :
  NewGridManager rsiLength g direction ntZone aggLevel rsiType logger = Some (gm0, tr) ->
  warm gm0 = true /\ Process_signal gm0 price = DoNothingSignal.
Proof.
  intros Hnew. destruct (NewGridManager_inv _ _ _ _ _ _ _ _ _ Hnew) as (Hf & _).
  destruct (first_call gm0 price Hf) as (Hw & _ & Hsig & _). split; assumption.
Qed.

(** C2 fails on the code: the classic RSI of a falling second bar is
    exactly 0, which is also the warm-up sentinel, so the third call takes
    the warm-up branch again and answers DoNothing where steps 2 to 8 on the
    same state answer Buy. *)
Lemma warmup_taken_again :
  let gm0 := newManager 7 10 "neutral" "n/a" "med" "rsi" in
  let gm2 := final gm0 [100; 99]%float in
  map fst (feed gm0 [100; 99; 105]%float)
  = [DoNothingSignal; DoNothingSignal; DoNothingSignal] /\
  lastRsiValue gm2 = 0%float /\
  warm gm2 = true /\
  Process_signal gm2 105 = DoNothingSignal /\
  fst (fst (Process_steady (computeOscillator gm2 105))) = BuySignal.
Proof. vm_compute. auto 6. Qed.

(** * Further properties of the grid manager *)

(** ** The memory a call leaves *)

Lemma resolveSignal_lastRsiValue gp bi si :
  lastRsiValue (snd (resolveSignal gp bi si)) = currentRsi gp.
Proof. unfold resolveSignal. destruct (buy gp), (sell gp); reflexivity. Qed.

(** X1: after every call, warm-up or steady, whatever it answers, the
    previous oscillator value held for the next bar is the oscillator value
    of this bar. *)
Theorem previous_is_current gm price :
  lastRsiValue (Process_state gm price) = currentRsi (Process_state gm price) /\
  currentRsi (Process_state gm price) = currentRsi (computeOscillator gm price).
Proof.
  rewrite Process_state_stages. destruct (warm gm).
  - generalize (computeOscillator gm price). intros g. split; reflexivity.
  - rewrite resolveSignal_lastRsiValue, resolveSignal_currentRsi.
    destruct (pipeline_frame gm price) as [_ E]. split; [reflexivity|exact E].
Qed.

Lemma resolveSignal_lastSignal gp bi si :
  lastSignal (snd (resolveSignal gp bi si))
  = signalCode (fst (resolveSignal gp bi si)) (lastSignal gp).
Proof. unfold resolveSignal. destruct (buy gp), (sell gp); reflexivity. Qed.

Lemma Process_lastSignal gm price :
  lastSignal (Process_state gm price) = signalCode (Process_signal gm price) (lastSignal gm).
Proof.
  rewrite Process_signal_stages, Process_state_stages. destruct (warm gm).
  - cbn [signalCode].
    destruct (computeOscillator_frame gm price) as [_ _ _ _ _ _ _ E _ _ _ _].
    revert E. generalize (computeOscillator gm price). intros g E. exact E.
  - rewrite resolveSignal_lastSignal.
    rewrite (fr_lastSignal _ _ (proj1 (pipeline_frame gm price))). reflexivity.
Qed.

Lemma feed_final_signals gm prices :
  lastSignal (final gm prices) = lastEmitted (lastSignal gm) (map fst (feed gm prices)).
Proof.
  revert gm. induction prices as [|p ps IH]; intros gm; [reflexivity|].
  rewrite final_cons, IH. cbn [feed map fst lastEmitted fold_left].
  rewrite Process_lastSignal. reflexivity.
Qed.

(** X2: [lastSignal] is the record of the answers given: after any price
    sequence on a constructed manager it codes the most recent Buy (1) or
    Sell (-1) among the signals returned, and is 0 when every answer so far
    was DoNothing. *)
Theorem lastSignal_records_answers
    rsiLength g direction ntZone aggLevel rsiType logger gm0 tr prices :
  NewGridManager rsiLength g direction ntZone aggLevel rsiType logger = Some (gm0, tr) ->
  lastSignal (final gm0 prices) = lastEmitted 0 (map fst (feed gm0 prices)) /\
  (Forall (fun s => s = DoNothingSignal) (map fst (feed gm0 prices)) ->
   lastSignal (final gm0 prices) = 0%float).
Proof.
  intros Hnew. destruct (NewGridManager_inv _ _ _ _ _ _ _ _ _ Hnew) as (Hf & _).
  assert (H : lastSignal (final gm0 prices) = lastEmitted 0 (map fst (feed gm0 prices))).
  { rewrite feed_final_signals, (fresh_lastSignal _ Hf). reflexivity. }
  split; [exact H|].
  rewrite H. generalize (map fst (feed gm0 prices)). intros l Hall.
  unfold lastEmitted. induction Hall as [|s l -> _ IH]; [reflexivity|exact IH].
Qed.

Lemma lastSignal_records_answers_witness :
  lastSignal (final (newManager 7 10 "neutral" "35-65" "low" "rsi")
                    [100; 101; 99; 105; 90]%float)
  = lastEmitted 0 (map fst (feed (newManager 7 10 "neutral" "35-65" "low" "rsi")
                                 [100; 101; 99; 105; 90]%float)).
Proof.
  refine (proj1 (lastSignal_records_answers 7 10 "neutral" "35-65" "low" "rsi" LocalLogger
                   (newManager 7 10 "neutral" "35-65" "low" "rsi")
                   (newManagerLog 7 10 "neutral" "35-65" "low" "rsi")
                   [100; 101; 99; 105; 90]%float _)).
  vm_compute. reflexivity.
Defined.

(** ** What a Buy or a Sell writes *)

Lemma detectCrossings_buy g : buy (detectCrossings g) = (getBuyLineIndex g >? 0).
Proof. reflexivity. Qed.

Lemma detectCrossings_sell g : sell (detectCrossings g) = (getSellLineIndex g >? 0).
Proof. reflexivity. Qed.

Lemma resolveSignal_buy gp bi si :
  fst (resolveSignal gp bi si) = BuySignal ->
  buy gp = true /\
  lastSignal (snd (resolveSignal gp bi si)) = 1%float /\
  lastSignalIndex (snd (resolveSignal gp bi si)) = bi /\
  signalLine (snd (resolveSignal gp bi si)) = getGridValue gp bi.
Proof.
  unfold resolveSignal. destruct (buy gp), (sell gp); cbn [fst snd]; intros H;
    try discriminate H; repeat (split; [reflexivity|]); reflexivity.
Qed.

Lemma resolveSignal_sell gp bi si :
  fst (resolveSignal gp bi si) = SellSignal ->
  buy gp = false /\ sell gp = true /\
  lastSignal (snd (resolveSignal gp bi si)) = (-1)%float /\
  lastSignalIndex (snd (resolveSignal gp bi si)) = si /\
  signalLine (snd (resolveSignal gp bi si)) = getGridValue gp si.
Proof.
  unfold resolveSignal. destruct (buy gp), (sell gp); cbn [fst snd]; intros H;
    try discriminate H; repeat (split; [reflexivity|]); reflexivity.
Qed.

Lemma getGridValue_at gm idx :
  0 <= idx < Z.of_nat (length (gridLines gm)) ->
  gridLines gm !! Z.to_nat idx = Some (getGridValue gm idx).
Proof.
  intros Hidx.
  destruct (lookup_lt_is_Some_2 (gridLines gm) (Z.to_nat idx)) as [x Hx]; [lia|].
  rewrite (getGridValue_lookup gm idx x); [exact Hx|lia|exact Hx].
Qed.

(** What one call does to the signal memory, by the signal it answers. *)
Lemma Process_signal_memory gm price :
  wf gm ->
  match Process_signal gm price with
  | BuySignal =>
      warm gm = false /\
      lastSignal (Process_state gm price) = 1%float /\
      lastSignalIndex (Process_state gm price) = getBuyLineIndex (computeOscillator gm price) /\
      0 < lastSignalIndex (Process_state gm price) < NumberOfGrids gm /\
      gridLines gm !! Z.to_nat (lastSignalIndex (Process_state gm price))
      = Some (signalLine (Process_state gm price))
  | SellSignal =>
      warm gm = false /\
      lastSignal (Process_state gm price) = (-1)%float /\
      lastSignalIndex (Process_state gm price) = getSellLineIndex (computeOscillator gm price) /\
      0 < lastSignalIndex (Process_state gm price) < NumberOfGrids gm /\
      gridLines gm !! Z.to_nat (lastSignalIndex (Process_state gm price))
      = Some (signalLine (Process_state gm price))
  | DoNothingSignal =>
      lastSignal (Process_state gm price) = lastSignal gm /\
      lastSignalIndex (Process_state gm price) = lastSignalIndex gm
  end.
Proof.
  intros Hwf. destruct (warm gm) eqn:Hw.
  - rewrite Process_signal_stages, Process_state_stages, Hw.
    destruct (computeOscillator_frame gm price) as [_ _ _ _ _ _ _ E1 E2 _ _ _].
    revert E1 E2. generalize (computeOscillator gm price). intros g E1 E2.
    split; assumption.
  - destruct (Process_signal gm price) eqn:Hsig.
    + rewrite Process_signal_stages, Hw in Hsig. rewrite Process_state_stages, Hw.
      destruct (resolveSignal_buy _ _ _ Hsig) as (Hb & H1 & H2 & H3).
      destruct (pipeline_frame gm price) as [F _].
      pose proof (computeOscillator_frame gm price) as F1.
      apply (proj1 (filterPipeline_clears _)) in Hb.
      rewrite detectCrossings_buy in Hb. apply Z.gtb_lt in Hb.
      pose proof (getBuyLineIndex_range (computeOscillator gm price)) as Hr.
      rewrite (fr_NumberOfGrids _ _ F1) in Hr. specialize (Hr (wf_grids _ Hwf)).
      rewrite H1, H2, H3. split; [reflexivity|]. split; [reflexivity|].
      split; [reflexivity|]. split; [lia|].
      rewrite (getGridValue_ext _ _ _ (fr_gridLines _ _ F)).
      apply getGridValue_at. rewrite (wf_length _ Hwf). lia.
    + rewrite Process_signal_stages, Hw in Hsig. rewrite Process_state_stages, Hw.
      destruct (resolveSignal_sell _ _ _ Hsig) as (_ & Hs & H1 & H2 & H3).
      destruct (pipeline_frame gm price) as [F _].
      pose proof (computeOscillator_frame gm price) as F1.
      apply (proj2 (filterPipeline_clears _)) in Hs.
      rewrite detectCrossings_sell in Hs. apply Z.gtb_lt in Hs.
      pose proof (getSellLineIndex_range (computeOscillator gm price)) as Hr.
      rewrite (fr_NumberOfGrids _ _ F1) in Hr. specialize (Hr (wf_grids _ Hwf)).
      rewrite H1, H2, H3. split; [reflexivity|]. split; [reflexivity|].
      split; [reflexivity|]. split; [lia|].
      rewrite (getGridValue_ext _ _ _ (fr_gridLines _ _ F)).
      apply getGridValue_at. rewrite (wf_length _ Hwf). lia.
    + destruct (steady_quiet_carry gm price Hw Hsig) as (H1 & H2 & _).
      split; assumption.
Qed.

(** X3: on a constructed manager, after any price sequence, a call that
    answers Buy was a steady call; it leaves 1 in [lastSignal], the buy line
    index the scan found in [lastSignalIndex], that index strictly between
    0 and the number of lines, and in [signalLine] the ladder line at that
    index. A call that answers Sell does the same with -1 and the sell line
    index. *)
Theorem Buy_Sell_write_memory
    rsiLength g direction ntZone aggLevel rsiType logger gm0 tr prices p :
  NewGridManager rsiLength g direction ntZone aggLevel rsiType logger = Some (gm0, tr) ->
  (Process_signal (final gm0 prices) p = BuySignal ->
   warm (final gm0 prices) = false /\
   lastSignal (Process_state (final gm0 prices) p) = 1%float /\
   lastSignalIndex (Process_state (final gm0 prices) p)
   = getBuyLineIndex (computeOscillator (final gm0 prices) p) /\
   0 < lastSignalIndex (Process_state (final gm0 prices) p) < NumberOfGrids gm0 /\
   gridLines gm0 !! Z.to_nat (lastSignalIndex (Process_state (final gm0 prices) p))
   = Some (signalLine (Process_state (final gm0 prices) p))) /\
  (Process_signal (final gm0 prices) p = SellSignal ->
   warm (final gm0 prices) = false /\
   lastSignal (Process_state (final gm0 prices) p) = (-1)%float /\
   lastSignalIndex (Process_state (final gm0 prices) p)
   = getSellLineIndex (computeOscillator (final gm0 prices) p) /\
   0 < lastSignalIndex (Process_state (final gm0 prices) p) < NumberOfGrids gm0 /\
   gridLines gm0 !! Z.to_nat (lastSignalIndex (Process_state (final gm0 prices) p))
   = Some (signalLine (Process_state (final gm0 prices) p))).
Proof.
  intros Hnew. destruct (NewGridManager_inv _ _ _ _ _ _ _ _ _ Hnew) as (Hf & _).
  pose proof (final_wf gm0 prices (fresh_wf _ Hf)) as Hwf.
  pose proof (final_config gm0 prices) as C.
  pose proof (Process_signal_memory (final gm0 prices) p Hwf) as H.
  rewrite (cf_NumberOfGrids _ _ C), (cf_gridLines _ _ C) in H.
  split; intros Hsig; rewrite Hsig in H; exact H.
Qed.

Lemma Buy_Sell_write_memory_witness :
  warm (final (newManager 7 10 "neutral" "35-65" "low" "rsi") [100; 101; 99]%float) = false /\
  lastSignal (Process_state (final (newManager 7 10 "neutral" "35-65" "low" "rsi")
                                   [100; 101; 99]%float) 105) = 1%float /\
  lastSignalIndex (Process_state (final (newManager 7 10 "neutral" "35-65" "low" "rsi")
                                        [100; 101; 99]%float) 105)
  = getBuyLineIndex (computeOscillator (final (newManager 7 10 "neutral" "35-65" "low" "rsi")
                                              [100; 101; 99]%float) 105) /\
  0 < lastSignalIndex (Process_state (final (newManager 7 10 "neutral" "35-65" "low" "rsi")
                                            [100; 101; 99]%float) 105)
    < NumberOfGrids (newManager 7 10 "neutral" "35-65" "low" "rsi") /\
  gridLines (newManager 7 10 "neutral" "35-65" "low" "rsi")
    !! Z.to_nat (lastSignalIndex
                   (Process_state (final (newManager 7 10 "neutral" "35-65" "low" "rsi")
                                         [100; 101; 99]%float) 105))
  = Some (signalLine (Process_state (final (newManager 7 10 "neutral" "35-65" "low" "rsi")
                                           [100; 101; 99]%float) 105)).
Proof.
  refine (proj1 (Buy_Sell_write_memory 7 10 "neutral" "35-65" "low" "rsi" LocalLogger
                   (newManager 7 10 "neutral" "35-65" "low" "rsi")
                   (newManagerLog 7 10 "neutral" "35-65" "low" "rsi")
                   [100; 101; 99]%float 105%float _) _);
    vm_compute; reflexivity.
Defined.

Lemma Process_state_signalMemory gm price :
  wf gm -> signalMemory gm -> signalMemory (Process_state gm price).
Proof.
  intros Hwf Hm. pose proof (Process_signal_memory gm price Hwf) as H.
  pose proof (Process_state_config gm price) as C.
  unfold signalMemory. rewrite (cf_NumberOfGrids _ _ C).
  destruct (Process_signal gm price).
  - destruct H as (_ & H1 & _ & H2 & _). right. split; [left; exact H1|exact H2].
  - destruct H as (_ & H1 & _ & H2 & _). right. split; [right; exact H1|exact H2].
  - destruct H as (H1 & H2). rewrite H1, H2. exact Hm.
Qed.

Lemma final_signalMemory gm prices :
  wf gm -> signalMemory gm -> signalMemory (final gm prices).
Proof.
  revert gm. induction prices as [|p ps IH]; intros gm Hwf Hm; [exact Hm|].
  rewrite final_cons. apply IH; [apply Process_state_wf, Hwf|].
  apply Process_state_signalMemory; assumption.
Qed.

(** X4: whatever prices a constructed manager is fed, its signal memory
    stands in one of two ways: [lastSignal] is 0 with [lastSignalIndex] 0
    (no Buy or Sell answered yet), or [lastSignal] is 1 or -1 with
    [lastSignalIndex] strictly between 0 and the number of lines. Index 0,
    the line at 1, is never the line of an answered signal. *)
Theorem signalMemory_invariant
    rsiLength g direction ntZone aggLevel rsiType logger gm0 tr prices :
  NewGridManager rsiLength g direction ntZone aggLevel rsiType logger = Some (gm0, tr) ->
  (lastSignal (final gm0 prices) = 0%float /\ lastSignalIndex (final gm0 prices) = 0) \/
  ((lastSignal (final gm0 prices) = 1%float \/ lastSignal (final gm0 prices) = (-1)%float) /\
   0 < lastSignalIndex (final gm0 prices) < NumberOfGrids gm0).
Proof.
  intros Hnew. destruct (NewGridManager_inv _ _ _ _ _ _ _ _ _ Hnew) as (Hf & _).
  pose proof (final_signalMemory gm0 prices (fresh_wf _ Hf)) as H.
  unfold signalMemory in H. rewrite (cf_NumberOfGrids _ _ (final_config gm0 prices)) in H.
  apply H. left. split; [apply (fresh_lastSignal _ Hf)|apply (fresh_lastSignalIndex _ Hf)].
Qed.

Lemma signalMemory_invariant_witness :
  (lastSignal (final (newManager 7 10 "neutral" "35-65" "low" "rsi")
                     [100; 101; 99; 105]%float) = 0%float /\
   lastSignalIndex (final (newManager 7 10 "neutral" "35-65" "low" "rsi")
                          [100; 101; 99; 105]%float) = 0) \/
  ((lastSignal (final (newManager 7 10 "neutral" "35-65" "low" "rsi")
                      [100; 101; 99; 105]%float) = 1%float \/
    lastSignal (final (newManager 7 10 "neutral" "35-65" "low" "rsi")
                      [100; 101; 99; 105]%float) = (-1)%float) /\
   0 < lastSignalIndex (final (newManager 7 10 "neutral" "35-65" "low" "rsi")
                              [100; 101; 99; 105]%float)
     < NumberOfGrids (newManager 7 10 "neutral" "35-65" "low" "rsi")).
Proof.
  refine (signalMemory_invariant 7 10 "neutral" "35-65" "low" "rsi" LocalLogger
            (newManager 7 10 "neutral" "35-65" "low" "rsi")
            (newManagerLog 7 10 "neutral" "35-65" "low" "rsi")
            [100; 101; 99; 105]%float _).
  vm_compute. reflexivity.
Defined.

(** ** The crossing scans *)

(** A loop seen round by round: a property of the rounds done so far. *)
Lemma for_loop_rounds {St : Type} (P : Z -> St -> Prop) (n : Z) (body : Z -> St -> St)
    (s : St) :
  P 0 s ->
  (forall i acc, 0 <= i < n -> P i acc -> P (i + 1) (body i acc)) ->
  P (Z.max 0 n) (for_loop n body s).
Proof.
  intros Hs Hbody. unfold for_loop.
  replace (Z.max 0 n) with (Z.of_nat (0 + Z.to_nat n)) by lia.
  assert (Hle : (0 + Z.to_nat n <= Z.to_nat n)%nat) by lia.
  revert Hle. change 0 with (Z.of_nat 0) in Hs. revert s Hs.
  generalize (Z.to_nat n) at 1 3 4 as len. generalize 0%nat as a.
  intros a len. revert a. induction len as [|len IH]; intros a s Hs Hle.
  - cbn [seq fold_left]. replace (a + 0)%nat with a by lia. exact Hs.
  - cbn [seq fold_left]. replace (a + S len)%nat with (S a + len)%nat by lia.
    apply IH; [|lia].
    replace (Z.of_nat (S a)) with (Z.of_nat a + 1) by lia.
    apply Hbody; [lia|exact Hs].
Qed.

(** X5: the buy scan. When the previous value is above 99 and the current
    one at or below it, the index is the last line's, whatever the ladder.
    Otherwise the index is the highest line crossed upward (previous below
    the line, current at or above it, previous at or below the signal
    line), and 0 when no line is. *)
Theorem getBuyLineIndex_highest gm :
  (buyReentry gm = true -> 1 <= NumberOfGrids gm < 2 ^ 63 ->
   getBuyLineIndex gm = NumberOfGrids gm - 1) /\
  (buyReentry gm = false ->
   (getBuyLineIndex gm = 0 \/
    0 < getBuyLineIndex gm < NumberOfGrids gm /\
    buyCrossing gm (getBuyLineIndex gm) = true) /\
   forall x, getBuyLineIndex gm < x < NumberOfGrids gm -> buyCrossing gm x = false).
Proof.
  split.
  - intros Hre Hn. unfold getBuyLineIndex.
    match goal with
    | |- for_loop ?n ?b ?s = _ =>
        pose proof (for_loop_rounds
                      (fun k idx => k = 0 /\ idx = 0 \/ 0 < k /\ idx = NumberOfGrids gm - 1)
                      n b s) as H
    end.
    destruct H as [[H _]|[_ H]]; [left; split; reflexivity| |lia|exact H].
    intros i acc Hi _. right. split; [lia|].
    cbv zeta. fold (buyReentry gm). rewrite Hre.
    unfold isub. apply wrap64_id. lia.
  - intros Hre. unfold getBuyLineIndex.
    match goal with
    | |- context [for_loop ?n ?b ?s] =>
        pose proof (for_loop_rounds
                      (fun k idx =>
                         (idx = 0 \/ 0 < idx < k /\ buyCrossing gm idx = true) /\
                         forall x, idx < x < k -> buyCrossing gm x = false)
                      n b s) as H;
        set (r := for_loop n b s) in *
    end.
    cbv beta in H. destruct H as [H1 H2].
    + split; [left; reflexivity|]. intros x Hx. lia.
    + intros i acc Hi [Hacc Habove]. cbv zeta.
      fold (buyReentry gm). rewrite Hre. fold (buyCrossing gm i).
      destruct (buyCrossing gm i) eqn:Hc.
      * split.
        -- destruct (Z.eq_dec i 0) as [->|Hne]; [left; reflexivity|].
           right. split; [lia|exact Hc].
        -- intros x Hx. lia.
      * split.
        -- destruct Hacc as [->|[Hr Hc']]; [left; reflexivity|].
           right. split; [lia|exact Hc'].
        -- intros x Hx. destruct (Z.eq_dec x i) as [->|Hne]; [exact Hc|].
           apply Habove. lia.
    + split.
      * destruct H1 as [H1|[Hr Hc]]; [left; exact H1|right; split; [lia|exact Hc]].
      * intros x Hx. apply H2. lia.
Qed.

Lemma getBuyLineIndex_highest_witness :
  getBuyLineIndex
    (computeOscillator (final (newManager 7 10 "neutral" "n/a" "med" "rsi") [100; 110]%float) 35)
  = NumberOfGrids
      (computeOscillator (final (newManager 7 10 "neutral" "n/a" "med" "rsi") [100; 110]%float)
                         35) - 1.
Proof.
  refine (proj1 (getBuyLineIndex_highest
                   (computeOscillator
                      (final (newManager 7 10 "neutral" "n/a" "med" "rsi") [100; 110]%float) 35))
                _ _); vm_compute; [reflexivity|split; [discriminate|reflexivity]].
Defined.

(** X6: the sell scan. When the previous value is below 1 and the current
    one at or above it, the index is 0: no sell flag on that bar. Otherwise
    the index is the highest line crossed downward (previous above the
    line, current at or below it, previous at or above the signal line),
    and 0 when no line is. *)
Theorem getSellLineIndex_highest gm :
  (sellReset gm = true -> getSellLineIndex gm = 0) /\
  (sellReset gm = false ->
   (getSellLineIndex gm = 0 \/
    0 < getSellLineIndex gm < NumberOfGrids gm /\
    sellCrossing gm (getSellLineIndex gm) = true) /\
   forall x, getSellLineIndex gm < x < NumberOfGrids gm -> sellCrossing gm x = false).
Proof.
  split.
  - intros Hre. unfold getSellLineIndex.
    apply (for_loop_ind (fun idx => idx = 0)); [reflexivity|].
    intros i acc _ _. cbv zeta. fold (sellReset gm). rewrite Hre. reflexivity.
  - intros Hre. unfold getSellLineIndex.
    match goal with
    | |- context [for_loop ?n ?b ?s] =>
        pose proof (for_loop_rounds
                      (fun k idx =>
                         (idx = 0 \/ 0 < idx < k /\ sellCrossing gm idx = true) /\
                         forall x, idx < x < k -> sellCrossing gm x = false)
                      n b s) as H;
        set (r := for_loop n b s) in *
    end.
    cbv beta in H. destruct H as [H1 H2].
    + split; [left; reflexivity|]. intros x Hx. lia.
    + intros i acc Hi [Hacc Habove]. cbv zeta.
      fold (sellReset gm). rewrite Hre. fold (sellCrossing gm i).
      destruct (sellCrossing gm i) eqn:Hc.
      * split.
        -- destruct (Z.eq_dec i 0) as [->|Hne]; [left; reflexivity|].
           right. split; [lia|exact Hc].
        -- intros x Hx. lia.
      * split.
        -- destruct Hacc as [->|[Hr Hc']]; [left; reflexivity|].
           right. split; [lia|exact Hc'].
        -- intros x Hx. destruct (Z.eq_dec x i) as [->|Hne]; [exact Hc|].
           apply Habove. lia.
    + split.
      * destruct H1 as [H1|[Hr Hc]]; [left; exact H1|right; split; [lia|exact Hc]].
      * intros x Hx. apply H2. lia.
Qed.

Lemma getSellLineIndex_highest_witness :
  getSellLineIndex
    (computeOscillator (final (newManager 7 10 "neutral" "n/a" "med" "rsi") [100; 99]%float) 105)
  = 0.
Proof.
  refine (proj1 (getSellLineIndex_highest
                   (computeOscillator
                      (final (newManager 7 10 "neutral" "n/a" "med" "rsi") [100; 99]%float) 105))
                _); vm_compute; reflexivity.
Defined.

(** ** The ladder, line by line *)

Lemma evenLadder_rounds (n : Z) (f : Z -> float) (l0 : list float) :
  length l0 = Z.to_nat n ->
  forall j, 0 <= j < n ->
  for_loop n (fun i l => <[ Z.to_nat i := f i ]> l) l0 !! Z.to_nat j = Some (f j).
Proof.
  intros Hlen j Hj.
  match goal with
  | |- for_loop ?n ?b ?s !! _ = _ =>
      pose proof (for_loop_rounds
                    (fun k l => length l = Z.to_nat n /\
                                forall j, 0 <= j < k -> l !! Z.to_nat j = Some (f j))
                    n b s) as H
  end.
  cbv beta in H. destruct H as [_ H].
  - split; [exact Hlen|]. intros j' Hj'. lia.
  - intros i acc Hi [Hl Hdone]. split; [rewrite length_insert; exact Hl|].
    intros j' Hj'. destruct (Z.eq_dec j' i) as [->|Hne].
    + apply list_lookup_insert_eq. lia.
    + rewrite list_lookup_insert_ne by lia. apply Hdone. lia.
  - apply H. lia.
Qed.

(** X7: between its two ends the ladder holds the multiples of the step:
    for a grid count g from 1 up, line i of a constructed manager, for
    0 < i < g, is (100 / g) * i, each factor and the product rounded as
    binary64 values. *)
Theorem ladder_interior rsiLength g direction ntZone aggLevel rsiType logger gm tr i :
  1 <= g < 2 ^ 63 - 1 ->
  NewGridManager rsiLength g direction ntZone aggLevel rsiType logger = Some (gm, tr) ->
  0 < i < g ->
  gridLines gm !! Z.to_nat i = Some (100 / float64_of_int g * float64_of_int i)%float.
Proof.
  intros Hg Hnew Hi.
  destruct (NewGridManager_inv _ _ _ _ _ _ _ _ _ Hnew) as (Hf & _ & Hn & _).
  unfold iadd in Hn. rewrite wrap64_id in Hn by lia.
  rewrite (fresh_ladder _ Hf), Hn by lia.
  unfold evenLadder. cbv zeta. unfold isub. rewrite wrap64_id by lia.
  replace (g + 1 - 1) with g by lia.
  rewrite !list_lookup_insert_ne by lia.
  apply (evenLadder_rounds (g + 1) (fun i => (100 / float64_of_int g * float64_of_int i)%float)).
  - apply length_replicate.
  - lia.
Qed.

Lemma ladder_interior_witness :
  gridLines (newManager 7 10 "neutral" "35-65" "low" "rsi") !! Z.to_nat 3
  = Some (100 / float64_of_int 10 * float64_of_int 3)%float.
Proof.
  refine (ladder_interior 7 10 "neutral" "35-65" "low" "rsi" LocalLogger
            (newManager 7 10 "neutral" "35-65" "low" "rsi")
            (newManagerLog 7 10 "neutral" "35-65" "low" "rsi") 3 _ _ _);
    [lia | vm_compute; reflexivity | lia].
Defined.

(** ** Construction at the edges *)




(** ** The configuration *)

(** X9: what construction parsed stays for the life of the manager: after
    any price sequence the period, the number of lines (grid count plus
    one), the direction, the no-trade-zone width, the aggression level and
    the indicator variant are those parsed from the arguments, each inside
    its enumeration, and the ladder and the logger are those of
    construction. *)
Theorem configuration_is_kept
    rsiLength g direction ntZone aggLevel rsiType logger gm0 tr prices :
  NewGridManager rsiLength g direction ntZone aggLevel rsiType logger = Some (gm0, tr) ->
  RsiLength (final gm0 prices) = rsiLength /\
  NumberOfGrids (final gm0 prices) = iadd g 1 /\
  MarketDirection (final gm0 prices) = parseDirection direction /\
  NoTradeZonePips (final gm0 prices) = parseNoTradeZone ntZone /\
  AggressionLevel (final gm0 prices) = parseAggression aggLevel /\
  CurrentRsiType (final gm0 prices) = parseRsiType rsiType /\
  In (MarketDirection (final gm0 prices)) [DirUp; DirNeutral; DirDown] /\
  In (NoTradeZonePips (final gm0 prices)) [0; 5; 10; 15; 20] /\
  In (AggressionLevel (final gm0 prices)) [0; 1; 2] /\
  In (CurrentRsiType (final gm0 prices)) [RsiTypeClassic; RsiTypeRSX] /\
  gridLines (final gm0 prices) = gridLines gm0 /\
  log (final gm0 prices) = logger.
Proof.
  intros Hnew.
  destruct (NewGridManager_inv _ _ _ _ _ _ _ _ _ Hnew)
    as (_ & H1 & H2 & H3 & H4 & H5 & H6 & H7).
  destruct (final_config gm0 prices) as [C1 C2 C3 C4 C5 C6 C7 C8].
  rewrite C1, C2, C3, C4, C5, C6, C7, C8, H1, H2, H3, H4, H5, H6, H7.
  repeat (split; [reflexivity|]).
  split; [|split; [|split; [|split; [|split; reflexivity]]]].
  - unfold parseDirection. destruct (String.eqb direction "up"); [cbn; auto|].
    destruct (String.eqb direction "down"); cbn; auto.
  - unfold parseNoTradeZone.
    destruct (String.eqb ntZone "45-55"); [cbn; auto|].
    destruct (String.eqb ntZone "40-60"); [cbn; auto|].
    destruct (String.eqb ntZone "35-65"); [cbn; auto|].
    destruct (String.eqb ntZone "30-70"); cbn; auto 6.
  - unfold parseAggression.
    destruct (String.eqb aggLevel "med"); [cbn; auto|].
    destruct (String.eqb aggLevel "high"); cbn; auto.
  - unfold parseRsiType. destruct (String.eqb rsiType "rsx"); cbn; auto.
Qed.

Lemma configuration_is_kept_witness :
  NoTradeZonePips (final (newManager 7 10 "neutral" "35-65" "low" "rsi")
                         [100; 101; 99; 105; 90]%float)
  = parseNoTradeZone "35-65".
Proof.
  refine (proj1 (proj2 (proj2 (proj2
            (configuration_is_kept 7 10 "neutral" "35-65" "low" "rsi" LocalLogger
               (newManager 7 10 "neutral" "35-65" "low" "rsi")
               (newManagerLog 7 10 "neutral" "35-65" "low" "rsi")
               [100; 101; 99; 105; 90]%float _)))));
    vm_compute; reflexivity.
Defined.

(** ** The order of binary64 values *)

Lemma SFcompare_antisym a b : SFcompare b a = option_map CompOpp (SFcompare a b).
Proof.
  destruct a as [[]|[]| |[] ma ea], b as [[]|[]| |[] mb eb]; try reflexivity;
    cbn [SFcompare option_map];
    rewrite (Z.compare_antisym ea eb); destruct (ea ?= eb); cbn [CompOpp]; try reflexivity;
    rewrite (Pos.compare_cont_antisym ma mb Eq); cbn [CompOpp];
    destruct (Pos.compare_cont Eq ma mb); reflexivity.
Qed.

Lemma SFcompare_Eq_same a c l :
  SFcompare a c = Some Eq -> SFcompare a l = SFcompare c l.
Proof.
  destruct a as [[]|[]| |[] ma ea], c as [[]|[]| |[] mc ec]; cbn [SFcompare];
    intros H; try discriminate H; try reflexivity;
    destruct (Z.compare_spec ea ec) as [->|?|?]; try discriminate H;
    (assert (ma = mc) as -> by
        (apply Pos.compare_eq; unfold Pos.compare;
         destruct (Pos.compare_cont Eq ma mc); [reflexivity|discriminate H..]));
    reflexivity.
Qed.

(** Two values that are equal compare alike with any third one. *)
Lemma eqb_compare_alike a c l :
  (a =? c)%float = true ->
  (a <? l)%float = (c <? l)%float /\ (l <? a)%float = (l <? c)%float /\
  (a <=? l)%float = (c <=? l)%float /\ (l <=? a)%float = (l <=? c)%float.
Proof.
  rewrite FloatAxioms.eqb_spec, !FloatAxioms.ltb_spec, !FloatAxioms.leb_spec.
  unfold SFeqb, SFltb, SFleb. intros H.
  assert (He : SFcompare (Prim2SF a) (Prim2SF c) = Some Eq).
  { destruct (SFcompare (Prim2SF a) (Prim2SF c)) as [[]|]; [reflexivity|discriminate H..]. }
  rewrite (SFcompare_antisym (Prim2SF a) (Prim2SF l)),
    (SFcompare_antisym (Prim2SF c) (Prim2SF l)).
  rewrite (SFcompare_Eq_same _ _ (Prim2SF l) He). auto.
Qed.

(** Below excludes at-or-above. *)
Lemma ltb_not_geb a b : (a <? b)%float = true -> (a >=? b)%float = false.
Proof.
  rewrite FloatAxioms.ltb_spec, FloatAxioms.leb_spec. unfold SFltb, SFleb.
  rewrite (SFcompare_antisym (Prim2SF a) (Prim2SF b)).
  destruct (SFcompare (Prim2SF a) (Prim2SF b)) as [[]|]; cbn; congruence.
Qed.

(** A value that is a number and is not below another number is at or above
    it. *)
Lemma not_ltb_geb a b :
  (a =? a)%float = true -> (b =? b)%float = true ->
  (a <? b)%float = false -> (a >=? b)%float = true.
Proof.
  rewrite !FloatAxioms.eqb_spec, FloatAxioms.ltb_spec, FloatAxioms.leb_spec.
  unfold SFeqb, SFltb, SFleb.
  rewrite (SFcompare_antisym (Prim2SF a) (Prim2SF b)).
  destruct (Prim2SF a) as [[]|[]| |[] ma ea], (Prim2SF b) as [[]|[]| |[] mb eb];
    cbn [SFcompare option_map CompOpp]; try congruence;
    intros _ _; destruct (ea ?= eb); cbn [CompOpp]; try congruence;
    destruct (Pos.compare_cont Eq ma mb); cbn [CompOpp]; congruence.
Qed.

(** ** The range of the oscillator *)

Lemma clamp_range v :
  (clamp v 0 100 =? clamp v 0 100)%float = true ->
  (0 <=? clamp v 0 100)%float && (clamp v 0 100 <=? 100)%float = true.
Proof.
  unfold clamp. destruct (v <? 0)%float eqn:Hlo; [reflexivity|].
  destruct (v >? 100)%float eqn:Hhi; [reflexivity|].
  intros Hnum.
  rewrite (not_ltb_geb v 0 Hnum eq_refl Hlo).
  rewrite (not_ltb_geb 100 v eq_refl Hnum Hhi). reflexivity.
Qed.

Lemma computeRSI_range gm price :
  (fst (computeRSI gm price) =? fst (computeRSI gm price))%float = true ->
  (0 <=? fst (computeRSI gm price))%float && (fst (computeRSI gm price) <=? 100)%float = true.
Proof.
  unfold computeRSI. cbv zeta.
  destruct (prevRawPrice gm =? 0)%float; [reflexivity|].
  match goal with
  | |- context [if ?c then set_avgLoss ?a ?g else ?h] =>
      generalize (if c then set_avgLoss a g else h)
  end.
  intros g. destruct (avgLoss g =? 0)%float; [reflexivity|].
  cbn [fst]. apply clamp_range.
Qed.

Lemma computeRSX_range gm price :
  (fst (computeRSX gm price) =? fst (computeRSX gm price))%float = true ->
  (0 <=? fst (computeRSX gm price))%float && (fst (computeRSX gm price) <=? 100)%float = true.
Proof.
  rewrite computeRSX_halves.
  destruct ((f8 gm =? 0)%float && (f10 gm =? 0)%float); [reflexivity|].
  generalize (rsx_cascade gm price) (f8 gm) (rsx_v14 gm price) (rsx_v20 gm price).
  intros g oldF8 v14 v20. unfold rsx_finish. cbv zeta. cbn [fst]. apply clamp_range.
Qed.

(** X10: the oscillator value a call computes, with either indicator and
    from any state, is a value between 0 and 100 whenever it is a number
    (it can be NaN, which compares with nothing). *)
Theorem oscillator_range gm price :
  (currentRsi (Process_state gm price) =? currentRsi (Process_state gm price))%float = true ->
  (0 <=? currentRsi (Process_state gm price))%float
  && (currentRsi (Process_state gm price) <=? 100)%float = true.
Proof.
  assert (E : currentRsi (Process_state gm price) = currentRsi (computeOscillator gm price)).
  { rewrite Process_state_stages. destruct (warm gm).
    - generalize (computeOscillator gm price). intros g. reflexivity.
    - rewrite resolveSignal_currentRsi. apply (proj2 (pipeline_frame gm price)). }
  rewrite E. unfold computeOscillator.
  destruct (CurrentRsiType gm =? RsiTypeRSX).
  - generalize (computeRSX_range gm price). generalize (computeRSX gm price).
    intros r H. exact H.
  - generalize (computeRSI_range gm price). generalize (computeRSI gm price).
    intros r H. exact H.
Qed.

Lemma oscillator_range_witness :
  (0 <=? currentRsi (Process_state (final (newManager 7 10 "neutral" "35-65" "low" "rsi")
                                          [100; 101; 99]%float) 105))%float
  && (currentRsi (Process_state (final (newManager 7 10 "neutral" "35-65" "low" "rsi")
                                       [100; 101; 99]%float) 105) <=? 100)%float = true.
Proof.
  refine (oscillator_range (final (newManager 7 10 "neutral" "35-65" "low" "rsi")
                                  [100; 101; 99]%float) 105 _).
  vm_compute. reflexivity.
Defined.

(** ** A bar on which the oscillator does not move *)

Lemma flat_no_buyCrossing gm x :
  (currentRsi gm =? lastRsiValue gm)%float = true -> buyCrossing gm x = false.
Proof.
  intros Hflat. unfold buyCrossing.
  destruct (lastRsiValue gm <? getGridValue gm x)%float eqn:Hlt; [|reflexivity].
  destruct (eqb_compare_alike _ _ (getGridValue gm x) Hflat) as (E & _).
  rewrite <- E in Hlt. rewrite (ltb_not_geb _ _ Hlt). reflexivity.
Qed.

Lemma flat_no_sellCrossing gm x :
  (currentRsi gm =? lastRsiValue gm)%float = true -> sellCrossing gm x = false.
Proof.
  intros Hflat. unfold sellCrossing.
  destruct (lastRsiValue gm >? getGridValue gm x)%float eqn:Hlt; [|reflexivity].
  destruct (eqb_compare_alike _ _ (getGridValue gm x) Hflat) as (_ & E & _).
  rewrite <- E in Hlt. rewrite (ltb_not_geb _ _ Hlt). reflexivity.
Qed.

Lemma flat_no_buyReentry gm :
  (currentRsi gm =? lastRsiValue gm)%float = true -> buyReentry gm = false.
Proof.
  intros Hflat. unfold buyReentry.
  destruct (lastRsiValue gm >? 99)%float eqn:Hlt; [|reflexivity].
  destruct (eqb_compare_alike _ _ 99%float Hflat) as (_ & E & _).
  rewrite <- E in Hlt. rewrite (ltb_not_geb _ _ Hlt). reflexivity.
Qed.

Lemma flat_no_sellReset gm :
  (currentRsi gm =? lastRsiValue gm)%float = true -> sellReset gm = false.
Proof.
  intros Hflat. unfold sellReset.
  destruct (lastRsiValue gm <? 1)%float eqn:Hlt; [|reflexivity].
  destruct (eqb_compare_alike _ _ 1%float Hflat) as (E & _).
  rewrite <- E in Hlt. rewrite (ltb_not_geb _ _ Hlt). reflexivity.
Qed.

Lemma flat_scans gm :
  (currentRsi gm =? lastRsiValue gm)%float = true ->
  getBuyLineIndex gm = 0 /\ getSellLineIndex gm = 0.
Proof.
  intros Hflat. split.
  - unfold getBuyLineIndex. apply (for_loop_ind (fun idx => idx = 0)); [reflexivity|].
    intros i acc _ ->. cbv zeta. fold (buyReentry gm). fold (buyCrossing gm i).
    rewrite (flat_no_buyReentry gm Hflat), (flat_no_buyCrossing gm i Hflat). reflexivity.
  - unfold getSellLineIndex. apply (for_loop_ind (fun idx => idx = 0)); [reflexivity|].
    intros i acc _ ->. cbv zeta. fold (sellReset gm). fold (sellCrossing gm i).
    rewrite (flat_no_sellReset gm Hflat), (flat_no_sellCrossing gm i Hflat). reflexivity.
Qed.

Lemma flat_DoNothing gm price :
  (currentRsi (computeOscillator gm price) =? lastRsiValue gm)%float = true ->
  Process_signal gm price = DoNothingSignal.
Proof.
  intros Hflat.
  rewrite <- (fr_lastRsiValue _ _ (computeOscillator_frame gm price)) in Hflat.
  destruct (flat_scans _ Hflat) as [Hb Hs].
  rewrite Process_signal_stages. destruct (warm gm); [reflexivity|].
  rewrite resolveSignal_signal.
  destruct (filterPipeline_clears (detectCrossings (computeOscillator gm price))) as [Cb Cs].
  rewrite detectCrossings_buy, Hb in Cb. rewrite detectCrossings_sell, Hs in Cs.
  rewrite (not_true_false _ _ Cb eq_refl), (not_true_false _ _ Cs eq_refl). reflexivity.
Qed.

(** X11: a bar whose oscillator value equals the previous one crosses no
    line: both scans give index 0 and the call answers DoNothing, whatever
    the configuration and the signal line. *)
Theorem flat_oscillator_is_quiet gm price :
  (currentRsi (computeOscillator gm price) =? lastRsiValue gm)%float = true ->
  getBuyLineIndex (computeOscillator gm price) = 0 /\
  getSellLineIndex (computeOscillator gm price) = 0 /\
  Process_signal gm price = DoNothingSignal.
Proof.
  intros Hflat. split; [|split; [|exact (flat_DoNothing gm price Hflat)]].
  - apply flat_scans.
    rewrite (fr_lastRsiValue _ _ (computeOscillator_frame gm price)). exact Hflat.
  - apply flat_scans.
    rewrite (fr_lastRsiValue _ _ (computeOscillator_frame gm price)). exact Hflat.
Qed.

Lemma flat_oscillator_is_quiet_witness :
  getBuyLineIndex
    (computeOscillator (final (newManager 7 10 "neutral" "n/a" "high" "rsi") [100; 110]%float) 120)
  = 0 /\
  getSellLineIndex
    (computeOscillator (final (newManager 7 10 "neutral" "n/a" "high" "rsi") [100; 110]%float) 120)
  = 0 /\
  Process_signal (final (newManager 7 10 "neutral" "n/a" "high" "rsi") [100; 110]%float) 120
  = DoNothingSignal.
Proof.
  refine (flat_oscillator_is_quiet
            (final (newManager 7 10 "neutral" "n/a" "high" "rsi") [100; 110]%float) 120 _).
  vm_compute. reflexivity.
Defined.

(** ** The direction of the move behind a signal *)

Ltac compare_cases :=
  repeat match goal with
         | H : context [Z.compare ?x ?y] |- _ => destruct (Z.compare_spec x y); subst
         | |- context [Z.compare ?x ?y] => destruct (Z.compare_spec x y); subst
         | H : context [Pos.compare_cont Eq ?x ?y] |- _ =>
             change (Pos.compare_cont Eq x y) with (Pos.compare x y) in *;
             destruct (Pos.compare_spec x y); subst
         | |- context [Pos.compare_cont Eq ?x ?y] =>
             change (Pos.compare_cont Eq x y) with (Pos.compare x y) in *;
             destruct (Pos.compare_spec x y); subst
         end.

Lemma SFltb_SFleb_trans a l c :
  SFltb a l = true -> SFleb l c = true -> SFltb a c = true.
Proof.
  unfold SFltb, SFleb.
  destruct a as [[]|[]| |[] ma ea], l as [[]|[]| |[] ml el], c as [[]|[]| |[] mc ec];
    cbn [SFcompare]; intros H1 H2; try discriminate H1; try discriminate H2;
    try reflexivity; compare_cases; cbn [CompOpp] in *;
    try discriminate H1; try discriminate H2; try reflexivity; lia.
Qed.

Lemma SFleb_SFltb_trans a l c :
  SFleb a l = true -> SFltb l c = true -> SFltb a c = true.
Proof.
  unfold SFltb, SFleb.
  destruct a as [[]|[]| |[] ma ea], l as [[]|[]| |[] ml el], c as [[]|[]| |[] mc ec];
    cbn [SFcompare]; intros H1 H2; try discriminate H1; try discriminate H2;
    try reflexivity; compare_cases; cbn [CompOpp] in *;
    try discriminate H1; try discriminate H2; try reflexivity; lia.
Qed.

Lemma ltb_leb_trans a l c :
  (a <? l)%float = true -> (l <=? c)%float = true -> (a <? c)%float = true.
Proof. rewrite !FloatAxioms.ltb_spec, FloatAxioms.leb_spec. apply SFltb_SFleb_trans. Qed.

Lemma leb_ltb_trans a l c :
  (a <=? l)%float = true -> (l <? c)%float = true -> (a <? c)%float = true.
Proof. rewrite !FloatAxioms.ltb_spec, FloatAxioms.leb_spec. apply SFleb_SFltb_trans. Qed.

Lemma getBuyLineIndex_raised gm :
  0 < getBuyLineIndex gm -> buyReentry gm = true \/ exists x, buyCrossing gm x = true.
Proof.
  unfold getBuyLineIndex.
  apply (for_loop_ind
           (fun idx => 0 < idx -> buyReentry gm = true \/ exists x, buyCrossing gm x = true)).
  - lia.
  - intros i acc _ IH. cbv zeta. fold (buyReentry gm). fold (buyCrossing gm i).
    destruct (buyReentry gm); [left; reflexivity|].
    destruct (buyCrossing gm i) eqn:Hc; [intros _; right; exists i; exact Hc|exact IH].
Qed.

Lemma getSellLineIndex_raised gm :
  0 < getSellLineIndex gm -> exists x, sellCrossing gm x = true.
Proof.
  unfold getSellLineIndex.
  apply (for_loop_ind (fun idx => 0 < idx -> exists x, sellCrossing gm x = true)).
  - lia.
  - intros i acc _ IH. cbv zeta. fold (sellReset gm). fold (sellCrossing gm i).
    destruct (sellReset gm); [lia|].
    destruct (sellCrossing gm i) eqn:Hc; [intros _; exists i; exact Hc|exact IH].
Qed.

(** X12: a Sell is answered only on a bar whose oscillator value is below
    the previous one. A Buy is answered only on a bar whose oscillator value
    is above the previous one, or on a bar that comes down from above 99 to
    99 or less (the re-entry test of the buy scan). *)
Theorem signal_follows_move gm price :
  (Process_signal gm price = SellSignal ->
   (currentRsi (computeOscillator gm price) <? lastRsiValue gm)%float = true) /\
  (Process_signal gm price = BuySignal ->
   (lastRsiValue gm <? currentRsi (computeOscillator gm price))%float = true \/
   (lastRsiValue gm >? 99)%float = true /\
   (currentRsi (computeOscillator gm price) <=? 99)%float = true).
Proof.
  pose proof (fr_lastRsiValue _ _ (computeOscillator_frame gm price)) as El.
  split; intros Hsig; rewrite Process_signal_stages in Hsig;
    (destruct (warm gm); [discriminate Hsig|]); rewrite resolveSignal_signal in Hsig;
    destruct (filterPipeline_clears (detectCrossings (computeOscillator gm price)))
      as [Cb Cs]; rewrite <- El.
  - destruct (buy (filterPipeline _)); [discriminate Hsig|].
    destruct (sell (filterPipeline _)); [|discriminate Hsig].
    specialize (Cs eq_refl). rewrite detectCrossings_sell in Cs. apply Z.gtb_lt in Cs.
    destruct (getSellLineIndex_raised _ Cs) as [x Hx].
    revert Hx. generalize (computeOscillator gm price). intros g Hx.
    unfold sellCrossing in Hx. apply andb_true_iff in Hx. destruct Hx as [Hx _].
    apply andb_true_iff in Hx. destruct Hx as [H1 H2].
    exact (leb_ltb_trans _ _ _ H2 H1).
  - destruct (buy (filterPipeline _)); [|destruct (sell (filterPipeline _)); discriminate Hsig].
    specialize (Cb eq_refl). rewrite detectCrossings_buy in Cb. apply Z.gtb_lt in Cb.
    destruct (getBuyLineIndex_raised _ Cb) as [Hre|[x Hx]].
    + right. unfold buyReentry in Hre. apply andb_true_iff in Hre. exact Hre.
    + left. revert Hx. generalize (computeOscillator gm price). intros g Hx.
      unfold buyCrossing in Hx. apply andb_true_iff in Hx. destruct Hx as [Hx _].
      apply andb_true_iff in Hx. destruct Hx as [H1 H2].
      exact (ltb_leb_trans _ _ _ H1 H2).
Qed.

Lemma signal_follows_move_witness :
  (currentRsi (computeOscillator
                 (final (newManager 7 10 "neutral" "35-65" "low" "rsi") [100; 101]%float) 99)
   <? lastRsiValue (final (newManager 7 10 "neutral" "35-65" "low" "rsi") [100; 101]%float))%float
  = true.
Proof.
  refine (proj1 (signal_follows_move
                   (final (newManager 7 10 "neutral" "35-65" "low" "rsi") [100; 101]%float) 99)
                _).
  vm_compute. reflexivity.
Defined.

(** ** The RSX warm-up window *)

Lemma Process_state_lastRsiValue gm price :
  lastRsiValue (Process_state gm price) = currentRsi (Process_state gm price).
Proof.
  rewrite Process_state_stages. destruct (warm gm).
  - generalize (computeOscillator gm price). intros g. reflexivity.
  - rewrite resolveSignal_lastRsiValue, resolveSignal_currentRsi.
    destruct (pipeline_frame gm price) as [_ E]. reflexivity.
Qed.

Lemma Process_state_currentRsi gm price :
  currentRsi (Process_state gm price) = currentRsi (computeOscillator gm price).
Proof.
  rewrite Process_state_stages. destruct (warm gm).
  - generalize (computeOscillator gm price). intros g. reflexivity.
  - rewrite resolveSignal_currentRsi.
    destruct (pipeline_frame gm price) as [_ E]. exact E.
Qed.

Lemma final_snoc gm ps p : final gm (ps ++ [p]) = Process_state (final gm ps) p.
Proof.
  revert gm. induction ps as [|q ps IH]; intros gm; [reflexivity|].
  rewrite <- app_comm_cons, !final_cons. apply IH.
Qed.

(** X13: the RSX variant keeps quiet while it warms up. On a constructed
    RSX manager, after any prices, a call that leaves the progress counter
    not past the threshold, made on a state whose counter was not past it
    either, leaves 50 as the oscillator value and answers DoNothing. *)
Theorem rsx_quiet_window
    rsiLength g direction ntZone aggLevel logger gm0 tr prices p :
  NewGridManager rsiLength g direction ntZone aggLevel "rsx" logger = Some (gm0, tr) ->
  (f90_ (final gm0 prices) >? f88 (final gm0 prices))%float = false ->
  (f90_ (Process_state (final gm0 prices) p)
   >? f88 (Process_state (final gm0 prices) p))%float = false ->
  currentRsi (Process_state (final gm0 prices) p) = 50%float /\
  Process_signal (final gm0 prices) p = DoNothingSignal.
Proof.
  intros Hnew Hprev Hnow.
  destruct (NewGridManager_inv _ _ _ _ _ _ _ _ _ Hnew) as (Hf & _ & _ & _ & _ & _ & Hty & _).
  pose proof (fresh_rsx_inv gm0 Hf Hty) as Hinv0.
  destruct (rsx_step gm0 (final gm0 prices) p (final_rsx_inv gm0 gm0 prices Hinv0))
    as (_ & _ & H50 & _).
  specialize (H50 Hnow). split; [exact H50|].
  revert Hprev Hnow H50. induction prices as [|q qs _] using rev_ind; intros Hprev Hnow H50.
  - apply (first_call gm0 p Hf).
  - apply flat_DoNothing.
    rewrite <- Process_state_currentRsi, H50.
    rewrite final_snoc in Hprev |- *.
    destruct (rsx_step gm0 (final gm0 qs) q (final_rsx_inv gm0 gm0 qs Hinv0))
      as (_ & _ & H50' & _).
    rewrite Process_state_lastRsiValue, (H50' Hprev). reflexivity.
Qed.

Lemma rsx_quiet_window_witness :
  currentRsi (Process_state (final (newManager 7 10 "neutral" "35-65" "low" "rsx")
                                   [100; 99; 105; 90]%float) 120) = 50%float /\
  Process_signal (final (newManager 7 10 "neutral" "35-65" "low" "rsx")
                        [100; 99; 105; 90]%float) 120 = DoNothingSignal.
Proof.
  refine (rsx_quiet_window 7 10 "neutral" "35-65" "low" LocalLogger
            (newManager 7 10 "neutral" "35-65" "low" "rsx")
            (newManagerLog 7 10 "neutral" "35-65" "low" "rsx")
            [100; 99; 105; 90]%float 120%float _ _ _);
    vm_compute; reflexivity.
Defined.

(** ** The first bars of an RSX manager *)

Lemma rsxThreshold_ge5 gm : (rsxThreshold gm <? 5)%float = false.
Proof.
  unfold rsxThreshold. cbv zeta.
  generalize (float64_of_int (isub (RsiLength gm) 1)). intros x.
  destruct (x <? 5)%float eqn:H5; [reflexivity|exact H5].
Qed.

Lemma small_counter j : 1 <= j <= 5 -> j = 1 \/ j = 2 \/ j = 3 \/ j = 4 \/ j = 5.
Proof. lia. Qed.

(** A counter of at most 5 is not past a threshold of at least 5. *)
Lemma counter_not_past t j :
  (t <? 5)%float = false -> 1 <= j <= 5 -> (float64_of_int j >? t)%float = false.
Proof.
  intros Ht Hj. destruct (float64_of_int j >? t)%float eqn:H; [|reflexivity].
  assert (H5 : (float64_of_int j <=? 5)%float = true).
  { destruct (small_counter j Hj) as [->|[->|[->|[->| ->]]]]; reflexivity. }
  rewrite (ltb_leb_trans _ _ _ H H5) in Ht. discriminate Ht.
Qed.

(** One more bar of a seeded RSX: the counter goes up by one. *)
Lemma rsx_finish_counter g oldF8 v14 v20 j :
  (f88 g <? 5)%float = false -> 1 <= j <= 4 -> f90_ g = float64_of_int j ->
  (f88 (snd (rsx_finish g oldF8 v14 v20)) <? 5)%float = false /\
  f90_ (snd (rsx_finish g oldF8 v14 v20)) = float64_of_int (j + 1).
Proof.
  intros Ht Hj Hc.
  assert (Hz : (f90_ g =? 0)%float = false).
  { rewrite Hc. destruct (small_counter j ltac:(lia)) as [->|[->|[->|[->| ->]]]]; reflexivity. }
  assert (Hle : (f88 g <=? f90_ g)%float = false).
  { destruct (f88 g <=? f90_ g)%float eqn:H; [|reflexivity].
    assert (H5 : (f90_ g <? 5)%float = true).
    { rewrite Hc. destruct (small_counter j ltac:(lia)) as [->|[->|[->|[->| ->]]]];
        first [reflexivity|lia]. }
    rewrite (leb_ltb_trans _ _ _ H H5) in Ht. discriminate Ht. }
  assert (H0 : (f88 g =? 0)%float = false).
  { destruct (f88 g =? 0)%float eqn:H; [|reflexivity].
    destruct (eqb_compare_alike _ _ 5%float H) as (E & _).
    rewrite E in Ht. discriminate Ht. }
  assert (Hn : (f90_ g + 1)%float = float64_of_int (j + 1)).
  { rewrite Hc. destruct (small_counter j ltac:(lia)) as [->|[->|[->|[->| ->]]]];
      first [reflexivity|lia]. }
  revert Ht Hz Hle H0 Hn. generalize (float64_of_int (j + 1)). intros c.
  destruct g. unfold rsx_finish. cbv zeta. fields. intros Ht Hz Hle H0 Hn.
  rewrite Hz, Hle, H0. fields. rewrite Hn.
  match goal with |- context [set_f0 ?e] => generalize e end. intros ft. fields.
  match goal with |- context [if ?b then _ else _] => destruct b end; fields;
    (split; [exact Ht|reflexivity]).
Qed.

Lemma rsx_counting_weaken gm k k' : k <= k' -> rsx_counting gm k -> rsx_counting gm k'.
Proof. intros Hk (Ht & j & Hj & Hc). split; [exact Ht|]. exists j. split; [lia|exact Hc]. Qed.

(** One bar of the RSX, seeded or not: the counter is at most one further. *)
Lemma computeRSX_counter gm price k :
  0 <= k <= 4 ->
  rsx_unseeded gm = true \/ rsx_counting gm k ->
  rsx_counting (snd (computeRSX gm price)) (k + 1).
Proof.
  intros Hk Hc. rewrite computeRSX_halves. fold (rsx_unseeded gm).
  destruct (rsx_unseeded gm) eqn:Hu.
  - fields. split; [apply rsxThreshold_ge5|]. exists 1. split; [lia|reflexivity].
  - destruct Hc as [Hc|(Ht & j & Hj & Hc)]; [discriminate Hc|].
    destruct (rsx_finish_counter (rsx_cascade gm price) (f8 gm) (rsx_v14 gm price)
                (rsx_v20 gm price) j Ht ltac:(lia) Hc) as [Ht' Hc'].
    split; [exact Ht'|]. exists (j + 1). split; [lia|exact Hc'].
Qed.

Lemma rsx_counting_not_past gm k :
  k <= 5 -> rsx_counting gm k -> (f90_ gm >? f88 gm)%float = false.
Proof.
  intros Hk (Ht & j & Hj & Hc). rewrite Hc. apply counter_not_past; [exact Ht|lia].
Qed.

(** One of the first five calls: DoNothing, and the next state is one bar
    further. *)
Lemma rsx_early_step gm0 gm price k :
  0 <= k <= 4 -> rsx_early gm0 gm k ->
  Process_signal gm price = DoNothingSignal /\
  currentRsi (Process_state gm price) = 50%float /\
  rsx_early gm0 (Process_state gm price) (k + 1).
Proof.
  intros Hk (Hinv & Hlast & Hc).
  destruct (rsx_step gm0 gm price Hinv) as (Hinv' & _ & H50 & _).
  assert (Hc' : rsx_counting (Process_state gm price) (k + 1)).
  { destruct Hinv as (_ & Hty & _).
    destruct (Process_state_oscillator gm price) as [_ _ E88 E90 _].
    rewrite (computeOscillator_rsx gm price Hty) in E88, E90.
    pose proof (computeRSX_counter gm price k Hk Hc) as Hn.
    revert E88 E90 Hn. generalize (computeRSX gm price). intros r. fields.
    unfold rsx_counting. intros <- <- Hn. exact Hn. }
  specialize (H50 (rsx_counting_not_past _ (k + 1) ltac:(lia) Hc')).
  split; [|split; [exact H50|]].
  - destruct Hlast as [Hl|Hl].
    + rewrite Process_signal_stages. unfold warm. rewrite Hl. reflexivity.
    + apply flat_DoNothing. rewrite <- Process_state_currentRsi, H50, Hl. reflexivity.
  - split; [exact Hinv'|]. split; [|right; exact Hc'].
    right. rewrite Process_state_lastRsiValue. exact H50.
Qed.

Lemma rsx_early_feed gm0 prices : forall gm k,
  0 <= k -> k + Z.of_nat (length prices) <= 5 -> rsx_early gm0 gm k ->
  Forall (fun r => fst r = DoNothingSignal /\ currentRsi (snd r) = 50%float) (feed gm prices).
Proof.
  induction prices as [|p ps IH]; intros gm k Hk Hlen He; [constructor|].
  cbn [length] in Hlen. cbn [feed].
  destruct (rsx_early_step gm0 gm p k ltac:(lia) He) as (Hsig & H50 & He').
  constructor; [split; assumption|].
  apply (IH _ (k + 1)); [lia|lia|exact He'].
Qed.

(** X14: with the RSX variant, whatever the period and the prices, each of
    the first five calls on a constructed manager answers DoNothing and
    leaves 50 as the oscillator value: the threshold the progress counter
    has to pass is at least 5. *)
Theorem rsx_first_five_quiet
    rsiLength g direction ntZone aggLevel logger gm0 tr prices :
  NewGridManager rsiLength g direction ntZone aggLevel "rsx" logger = Some (gm0, tr) ->
  (length prices <= 5)%nat ->
  Forall (fun r => fst r = DoNothingSignal /\ currentRsi (snd r) = 50%float) (feed gm0 prices).
Proof.
  intros Hnew Hlen.
  destruct (NewGridManager_inv _ _ _ _ _ _ _ _ _ Hnew) as (Hf & _ & _ & _ & _ & _ & Hty & _).
  apply (rsx_early_feed gm0 prices gm0 0); [lia|lia|].
  split; [exact (fresh_rsx_inv gm0 Hf Hty)|]. split.
  - left. apply (fresh_lastRsiValue _ Hf).
  - left. unfold rsx_unseeded. rewrite (fresh_f8 _ Hf), (fresh_f10 _ Hf). reflexivity.
Qed.

Lemma rsx_first_five_quiet_witness :
  Forall (fun r => fst r = DoNothingSignal /\ currentRsi (snd r) = 50%float)
         (feed (newManager 7 10 "neutral" "35-65" "low" "rsx") [100; 0; 250; 3; 120]%float).
Proof.
  refine (rsx_first_five_quiet 7 10 "neutral" "35-65" "low" LocalLogger
            (newManager 7 10 "neutral" "35-65" "low" "rsx")
            (newManagerLog 7 10 "neutral" "35-65" "low" "rsx")
            [100; 0; 250; 3; 120]%float _ _).
  - vm_compute. reflexivity.
  - cbn [length]. lia.
Defined.

(** * Properties of the configuration and of the Jupiter wrapper *)

(** ** The secret key cache *)

(** X15: the secret key makes the round trip through the cache. When
    [NewConfig] succeeds, the configuration is the one read, the Secret
    Manager was asked for projects/<project>/secrets/<name>/versions/<version>
    and answered a payload, the cache holds that payload under the key name
    and nothing else, and [SecretKey] returns it. An error of the read or of
    the Secret Manager is the error of [NewConfig]. *)
Theorem SecretKey_round_trip read client :
  (forall cfg, NewConfig read client = inr cfg ->
     exists cfg0 sk,
       read = inr cfg0 /\
       client ("projects/" ++ GcpProjectId cfg0 ++ "/secrets/" ++ SmSecretKeyName cfg0
               ++ "/versions/" ++ Itoa (SmSecretKeyVersion cfg0))%string = inr sk /\
       cfg = set_secrets {[ SmSecretKeyName cfg0 := sk ]} (set_sm client cfg0) /\
       SecretKey cfg = inr sk) /\
  (forall err, NewConfig read client = inl err ->
     read = inl err \/
     exists cfg0,
       read = inr cfg0 /\
       client ("projects/" ++ GcpProjectId cfg0 ++ "/secrets/" ++ SmSecretKeyName cfg0
               ++ "/versions/" ++ Itoa (SmSecretKeyVersion cfg0))%string = inl err).
Proof.
  unfold NewConfig, getSecret. destruct read as [e|cfg0]; cbv zeta.
  - split; [intros cfg H; discriminate H|]. intros err H. left. exact H.
  - cbn [GcpProjectId SmSecretKeyName SmSecretKeyVersion sm secrets set_sm set_secrets].
    destruct (client _) as [e|sk] eqn:Hc.
    + split; [intros cfg H; discriminate H|]. intros err H. right.
      exists cfg0. split; [reflexivity|]. injection H as <-. exact Hc.
    + split; [|intros err H; discriminate H]. intros cfg H. injection H as <-.
      exists cfg0, sk. split; [reflexivity|]. split; [exact Hc|].
      rewrite insert_empty. split; [reflexivity|].
      unfold SecretKey. cbn [secrets SmSecretKeyName set_secrets set_sm].
      rewrite lookup_singleton_eq. reflexivity.
Qed.


Lemma SecretKey_round_trip_witness :
  exists cfg,
    NewConfig (inr (sampleConfig 5)) sampleSecrets = inr cfg /\
    SecretKey cfg = inr "5Kb8"%string.
Proof.
  destruct (NewConfig (inr (sampleConfig 5)) sampleSecrets) as [e|cfg] eqn:H.
  - exfalso. vm_compute in H. discriminate H.
  - exists cfg. split; [reflexivity|].
    destruct (proj1 (SecretKey_round_trip (inr (sampleConfig 5)) sampleSecrets) cfg H)
      as (c & sk & Hr & Hc & _ & Hk).
    injection Hr as <-. vm_compute in Hc. injection Hc as <-. exact Hk.
Defined.

(** ** The precision of a price *)

Lemma Split_length s c : length (Split s c) = S (occurrences c s).
Proof.
  induction s as [|a s IH]; [reflexivity|].
  cbn [Split occurrences]. destruct (Ascii.eqb a c).
  - cbn [length]. rewrite IH. reflexivity.
  - destruct (Split s c) as [|part parts]; [discriminate IH|exact IH].
Qed.

(** Without the separator, the one piece is the string. *)
Lemma Split_none s c : occurrences c s = O -> Split s c = [s].
Proof.
  induction s as [|a s IH]; [reflexivity|].
  cbn [Split occurrences]. destruct (Ascii.eqb a c); [discriminate|].
  intros H. rewrite (IH H). reflexivity.
Qed.

(** At the first separator, the first piece ends. *)
Lemma Split_append a b c :
  occurrences c a = O -> Split (a ++ String c b) c = a :: Split b c.
Proof.
  induction a as [|x a IH]; intros H.
  - change (Split (String c b) c = EmptyString :: Split b c).
    cbn [Split]. rewrite Ascii.eqb_refl. reflexivity.
  - change (Split (String x (a ++ String c b)) c = String x a :: Split b c).
    cbn [occurrences] in H. cbn [Split].
    destruct (Ascii.eqb x c); [discriminate H|].
    rewrite (IH H). reflexivity.
Qed.

(** X16: the precision read off a price string is the number of bytes
    after the dot when the string has exactly one dot, and 0 when it has
    none or more than one. *)
Theorem priceDecimals_counts_fraction :
  (forall a b, occurrences "." a = O -> occurrences "." b = O ->
     priceDecimals (a ++ String "." b) = Z.of_nat (String.length b)) /\
  (forall s, occurrences "." s <> 1%nat -> priceDecimals s = 0).
Proof.
  split.
  - intros a b Ha Hb. unfold priceDecimals. cbv zeta.
    rewrite (Split_append a b "." Ha), (Split_none b "." Hb). reflexivity.
  - intros s Hs. unfold priceDecimals. cbv zeta. rewrite Split_length.
    destruct (Z.eqb_spec (Z.of_nat (S (occurrences "." s))) 2) as [E|E]; [|reflexivity].
    exfalso. apply Hs. lia.
Qed.

Lemma priceDecimals_counts_fraction_witness :
  priceDecimals "171.2450" = 4 /\ priceDecimals "171" = 0 /\ priceDecimals "1.7.1" = 0.
Proof.
  split; [|split].
  - apply (proj1 priceDecimals_counts_fraction "171" "2450"); reflexivity.
  - apply (proj2 priceDecimals_counts_fraction "171"). cbn. lia.
  - apply (proj2 priceDecimals_counts_fraction "1.7.1"). cbn. lia.
Defined.

(** The loop of [getDecimals], entry by entry. *)
Lemma getDecimals_loop (prices : gmap string PriceData) t :
  (map_fold (fun token priceData (decimals : gmap string Z) =>
               <[ token := priceDecimals (Price priceData) ]> decimals) ∅ prices) !! t
  = (fun priceData => priceDecimals (Price priceData)) <$> prices !! t.
Proof.
  apply (map_fold_weak_ind
           (fun (r : gmap string Z) (m : gmap string PriceData) =>
              r !! t = (fun priceData => priceDecimals (Price priceData)) <$> m !! t)).
  - rewrite !lookup_empty. reflexivity.
  - intros i x m r Hi IH. destruct (decide (i = t)) as [->|Hne].
    + rewrite !lookup_insert_eq. reflexivity.
    + rewrite !lookup_insert_ne by exact Hne. exact IH.
Qed.

(** X17: [getDecimals] answers for exactly the tokens the pricing endpoint
    priced, each with the precision of its price string; an error of the
    endpoint is its error. *)
Theorem getDecimals_per_token getPrices tokenAddresses :
  (forall prices, getPrices tokenAddresses = inr prices ->
     exists decimals,
       getDecimals getPrices tokenAddresses = inr decimals /\
       forall token,
         decimals !! token
         = (fun priceData => priceDecimals (Price priceData)) <$> prices !! token) /\
  (forall err, getPrices tokenAddresses = inl err ->
     getDecimals getPrices tokenAddresses = inl err).
Proof.
  unfold getDecimals. split.
  - intros prices ->. eexists. split; [reflexivity|].
    intros token. apply getDecimals_loop.
  - intros err ->. reflexivity.
Qed.

Lemma getDecimals_per_token_witness :
  exists decimals,
    getDecimals samplePrices ["SOL"%string] = inr decimals /\
    decimals !! "SOL"%string = Some 4 /\ decimals !! "USDC"%string = None.
Proof.
  destruct (proj1 (getDecimals_per_token samplePrices ["SOL"%string]) _ eq_refl)
    as (decimals & Hd & Hl).
  exists decimals. split; [exact Hd|]. split.
  - rewrite Hl. vm_compute. reflexivity.
  - rewrite Hl. vm_compute. reflexivity.
Defined.

(** ** Following a transaction *)

(** The loop of [MonitorTx] from any point within its bounds: it comes to an
    end, the tries stay within the retries allowed, the stage index within
    the stages, each stage passed takes a try, and the loop is left with
    all stages passed or all retries used. *)
Lemma monitorLoop_runs wait maxRetries fuel : forall count stageIndex,
  0 <= count <= maxRetries -> maxRetries < 2 ^ 63 -> 0 <= stageIndex < 3 ->
  (Z.to_nat (maxRetries - count) <= fuel)%nat ->
  exists c s,
    monitorLoop wait maxRetries fuel count stageIndex = Some (c, s) /\
    count <= c <= maxRetries /\ stageIndex <= s <= 3 /\
    s - stageIndex <= c - count /\ (s = 3 /\ count < c \/ s < 3 /\ c = maxRetries).
Proof.
  induction fuel as [|fuel IH]; intros count stageIndex Hc Hm Hs Hf.
  - assert (count = maxRetries) as -> by lia.
    cbn [monitorLoop]. rewrite Z.ltb_irrefl.
    exists maxRetries, stageIndex. split; [reflexivity|]. lia.
  - cbn [monitorLoop]. destruct (Z.ltb_spec count maxRetries) as [Hlt|Hge].
    + cbv zeta. unfold iadd. rewrite (wrap64_id (count + 1)) by lia.
      assert (Hchk : (stageIndex <? 0) || (stageIndex >=? Z.of_nat (length stages)) = false).
      { change (Z.of_nat (length stages)) with 3. apply orb_false_iff.
        split; [lia|]. rewrite Z.geb_leb. apply Z.leb_gt. lia. }
      rewrite Hchk.
      assert (Hst : exists stage, stages !! Z.to_nat stageIndex = Some stage).
      { assert (stageIndex = 0 \/ stageIndex = 1 \/ stageIndex = 2) as [->|[->| ->]] by lia;
          eexists; reflexivity. }
      destruct Hst as [stage ->].
      assert (Hrec : forall si, stageIndex <= si < 3 -> si <= stageIndex + 1 ->
        exists c s,
          monitorLoop wait maxRetries fuel (count + 1) si = Some (c, s) /\
          count <= c <= maxRetries /\ stageIndex <= s <= 3 /\
          s - stageIndex <= c - count /\ (s = 3 /\ count < c \/ s < 3 /\ c = maxRetries)).
      { intros si Hsi Hsi'.
        destruct (IH (count + 1) si) as (c & s & E & H1 & H2 & H3 & H4); [lia|lia|lia|lia|].
        exists c, s. split; [exact E|]. lia. }
      destruct (wait (count + 1) stage) as [e|res].
      * apply Hrec; lia.
      * destruct (InstructionErr res) as [e|].
        -- apply Hrec; lia.
        -- rewrite (wrap64_id (stageIndex + 1)) by lia.
           change (Z.of_nat (length stages)) with 3. rewrite Z.geb_leb.
           destruct (Z.leb_spec 3 (stageIndex + 1)) as [H3|H3].
           ++ exists (count + 1), (stageIndex + 1). split; [reflexivity|]. lia.
           ++ apply Hrec; lia.
    + assert (count = maxRetries) as -> by lia.
      exists maxRetries, stageIndex. split; [reflexivity|]. lia.
Qed.

Lemma monitorLoop_start wait maxRetries :
  - 2 ^ 63 <= maxRetries < 2 ^ 63 ->
  exists c s,
    monitorLoop wait maxRetries (Z.to_nat maxRetries) 0 0 = Some (c, s) /\
    0 <= c <= Z.max 0 maxRetries /\ 0 <= s <= 3 /\ s <= c /\
    (s = 3 /\ 0 < c \/ s < 3 /\ c = Z.max 0 maxRetries).
Proof.
  intros Hm. destruct (Z.le_gt_cases 0 maxRetries) as [Hpos|Hneg].
  - destruct (monitorLoop_runs wait maxRetries (Z.to_nat maxRetries) 0 0)
      as (c & s & E & H1 & H2 & H3 & H4); [lia|lia|lia|lia|].
    exists c, s. split; [exact E|]. lia.
  - exists 0, 0. split; [|lia].
    destruct (Z.to_nat maxRetries); cbn [monitorLoop];
      (replace (0 <? maxRetries) with false by (symmetry; apply Z.ltb_ge; lia));
      reflexivity.
Qed.

(** X18: [MonitorTx] always comes to an end, without an index out of range:
    it makes at most [MaxRetriesTxMonitor] tries, passes at most the three
    stages, one try at least for each, and writes one message: that the
    transaction is finalized when the three stages were passed in fewer
    tries than [MaxRetriesTxMonitor], and that the status could not be got
    in every other case. *)
Theorem MonitorTx_outcome cfg wait txId log :
  - 2 ^ 63 <= MaxRetriesTxMonitor cfg < 2 ^ 63 ->
  exists count stageIndex,
    monitorLoop wait (MaxRetriesTxMonitor cfg) (Z.to_nat (MaxRetriesTxMonitor cfg)) 0 0
    = Some (count, stageIndex) /\
    0 <= count <= Z.max 0 (MaxRetriesTxMonitor cfg) /\
    0 <= stageIndex <= 3 /\ stageIndex <= count /\
    MonitorTx cfg wait txId log
    = Some (count,
            if (stageIndex =? 3) && (count <? MaxRetriesTxMonitor cfg)
            then Msg (Info log) "commitment status is finalized for transaction %s"
                     [AStr txId]
            else Msg (Error log) "could not get commitment status after %d retries for %s"
                     [AInt (MaxRetriesTxMonitor cfg); AStr txId]).
Proof.
  intros Hm. destruct (monitorLoop_start wait _ Hm) as (c & s & E & H1 & H2 & H3 & H4).
  exists c, s. split; [exact E|]. split; [exact H1|]. split; [exact H2|].
  split; [exact H3|].
  unfold MonitorTx. rewrite E. rewrite Z.geb_leb.
  destruct (Z.leb_spec (MaxRetriesTxMonitor cfg) c) as [Hge|Hlt].
  - replace (c <? MaxRetriesTxMonitor cfg) with false by (symmetry; apply Z.ltb_ge; lia).
    rewrite andb_false_r. reflexivity.
  - replace (c <? MaxRetriesTxMonitor cfg) with true by (symmetry; apply Z.ltb_lt; lia).
    replace (s =? 3) with true by (symmetry; apply Z.eqb_eq; lia). reflexivity.
Qed.

Lemma MonitorTx_outcome_witness :
  MonitorTx (sampleConfig 5) sampleWait "tx" LocalLogger
  = Some (4, Msg (Info LocalLogger) "commitment status is finalized for transaction %s"
                 [AStr "tx"]).
Proof.
  destruct (MonitorTx_outcome (sampleConfig 5) sampleWait "tx" LocalLogger)
    as (c & s & E & _ & _ & _ & H).
  - cbn [MaxRetriesTxMonitor sampleConfig]. lia.
  - vm_compute in E. injection E as <- <-. exact H.
Defined.

(** X19: with [MaxRetriesTxMonitor] at 3 or less, [MonitorTx] writes that
    the status could not be got, whatever the monitor answers: the three
    stages take three tries, and the message of success wants fewer tries
    than the retries allowed. *)
Theorem MonitorTx_three_retries_fail cfg wait txId log :
  - 2 ^ 63 <= MaxRetriesTxMonitor cfg <= 3 ->
  exists count,
    0 <= count <= 3 /\
    MonitorTx cfg wait txId log
    = Some (count,
            Msg (Error log) "could not get commitment status after %d retries for %s"
                [AInt (MaxRetriesTxMonitor cfg); AStr txId]).
Proof.
  intros Hm.
  destruct (monitorLoop_start wait (MaxRetriesTxMonitor cfg) ltac:(lia))
    as (c & s & E & H1 & H2 & H3 & H4).
  exists c. split; [lia|].
  unfold MonitorTx. rewrite E.
  replace (c >=? MaxRetriesTxMonitor cfg) with true; [reflexivity|].
  symmetry. rewrite Z.geb_leb. apply Z.leb_le. lia.
Qed.

Lemma MonitorTx_three_retries_fail_witness :
  exists count,
    0 <= count <= 3 /\
    MonitorTx (sampleConfig 3) cleanWait "tx" LocalLogger
    = Some (count,
            Msg (Error LocalLogger) "could not get commitment status after %d retries for %s"
                [AInt (MaxRetriesTxMonitor (sampleConfig 3)); AStr "tx"]).
Proof.
  apply (MonitorTx_three_retries_fail (sampleConfig 3) cleanWait "tx" LocalLogger).
  cbn [MaxRetriesTxMonitor sampleConfig]. lia.
Defined.

(** X20: with more than three retries allowed, a transaction whose three
    stages are each confirmed at the first asking is reported finalized
    after exactly three tries. *)
Theorem MonitorTx_clean_run cfg wait txId log r1 r2 r3 :
  3 < MaxRetriesTxMonitor cfg < 2 ^ 63 ->
  wait 1 CommitmentProcessed = inr r1 -> InstructionErr r1 = None ->
  wait 2 CommitmentConfirmed = inr r2 -> InstructionErr r2 = None ->
  wait 3 CommitmentFinalized = inr r3 -> InstructionErr r3 = None ->
  MonitorTx cfg wait txId log
  = Some (3, Msg (Info log) "commitment status is finalized for transaction %s" [AStr txId]).
Proof.
  intros Hm W1 E1 W2 E2 W3 E3. unfold MonitorTx.
  destruct (Z.to_nat (MaxRetriesTxMonitor cfg)) as [|[|[|fuel]]] eqn:Hf; [lia..|].
  assert (Hloop : monitorLoop wait (MaxRetriesTxMonitor cfg) (S (S (S fuel))) 0 0
                  = Some (3, 3)).
  { cbn [monitorLoop].
    replace (0 <? MaxRetriesTxMonitor cfg) with true by (symmetry; apply Z.ltb_lt; lia).
    change (iadd 0 1) with 1. cbn [orb Z.ltb Z.compare]. cbv zeta.
    change (stages !! Z.to_nat 0) with (Some CommitmentProcessed).
    change ((0 <? 0) || (0 >=? Z.of_nat (length stages))) with false. cbv iota.
    rewrite W1, E1. change (iadd 0 1) with 1.
    change (1 >=? Z.of_nat (length stages)) with false. cbv iota.
    replace (1 <? MaxRetriesTxMonitor cfg) with true by (symmetry; apply Z.ltb_lt; lia).
    change (iadd 1 1) with 2.
    change ((1 <? 0) || (1 >=? Z.of_nat (length stages))) with false. cbv iota.
    change (stages !! Z.to_nat 1) with (Some CommitmentConfirmed). cbv iota.
    rewrite W2, E2. change (2 >=? Z.of_nat (length stages)) with false. cbv iota.
    replace (2 <? MaxRetriesTxMonitor cfg) with true by (symmetry; apply Z.ltb_lt; lia).
    change (iadd 2 1) with 3.
    change ((2 <? 0) || (2 >=? Z.of_nat (length stages))) with false. cbv iota.
    change (stages !! Z.to_nat 2) with (Some CommitmentFinalized). cbv iota.
    rewrite W3, E3. reflexivity. }
  rewrite Hloop.
  replace (3 >=? MaxRetriesTxMonitor cfg) with false; [reflexivity|].
  symmetry. rewrite Z.geb_leb. apply Z.leb_gt. lia.
Qed.

Lemma MonitorTx_clean_run_witness :
  MonitorTx (sampleConfig 4) cleanWait "tx" CloudLogger
  = Some (3, Msg (Info CloudLogger) "commitment status is finalized for transaction %s"
                 [AStr "tx"]).
Proof.
  apply (MonitorTx_clean_run (sampleConfig 4) cleanWait "tx" CloudLogger
           {| InstructionErr := None |} {| InstructionErr := None |}
           {| InstructionErr := None |}); try reflexivity.
  cbn [MaxRetriesTxMonitor sampleConfig]. lia.
Defined.

(** * Properties of the main loop *)

Lemma swaps_app t1 t2 : swaps (t1 ++ t2) = swaps t1 ++ swaps t2.
Proof. unfold swaps. apply flat_map_app. Qed.

Lemma monitors_app t1 t2 : monitors (t1 ++ t2) = monitors t1 ++ monitors t2.
Proof. unfold monitors. apply flat_map_app. Qed.

Lemma submitted_trace client answer :
  swaps (submitted client answer) = [] /\ (length (monitors (submitted client answer)) <= 1)%nat.
Proof.
  unfold submitted. destruct (snd answer); cbn [swaps monitors flat_map app length]; split;
    first [reflexivity|lia].
Qed.

(** One round: the manager moves by one call when a price came and stays
    when none did; the swap asked for is the one the signal stands for; a
    monitor is started only after a swap. *)
Lemma iteration_trace cfg client ParseFloat net gm :
  snd (iteration cfg client ParseFloat net gm)
  = final gm (fetched cfg ParseFloat [net]) /\
  swaps (fst (iteration cfg client ParseFloat net gm))
  = flat_map (order cfg) (map fst (feed gm (fetched cfg ParseFloat [net]))) /\
  (length (monitors (fst (iteration cfg client ParseFloat net gm)))
   <= length (swaps (fst (iteration cfg client ParseFloat net gm))))%nat.
Proof.
  unfold iteration, fetched. cbv zeta. cbn [flat_map]. rewrite app_nil_r.
  generalize (GetPrice (getPrices net) ParseFloat (QuoteCurrency cfg)). intros fetch.
  destruct (snd fetch) as [err|].
  - cbn [fst snd final fold_left feed map flat_map swaps monitors app length].
    split; [reflexivity|]. split; [reflexivity|lia].
  - cbn [final fold_left feed map flat_map]. rewrite app_nil_r.
    fold (Process_signal gm (fst fetch)). fold (Process_state gm (fst fetch)).
    generalize (snd (Process gm (fst fetch))). intros lines.
    destruct (Process_signal gm (fst fetch)); cbn [fst snd order].
    + split; [reflexivity|].
      rewrite swaps_app, monitors_app.
      destruct (submitted_trace client
                  (SubmitSwap net (BaseCurrency cfg) (QuoteCurrency cfg) (BuyOrderSize cfg)))
        as [Hs Hm].
      revert Hs Hm. generalize (submitted client
        (SubmitSwap net (BaseCurrency cfg) (QuoteCurrency cfg) (BuyOrderSize cfg))).
      intros t Hs Hm. cbn [swaps monitors flat_map app]. fold (swaps t). fold (monitors t).
      rewrite Hs. split; [reflexivity|]. cbn [length]. lia.
    + split; [reflexivity|].
      rewrite swaps_app, monitors_app.
      destruct (submitted_trace client
                  (SubmitSwap net (QuoteCurrency cfg) (BaseCurrency cfg) (SellOrderSize cfg)))
        as [Hs Hm].
      revert Hs Hm. generalize (submitted client
        (SubmitSwap net (QuoteCurrency cfg) (BaseCurrency cfg) (SellOrderSize cfg))).
      intros t Hs Hm. cbn [swaps monitors flat_map app]. fold (swaps t). fold (monitors t).
      rewrite Hs. split; [reflexivity|]. cbn [length]. lia.
    + split; [reflexivity|]. cbn [swaps monitors flat_map app length].
      split; [reflexivity|lia].
Qed.

Lemma feed_app gm ps qs : feed gm (ps ++ qs) = feed gm ps ++ feed (final gm ps) qs.
Proof.
  revert gm. induction ps as [|p ps IH]; intros gm; [reflexivity|].
  rewrite <- app_comm_cons. cbn [feed]. rewrite IH, final_cons. reflexivity.
Qed.

Lemma final_app gm ps qs : final gm (ps ++ qs) = final (final gm ps) qs.
Proof. unfold final. apply fold_left_app. Qed.

Lemma fetched_cons cfg ParseFloat net nets :
  fetched cfg ParseFloat (net :: nets)
  = fetched cfg ParseFloat [net] ++ fetched cfg ParseFloat nets.
Proof. unfold fetched. cbn [flat_map]. rewrite app_nil_r. reflexivity. Qed.

(** The loop, round after round. *)
Lemma mainLoop_trace cfg client ParseFloat nets : forall gm,
  snd (mainLoop cfg client ParseFloat nets gm) = final gm (fetched cfg ParseFloat nets) /\
  swaps (fst (mainLoop cfg client ParseFloat nets gm))
  = flat_map (order cfg) (map fst (feed gm (fetched cfg ParseFloat nets))) /\
  (length (monitors (fst (mainLoop cfg client ParseFloat nets gm)))
   <= length (swaps (fst (mainLoop cfg client ParseFloat nets gm))))%nat.
Proof.
  induction nets as [|net nets IH]; intros gm.
  - cbn. split; [reflexivity|]. split; [reflexivity|lia].
  - cbn [mainLoop]. cbv zeta. cbn [fst snd].
    destruct (iteration_trace cfg client ParseFloat net gm) as (H1 & H2 & H3).
    revert H1 H2 H3. generalize (iteration cfg client ParseFloat net gm). intros r H1 H2 H3.
    destruct (IH (snd r)) as (K1 & K2 & K3).
    revert K1 K2 K3. generalize (mainLoop cfg client ParseFloat nets (snd r)).
    intros r' K1 K2 K3.
    rewrite fetched_cons, final_app, feed_app, map_app, flat_map_app.
    rewrite swaps_app, monitors_app, !length_app.
    rewrite <- H1, <- H2, K1, K2. split; [reflexivity|]. split; [reflexivity|].
    rewrite <- K2. lia.
Qed.

(** X21: [main] does not panic when it builds the grid manager, and its
    loop follows the manager: after any number of rounds, whatever the
    services answer, the manager is the one built with (7, 10, neutral,
    35-65, low, rsx) after the prices got so far, in order; the swaps asked
    for are, in order, those the signals on these prices stand for (base
    for quote at the buy size on Buy, quote for base at the sell size on
    Sell, none on DoNothing); and no more monitors are started than swaps
    asked for. *)
Theorem main_follows_manager cfg client ParseFloat nets :
  exists gm0 lines trace gm,
    NewGridManager 7 10 "neutral" "35-65" "low" "rsx" (NewLogger client) = Some (gm0, lines) /\
    main cfg client ParseFloat nets = Some (trace, gm) /\
    gm = final gm0 (fetched cfg ParseFloat nets) /\
    swaps trace = flat_map (order cfg) (map fst (feed gm0 (fetched cfg ParseFloat nets))) /\
    (length (monitors trace) <= length (swaps trace))%nat.
Proof.
  destruct (NewGridManager_some 7 10 "neutral" "35-65" "low" "rsx" (NewLogger client))
    as (gm0 & lines & Hnew); [lia|].
  exists gm0, lines. unfold main. cbv zeta. rewrite Hnew. cbn [fst snd].
  destruct (mainLoop_trace cfg client ParseFloat nets gm0) as (H1 & H2 & H3).
  revert H1 H2 H3. generalize (mainLoop cfg client ParseFloat nets gm0). intros r H1 H2 H3.
  eexists. eexists. split; [reflexivity|]. split; [reflexivity|].
  split; [exact H1|]. cbn [swaps monitors flat_map app]. fold (swaps (fst r)).
  fold (monitors (fst r)). split; [exact H2|exact H3].
Qed.

Lemma quiet_orders cfg (rs : list (Signal * GridManager)) :
  Forall (fun r => fst r = DoNothingSignal /\ currentRsi (snd r) = 50%float) rs ->
  flat_map (order cfg) (map fst rs) = [].
Proof.
  induction 1 as [|r rs [Hr _] _ IH]; [reflexivity|].
  cbn [map flat_map]. rewrite Hr, IH. reflexivity.
Qed.

(** X22: [main] asks for no swap and starts no monitor before it has got
    its sixth price, whatever the prices and whatever the services answer. *)
Theorem main_first_five_prices cfg client ParseFloat nets trace gm :
  main cfg client ParseFloat nets = Some (trace, gm) ->
  (length (fetched cfg ParseFloat nets) <= 5)%nat ->
  swaps trace = [] /\ monitors trace = [].
Proof.
  unfold main. cbv zeta.
  destruct (NewGridManager 7 10 "neutral" "35-65" "low" "rsx" (NewLogger client))
    as [[gm0 lines]|] eqn:Hnew; [|discriminate].
  cbn [fst snd]. intros Hmain Hlen. injection Hmain as <- <-.
  destruct (NewGridManager_inv _ _ _ _ _ _ _ _ _ Hnew) as (Hf & _ & _ & _ & _ & _ & Hty & _).
  assert (He : rsx_early gm0 gm0 0).
  { split; [exact (fresh_rsx_inv gm0 Hf Hty)|]. split.
    - left. apply (fresh_lastRsiValue _ Hf).
    - left. unfold rsx_unseeded. rewrite (fresh_f8 _ Hf), (fresh_f10 _ Hf). reflexivity. }
  pose proof (rsx_early_feed gm0 (fetched cfg ParseFloat nets) gm0 0 ltac:(lia) ltac:(lia) He)
    as Hq.
  destruct (mainLoop_trace cfg client ParseFloat nets gm0) as (_ & H2 & H3).
  rewrite (quiet_orders cfg _ Hq) in H2.
  revert H2 H3. generalize (mainLoop cfg client ParseFloat nets gm0). intros r H2 H3.
  cbn [swaps monitors flat_map app]. fold (swaps (fst r)). fold (monitors (fst r)).
  split; [exact H2|]. rewrite H2 in H3. cbn [length] in H3.
  destruct (monitors (fst r)); [reflexivity|cbn [length] in H3; lia].
Qed.

Lemma main_first_five_prices_witness :
  exists trace gm,
    main (sampleConfig 5) None sampleParseFloat
         [sampleNetwork; sampleNetwork; sampleNetwork] = Some (trace, gm) /\
    swaps trace = [] /\ monitors trace = [].
Proof.
  destruct (main (sampleConfig 5) None sampleParseFloat
              [sampleNetwork; sampleNetwork; sampleNetwork]) as [[trace gm]|] eqn:H.
  - exists trace, gm. split; [reflexivity|].
    apply (main_first_five_prices (sampleConfig 5) None sampleParseFloat
             [sampleNetwork; sampleNetwork; sampleNetwork] trace gm H).
    vm_compute. lia.
  - exfalso. vm_compute in H. discriminate H.
Defined.

(** ** The aggression filter *)

Lemma applyAggressionFilter_buy g :
  buy (applyAggressionFilter g) = true ->
  if AggressionLevel g >? 0
  then (currentRsi g >? signalLine g)%float
       && (lastRsiValue g >=? getGridValue g (iadd 1 (AggressionLevel g)))%float = false
  else (lastRsiValue g
        >? signalLine g - 100 / float64_of_int (isub (NumberOfGrids g) 1))%float = false.
Proof.
  unfold applyAggressionFilter. cbv zeta. destruct (AggressionLevel g >? 0).
  - destruct ((currentRsi g >? signalLine g)%float && _) eqn:Hb; [|reflexivity].
    fields. clear Hb. split_ifs; fields; intros H; discriminate H.
  - destruct (lastRsiValue g >? _)%float eqn:Hb; [|reflexivity].
    fields. clear Hb. split_ifs; fields; intros H; discriminate H.
Qed.

Lemma applyAggressionFilter_sell g :
  sell (applyAggressionFilter g) = true ->
  if AggressionLevel g >? 0
  then (currentRsi g <? signalLine g)%float
       && (lastRsiValue g
           <=? getGridValue g (isub (isub (NumberOfGrids g) 1) (AggressionLevel g)))%float
       = false
  else (lastRsiValue g
        <? signalLine g + 100 / float64_of_int (isub (NumberOfGrids g) 1))%float = false.
Proof.
  unfold applyAggressionFilter. cbv zeta. destruct (AggressionLevel g >? 0).
  - destruct ((currentRsi g >? signalLine g)%float && _); fields;
      (destruct ((currentRsi g <? signalLine g)%float && _); [|reflexivity]);
      fields; intros H; discriminate H.
  - destruct (lastRsiValue g >? _)%float; fields;
      (destruct (lastRsiValue g <? _)%float; [|reflexivity]);
      fields; intros H; discriminate H.
Qed.

(** The flags that leave the pipeline were left by the aggression filter. *)
Lemma pipeline_after_aggression g :
  (buy (filterPipeline g) = true -> buy (applyAggressionFilter g) = true) /\
  (sell (filterPipeline g) = true -> sell (applyAggressionFilter g) = true).
Proof.
  rewrite filterPipeline_eq.
  destruct (applyNoTradeZoneFilter_clears (applyAggressionFilter g)) as [Hn Hn'].
  destruct (applyDirectionFilter_clears (applyNoTradeZoneFilter (applyAggressionFilter g)))
    as [Hd Hd'].
  split; auto.
Qed.

(** X23: what the aggression filter asks of a signal. At level 0 ("low") a
    Buy is answered only when the previous oscillator value is not above
    the signal line less one grid step, and a Sell only when it is not below
    the signal line plus one grid step. At a level above 0 a Buy is not
    answered when the oscillator is above the signal line with the previous
    value at or above the line of index 1 + level, nor a Sell when it is
    below the signal line with the previous value at or below the line of
    index (lines - 1) - level. *)
Theorem aggression_gate gm price :
  let gi := (100 / float64_of_int (isub (NumberOfGrids gm) 1))%float in
  let cur := currentRsi (computeOscillator gm price) in
  (AggressionLevel gm <= 0 ->
   (Process_signal gm price = BuySignal ->
    (lastRsiValue gm >? signalLine gm - gi)%float = false) /\
   (Process_signal gm price = SellSignal ->
    (lastRsiValue gm <? signalLine gm + gi)%float = false)) /\
  (0 < AggressionLevel gm ->
   (Process_signal gm price = BuySignal ->
    (cur >? signalLine gm)%float
    && (lastRsiValue gm >=? getGridValue gm (iadd 1 (AggressionLevel gm)))%float = false) /\
   (Process_signal gm price = SellSignal ->
    (cur <? signalLine gm)%float
    && (lastRsiValue gm
        <=? getGridValue gm (isub (isub (NumberOfGrids gm) 1) (AggressionLevel gm)))%float
    = false)).
Proof.
  cbv zeta.
  assert (Hbuy : Process_signal gm price = BuySignal ->
                 buy (filterPipeline (detectCrossings (computeOscillator gm price))) = true).
  { rewrite Process_signal_stages. destruct (warm gm); [discriminate|].
    rewrite resolveSignal_signal. destruct (buy _); [reflexivity|].
    destruct (sell _); discriminate. }
  assert (Hsell : Process_signal gm price = SellSignal ->
                  sell (filterPipeline (detectCrossings (computeOscillator gm price))) = true).
  { rewrite Process_signal_stages. destruct (warm gm); [discriminate|].
    rewrite resolveSignal_signal. destruct (buy _); [discriminate|].
    destruct (sell _); [reflexivity|discriminate]. }
  destruct (crossings_frame gm price) as [F E].
  pose proof (applyAggressionFilter_buy (detectCrossings (computeOscillator gm price))) as Hb.
  pose proof (applyAggressionFilter_sell (detectCrossings (computeOscillator gm price))) as Hs.
  destruct (pipeline_after_aggression (detectCrossings (computeOscillator gm price)))
    as [Pb Ps].
  rewrite (fr_AggressionLevel _ _ F), (fr_NumberOfGrids _ _ F), (fr_signalLine _ _ F),
    (fr_lastRsiValue _ _ F), E in Hb, Hs.
  rewrite (getGridValue_ext _ _ (iadd 1 (AggressionLevel gm)) (fr_gridLines _ _ F)) in Hb.
  rewrite (getGridValue_ext _ _ (isub (isub (NumberOfGrids gm) 1) (AggressionLevel gm))
             (fr_gridLines _ _ F)) in Hs.
  revert Hb Hs Pb Ps Hbuy Hsell.
  generalize (applyAggressionFilter (detectCrossings (computeOscillator gm price))).
  generalize (filterPipeline (detectCrossings (computeOscillator gm price))).
  intros gp ga Hb Hs Pb Ps Hbuy Hsell.
  split; intros Hlvl.
  - replace (AggressionLevel gm >? 0) with false in Hb, Hs
      by (symmetry; rewrite Z.gtb_ltb; apply Z.ltb_ge; lia).
    split; intros Hsig; [apply Hb, Pb, Hbuy, Hsig|apply Hs, Ps, Hsell, Hsig].
  - replace (AggressionLevel gm >? 0) with true in Hb, Hs
      by (symmetry; rewrite Z.gtb_ltb; apply Z.ltb_lt; lia).
    split; intros Hsig; [apply Hb, Pb, Hbuy, Hsig|apply Hs, Ps, Hsell, Hsig].
Qed.

Lemma aggression_gate_witness :
  (lastRsiValue (final (newManager 7 10 "neutral" "n/a" "low" "rsi") [100; 101; 99]%float)
   >? signalLine (final (newManager 7 10 "neutral" "n/a" "low" "rsi") [100; 101; 99]%float)
      - 100 / float64_of_int
                (isub (NumberOfGrids (final (newManager 7 10 "neutral" "n/a" "low" "rsi")
                                            [100; 101; 99]%float)) 1))%float
  = false.
Proof.
  refine (proj1 (proj1 (aggression_gate
                          (final (newManager 7 10 "neutral" "n/a" "low" "rsi")
                                 [100; 101; 99]%float) 105) _) _).
  - vm_compute. discriminate.
  - vm_compute. reflexivity.
Defined.

(** ** Classic RSI and a zero average gain *)

Lemma eqb_0_zero x : (x =? 0)%float = true -> exists s, Prim2SF x = S754_zero s.
Proof.
  rewrite FloatAxioms.eqb_spec. change (Prim2SF 0) with (S754_zero false).
  destruct (Prim2SF x) as [[]|[]| |[] m e]; cbn; try discriminate;
    intros _; eexists; reflexivity.
Qed.

(** Zero by a positive value, added to 1, is 1. *)
Lemma one_plus_zero_quotient g l :
  (g =? 0)%float = true -> (l >? 0)%float = true -> (1 + g / l)%float = 1%float.
Proof.
  intros Hg Hl. destruct (eqb_0_zero g Hg) as [s Hs].
  apply FloatAxioms.Prim2SF_inj.
  rewrite FloatAxioms.add_spec, FloatAxioms.div_spec, Hs.
  rewrite FloatAxioms.ltb_spec in Hl. change (Prim2SF 0) with (S754_zero false) in Hl.
  change (Prim2SF 1) with (S754_finite false 4503599627370496 (-52)).
  destruct (Prim2SF l) as [sl|sl| |sl ml el]; cbn in Hl; try discriminate Hl;
    destruct sl; try discriminate Hl; reflexivity.
Qed.

Lemma positive_not_zero l : (l >? 0)%float = true -> (l =? 0)%float = false.
Proof.
  intros Hl. destruct (l =? 0)%float eqn:H; [|reflexivity].
  destruct (eqb_compare_alike _ _ 0%float H) as (_ & E & _).
  rewrite E in Hl. discriminate Hl.
Qed.

Lemma computeRSI_zero_gain gm price :
  (prevRawPrice gm =? 0)%float = false ->
  (avgGain (snd (computeRSI gm price)) =? 0)%float = true ->
  (avgLoss (snd (computeRSI gm price)) >? 0)%float = true ->
  fst (computeRSI gm price) = 0%float.
Proof.
  intros Hseed. unfold computeRSI. rewrite Hseed. cbv zeta.
  match goal with
  | |- context [if ?c then set_avgLoss ?a ?g else ?h] =>
      generalize (if c then set_avgLoss a g else h)
  end.
  intros g. destruct (avgLoss g =? 0)%float eqn:Hz; cbn [fst snd]; intros Hg Hl.
  - rewrite (positive_not_zero _ Hl) in Hz. discriminate Hz.
  - rewrite (one_plus_zero_quotient _ _ Hg Hl). reflexivity.
Qed.

(** X24: on a bar that is not the first one for the classic RSI, a zero
    updated average gain over a positive average loss makes the oscillator
    exactly 0. The manager then holds 0 as its previous value, which is the
    warm-up mark: the next call is taken as a warm-up call and answers
    DoNothing whatever its price. *)
Theorem zero_gain_gives_0 gm price :
  (prevRawPrice gm =? 0)%float = false ->
  ((avgGain (snd (computeRSI gm price)) =? 0)%float = true ->
   (avgLoss (snd (computeRSI gm price)) >? 0)%float = true ->
   fst (computeRSI gm price) = 0%float) /\
  (CurrentRsiType gm = RsiTypeClassic ->
   (avgGain (computeOscillator gm price) =? 0)%float = true ->
   (avgLoss (computeOscillator gm price) >? 0)%float = true ->
   currentRsi (Process_state gm price) = 0%float /\
   lastRsiValue (Process_state gm price) = 0%float /\
   forall next, Process_signal (Process_state gm price) next = DoNothingSignal).
Proof.
  intros Hseed. split; [apply (computeRSI_zero_gain gm price Hseed)|].
  intros Hty Hg Hl.
  assert (H0 : currentRsi (Process_state gm price) = 0%float).
  { rewrite Process_state_currentRsi. revert Hg Hl. unfold computeOscillator. rewrite Hty.
    change (RsiTypeClassic =? RsiTypeRSX) with false. cbv iota zeta.
    generalize (computeRSI_zero_gain gm price Hseed).
    generalize (computeRSI gm price). intros r H Hg Hl. exact (H Hg Hl). }
  split; [exact H0|].
  assert (Hl0 : lastRsiValue (Process_state gm price) = 0%float).
  { rewrite Process_state_lastRsiValue. exact H0. }
  split; [exact Hl0|].
  intros next. rewrite Process_signal_stages. unfold warm. rewrite Hl0. reflexivity.
Qed.

Lemma zero_gain_gives_0_witness :
  currentRsi (Process_state (final (newManager 7 10 "neutral" "n/a" "med" "rsi") [100]%float) 99)
  = 0%float /\
  lastRsiValue (Process_state (final (newManager 7 10 "neutral" "n/a" "med" "rsi") [100]%float)
                              99) = 0%float /\
  forall next,
    Process_signal (Process_state (final (newManager 7 10 "neutral" "n/a" "med" "rsi")
                                         [100]%float) 99) next = DoNothingSignal.
Proof.
  refine (proj2 (zero_gain_gives_0
                   (final (newManager 7 10 "neutral" "n/a" "med" "rsi") [100]%float) 99 _)
            _ _ _); vm_compute; reflexivity.
Defined.

(** ** The no-trade zone switched off *)

Lemma ltb_asym a b : (a <? b)%float = true -> (b <? a)%float = false.
Proof.
  rewrite !FloatAxioms.ltb_spec. unfold SFltb.
  rewrite (SFcompare_antisym (Prim2SF a) (Prim2SF b)).
  destruct (SFcompare (Prim2SF a) (Prim2SF b)) as [[]|]; cbn; congruence.
Qed.

(** X25: with a zone width of 0, which is what every zone string other
    than the four listed parses to, the no-trade-zone filter returns the
    manager it was given, whatever the previous oscillator value. *)
Theorem noTradeZone_off gm :
  (NoTradeZonePips gm = 0 -> applyNoTradeZoneFilter gm = gm) /\
  (forall nt : string,
     nt <> "45-55"%string -> nt <> "40-60"%string -> nt <> "35-65"%string ->
     nt <> "30-70"%string -> parseNoTradeZone nt = 0).
Proof.
  split.
  - intros Hw. unfold applyNoTradeZoneFilter. cbv zeta. rewrite Hw.
    change (50 - float64_of_int 0)%float with 50%float.
    change (50 + float64_of_int 0)%float with 50%float.
    destruct (lastRsiValue gm >? 50)%float eqn:Hlow; [|reflexivity].
    rewrite (ltb_asym _ _ Hlow). reflexivity.
  - intros nt H1 H2 H3 H4. unfold parseNoTradeZone.
    rewrite (proj2 (String.eqb_neq _ _) H1), (proj2 (String.eqb_neq _ _) H2),
      (proj2 (String.eqb_neq _ _) H3), (proj2 (String.eqb_neq _ _) H4). reflexivity.
Qed.

Lemma noTradeZone_off_witness :
  applyNoTradeZoneFilter
    (detectCrossings (computeOscillator
                        (final (newManager 7 10 "neutral" "n/a" "low" "rsi") [100; 101; 99]%float)
                        105))
  = detectCrossings (computeOscillator
                       (final (newManager 7 10 "neutral" "n/a" "low" "rsi") [100; 101; 99]%float)
                       105).
Proof.
  refine (proj1 (noTradeZone_off _) _). vm_compute. reflexivity.
Defined.

(** ** A price that is not a number *)

Section NotANumber.
Implicit Types x y : float.

Lemma not_a_number_eqb x : (x =? x)%float = false <-> not_a_number x.
Proof.
  unfold not_a_number. rewrite FloatAxioms.eqb_spec. split.
  - destruct (Prim2SF x) as [[]|[]| |[] m e]; cbn; try discriminate; try reflexivity;
      rewrite Z.compare_refl, Pos.compare_cont_refl; discriminate.
  - intros ->. reflexivity.
Qed.

Lemma nan_ltb_l x y : not_a_number x -> (x <? y)%float = false.
Proof. unfold not_a_number. rewrite FloatAxioms.ltb_spec. intros ->. reflexivity. Qed.

Lemma nan_ltb_r x y : not_a_number y -> (x <? y)%float = false.
Proof.
  unfold not_a_number. rewrite FloatAxioms.ltb_spec. intros ->.
  destruct (Prim2SF x) as [[]|[]| |[] m e]; reflexivity.
Qed.

Lemma nan_leb_l x y : not_a_number x -> (x <=? y)%float = false.
Proof. unfold not_a_number. rewrite FloatAxioms.leb_spec. intros ->. reflexivity. Qed.

Lemma nan_leb_r x y : not_a_number y -> (x <=? y)%float = false.
Proof.
  unfold not_a_number. rewrite FloatAxioms.leb_spec. intros ->.
  destruct (Prim2SF x) as [[]|[]| |[] m e]; reflexivity.
Qed.

Lemma nan_eqb_l x y : not_a_number x -> (x =? y)%float = false.
Proof. unfold not_a_number. rewrite FloatAxioms.eqb_spec. intros ->. reflexivity. Qed.

Lemma nan_add_l x y : not_a_number x -> not_a_number (x + y).
Proof. unfold not_a_number. rewrite FloatAxioms.add_spec. intros ->. reflexivity. Qed.

Lemma nan_add_r x y : not_a_number y -> not_a_number (x + y).
Proof.
  unfold not_a_number. rewrite FloatAxioms.add_spec. intros ->.
  destruct (Prim2SF x) as [[]|[]| |[] m e]; reflexivity.
Qed.

Lemma nan_sub_l x y : not_a_number x -> not_a_number (x - y).
Proof. unfold not_a_number. rewrite FloatAxioms.sub_spec. intros ->. reflexivity. Qed.

Lemma nan_sub_r x y : not_a_number y -> not_a_number (x - y).
Proof.
  unfold not_a_number. rewrite FloatAxioms.sub_spec. intros ->.
  destruct (Prim2SF x) as [[]|[]| |[] m e]; reflexivity.
Qed.

Lemma nan_mul_r x y : not_a_number y -> not_a_number (x * y).
Proof.
  unfold not_a_number. rewrite FloatAxioms.mul_spec. intros ->.
  destruct (Prim2SF x) as [[]|[]| |[] m e]; reflexivity.
Qed.

Lemma nan_div_r x y : not_a_number y -> not_a_number (x / y).
Proof.
  unfold not_a_number. rewrite FloatAxioms.div_spec. intros ->.
  destruct (Prim2SF x) as [[]|[]| |[] m e]; reflexivity.
Qed.

Lemma nan_opp x : not_a_number x -> not_a_number (- x).
Proof. unfold not_a_number. rewrite FloatAxioms.opp_spec. intros ->. reflexivity. Qed.

Lemma nan_abs x : not_a_number x -> not_a_number (abs x).
Proof. unfold not_a_number. rewrite FloatAxioms.abs_spec. intros ->. reflexivity. Qed.

Lemma nan_clamp x lo hi : not_a_number x -> clamp x lo hi = x.
Proof.
  intros H. unfold clamp. rewrite (nan_ltb_l x lo H), (nan_ltb_r hi x H). reflexivity.
Qed.

End NotANumber.

(** The scans of a bar on which no test holds. *)
Lemma quiet_scans gm :
  buyReentry gm = false -> (forall x, buyCrossing gm x = false) ->
  (forall x, sellCrossing gm x = false) ->
  getBuyLineIndex gm = 0 /\ getSellLineIndex gm = 0.
Proof.
  intros Hre Hb Hs. split.
  - unfold getBuyLineIndex. apply (for_loop_ind (fun idx => idx = 0)); [reflexivity|].
    intros i acc _ ->. cbv zeta. fold (buyReentry gm). fold (buyCrossing gm i).
    rewrite Hre, (Hb i). reflexivity.
  - unfold getSellLineIndex. apply (for_loop_ind (fun idx => idx = 0)); [reflexivity|].
    intros i acc _ ->. cbv zeta. fold (sellReset gm). fold (sellCrossing gm i).
    rewrite (Hs i). destruct (sellReset gm); reflexivity.
Qed.

Lemma quiet_scans_DoNothing gm price :
  getBuyLineIndex (computeOscillator gm price) = 0 ->
  getSellLineIndex (computeOscillator gm price) = 0 ->
  Process_signal gm price = DoNothingSignal.
Proof.
  intros Hb Hs. rewrite Process_signal_stages. destruct (warm gm); [reflexivity|].
  rewrite resolveSignal_signal.
  destruct (filterPipeline_clears (detectCrossings (computeOscillator gm price))) as [Cb Cs].
  rewrite detectCrossings_buy, Hb in Cb. rewrite detectCrossings_sell, Hs in Cs.
  rewrite (not_true_false _ _ Cb eq_refl), (not_true_false _ _ Cs eq_refl). reflexivity.
Qed.

(** A bar whose oscillator value is not a number crosses nothing. *)
Lemma nan_current_quiet gm price :
  not_a_number (currentRsi (computeOscillator gm price)) ->
  Process_signal gm price = DoNothingSignal.
Proof.
  intros Hn.
  destruct (quiet_scans (computeOscillator gm price)) as [Hb Hs].
  - unfold buyReentry. rewrite (nan_leb_l _ 99 Hn). apply andb_false_r.
  - intros x. unfold buyCrossing. rewrite (nan_leb_r _ _ Hn).
    rewrite andb_false_r. reflexivity.
  - intros x. unfold sellCrossing. rewrite (nan_leb_l _ _ Hn).
    rewrite andb_false_r. reflexivity.
  - apply quiet_scans_DoNothing; assumption.
Qed.

(** So does a bar whose previous oscillator value is not a number. *)
Lemma nan_previous_quiet gm price :
  not_a_number (lastRsiValue gm) -> Process_signal gm price = DoNothingSignal.
Proof.
  intros Hn.
  rewrite <- (fr_lastRsiValue _ _ (computeOscillator_frame gm price)) in Hn.
  destruct (quiet_scans (computeOscillator gm price)) as [Hb Hs].
  - unfold buyReentry. rewrite (nan_ltb_r 99 _ Hn). reflexivity.
  - intros x. unfold buyCrossing. rewrite (nan_ltb_l _ _ Hn). reflexivity.
  - intros x. unfold sellCrossing. rewrite (nan_ltb_r _ _ Hn). reflexivity.
  - apply quiet_scans_DoNothing; assumption.
Qed.

Lemma flags_only_memory g g' :
  flags_only g g' ->
  avgLoss g' = avgLoss g /\ prevRawPrice g' = prevRawPrice g /\
  f78 g' = f78 g /\ f8 g' = f8 g.
Proof. intros ->. repeat split; reflexivity. Qed.

Lemma resolveSignal_memory gp bi si :
  avgLoss (snd (resolveSignal gp bi si)) = avgLoss gp /\
  prevRawPrice (snd (resolveSignal gp bi si)) = prevRawPrice gp /\
  f78 (snd (resolveSignal gp bi si)) = f78 gp /\
  f8 (snd (resolveSignal gp bi si)) = f8 gp.
Proof. unfold resolveSignal. destruct (buy gp), (sell gp); repeat split; reflexivity. Qed.

(** What the stages after the indicator step leave of the indicator
    memory. *)
Lemma Process_state_memory gm price :
  avgLoss (Process_state gm price) = avgLoss (computeOscillator gm price) /\
  prevRawPrice (Process_state gm price) = prevRawPrice (computeOscillator gm price) /\
  f78 (Process_state gm price) = f78 (computeOscillator gm price) /\
  f8 (Process_state gm price) = f8 (computeOscillator gm price).
Proof.
  rewrite Process_state_stages. destruct (warm gm).
  - generalize (computeOscillator gm price). intros g. repeat split; reflexivity.
  - destruct (resolveSignal_memory
                (filterPipeline (detectCrossings (computeOscillator gm price)))
                (getBuyLineIndex (computeOscillator gm price))
                (getSellLineIndex (computeOscillator gm price))) as (R1 & R2 & R3 & R4).
    destruct (flags_only_memory _ _
                (flags_only_trans _ _ _ (detectCrossings_flags (computeOscillator gm price))
                   (filterPipeline_flags (detectCrossings (computeOscillator gm price)))))
      as (F1 & F2 & F3 & F4).
    rewrite R1, R2, R3, R4, F1, F2, F3, F4. repeat split; reflexivity.
Qed.

Lemma computeOscillator_classic gm price :
  (CurrentRsiType gm =? RsiTypeRSX) = false ->
  computeOscillator gm price
  = set_currentRsi (fst (computeRSI gm price)) (snd (computeRSI gm price)).
Proof. intros Hty. unfold computeOscillator. rewrite Hty. reflexivity. Qed.

(** The classic RSI with a NaN in its memory or for a price: on a first bar
    the value is 50 and the price is stored; on any other bar the value
    and the average loss are NaN. *)
Lemma computeRSI_nan gm price :
  not_a_number (avgLoss gm) \/ not_a_number (prevRawPrice gm) \/ not_a_number price ->
  (fst (computeRSI gm price) = 50%float \/ not_a_number (fst (computeRSI gm price))) /\
  (not_a_number (avgLoss (snd (computeRSI gm price))) \/
   not_a_number (prevRawPrice (snd (computeRSI gm price)))).
Proof.
  intros H. unfold computeRSI.
  destruct (prevRawPrice gm =? 0)%float eqn:Hseed.
  - cbn [fst snd]. split; [left; reflexivity|]. fields.
    destruct H as [H|[H|H]]; [left; exact H| |right; exact H].
    rewrite (nan_eqb_l _ 0 H) in Hseed. discriminate Hseed.
  - cbv zeta. fields.
    match goal with
    | |- context [if ?c then set_avgLoss ?a ?g else ?h] =>
        set (g' := if c then set_avgLoss a g else h)
    end.
    assert (Hl : not_a_number (avgLoss g')).
    { unfold g'. destruct H as [H|H].
      - rewrite (nan_eqb_l _ 0 H), andb_false_r. fields.
        apply nan_add_l, nan_mul_r, H.
      - assert (Hd : not_a_number (price - prevRawPrice gm)).
        { destruct H as [H|H]; [apply nan_sub_r, H|apply nan_sub_l, H]. }
        rewrite (nan_ltb_r 0 _ Hd).
        destruct ((avgGain gm =? 0)%float && (avgLoss gm =? 0)%float); fields.
        + apply nan_opp, Hd.
        + apply nan_add_r, nan_mul_r, nan_opp, Hd. }
    clearbody g'. revert Hl. generalize g'. clear g'.
    intros g Hl. rewrite (nan_eqb_l _ 0 Hl). cbn [fst snd].
    split; [right|left; exact Hl].
    rewrite nan_clamp; apply nan_sub_r, nan_div_r, nan_add_r, nan_div_r, Hl.
Qed.

Lemma rsx_finish_keeps g oldF8 v14 v20 :
  f78 (snd (rsx_finish g oldF8 v14 v20)) = f78 g /\
  f8 (snd (rsx_finish g oldF8 v14 v20)) = f8 g.
Proof.
  destruct g. unfold rsx_finish. cbv zeta. fields.
  split_ifs; fields; split; reflexivity.
Qed.

Lemma rsx_finish_nan g oldF8 v14 v20 :
  not_a_number v20 -> fst (rsx_finish g oldF8 v14 v20) = 50%float.
Proof.
  intros H. unfold rsx_finish. cbv zeta. cbn [fst].
  rewrite (nan_ltb_r 0 v20 H), andb_false_r. reflexivity.
Qed.

(** The cascade of absolute moves carries a NaN down to its last stage. *)
Lemma rsx_cascade_nan gm price :
  not_a_number (f78 gm) \/ not_a_number (100 * price - f8 gm) ->
  not_a_number (rsx_f78 gm price) /\ not_a_number (rsx_v20 gm price).
Proof.
  intros H.
  assert (H78 : not_a_number (rsx_f78 gm price)).
  { destruct H as [H|H].
    - unfold rsx_f78. apply nan_add_l, nan_mul_r, H.
    - assert (H58 : not_a_number (rsx_f58 gm price)).
      { unfold rsx_f58. apply nan_add_r, nan_mul_r, nan_abs, H. }
      assert (H68 : not_a_number (rsx_f68 gm price)).
      { unfold rsx_f68. apply nan_add_r, nan_mul_r, nan_sub_l, nan_mul_r, H58. }
      unfold rsx_f78. apply nan_add_r, nan_mul_r, nan_sub_l, nan_mul_r, H68. }
  split; [exact H78|].
  unfold rsx_v20. apply nan_sub_l, nan_mul_r, H78.
Qed.

(** The RSX with a NaN in its memory or for a price: the value is 50 and
    the NaN stays. *)
Lemma computeRSX_nan gm price :
  not_a_number (f78 gm) \/ not_a_number (f8 gm) \/ not_a_number price ->
  fst (computeRSX gm price) = 50%float /\
  (not_a_number (f78 (snd (computeRSX gm price))) \/
   not_a_number (f8 (snd (computeRSX gm price)))).
Proof.
  intros H. rewrite computeRSX_halves.
  destruct ((f8 gm =? 0)%float && (f10 gm =? 0)%float) eqn:Hfirst.
  - cbn [fst snd]. split; [reflexivity|]. fields.
    destruct H as [H|[H|H]]; [left; exact H| |right; apply nan_mul_r, H].
    rewrite (nan_eqb_l _ 0 H) in Hfirst. discriminate Hfirst.
  - assert (Hc : not_a_number (f78 gm) \/ not_a_number (100 * price - f8 gm)).
    { destruct H as [H|[H|H]]; [left; exact H|right; apply nan_sub_r, H|].
      right. apply nan_sub_l, nan_mul_r, H. }
    destruct (rsx_cascade_nan gm price Hc) as [H78 H20].
    split; [apply rsx_finish_nan, H20|]. left.
    rewrite (proj1 (rsx_finish_keeps _ _ _ _)). exact H78.
Qed.

(** One call on a manager with a NaN in its indicator memory or for a
    price: the oscillator value is 50 or, with the classic RSI, a NaN, and
    the manager is left poisoned. *)
Lemma Process_state_poisoned gm price :
  (if CurrentRsiType gm =? RsiTypeRSX
   then not_a_number (f78 gm) \/ not_a_number (f8 gm) \/ not_a_number price
   else not_a_number (avgLoss gm) \/ not_a_number (prevRawPrice gm) \/ not_a_number price) ->
  (currentRsi (computeOscillator gm price) = 50%float \/
   (CurrentRsiType gm =? RsiTypeRSX) = false /\
   not_a_number (currentRsi (computeOscillator gm price))) /\
  poisoned (Process_state gm price).
Proof.
  intros H. unfold poisoned.
  rewrite (cf_CurrentRsiType _ _ (Process_state_config gm price)).
  rewrite Process_state_lastRsiValue, Process_state_currentRsi.
  destruct (Process_state_memory gm price) as (-> & -> & -> & ->).
  destruct (CurrentRsiType gm =? RsiTypeRSX) eqn:Hty.
  - apply Z.eqb_eq in Hty. rewrite (computeOscillator_rsx gm price Hty).
    destruct (computeRSX_nan gm price H) as [H50 Hn].
    revert H50 Hn. generalize (computeRSX gm price). intros r H50 Hn. fields.
    split; [left; exact H50|]. split; [exact Hn|exact H50].
  - rewrite (computeOscillator_classic gm price Hty).
    destruct (computeRSI_nan gm price H) as [Hc Hn].
    revert Hc Hn. generalize (computeRSI gm price). intros r Hc Hn. fields.
    split; [|split; [exact Hn|destruct Hc; [right|left]; assumption]].
    destruct Hc as [Hc|Hc]; [left; exact Hc|right; split; [reflexivity|exact Hc]].
Qed.

Lemma poisoned_step gm price :
  poisoned gm ->
  Process_signal gm price = DoNothingSignal /\ poisoned (Process_state gm price).
Proof.
  intros Hp.
  assert (H : if CurrentRsiType gm =? RsiTypeRSX
              then not_a_number (f78 gm) \/ not_a_number (f8 gm) \/ not_a_number price
              else not_a_number (avgLoss gm) \/ not_a_number (prevRawPrice gm)
                   \/ not_a_number price).
  { unfold poisoned in Hp. destruct (CurrentRsiType gm =? RsiTypeRSX);
      destruct Hp as [[Hp|Hp] _]; auto. }
  destruct (Process_state_poisoned gm price H) as [Hcur Hp'].
  split; [|exact Hp'].
  destruct Hcur as [H50|[Hty Hn]]; [|exact (nan_current_quiet gm price Hn)].
  assert (Hlast : not_a_number (lastRsiValue gm) \/ lastRsiValue gm = 50%float).
  { unfold poisoned in Hp. destruct (CurrentRsiType gm =? RsiTypeRSX);
      destruct Hp as [_ Hp]; [right; exact Hp|exact Hp]. }
  destruct Hlast as [Hl|Hl]; [exact (nan_previous_quiet gm price Hl)|].
  apply flat_DoNothing. rewrite H50, Hl. reflexivity.
Qed.

Lemma poisoned_feed prices : forall gm,
  poisoned gm -> Forall (fun r => fst r = DoNothingSignal) (feed gm prices).
Proof.
  induction prices as [|p ps IH]; intros gm Hp; [constructor|].
  destruct (poisoned_step gm p Hp) as [Hsig Hp'].
  cbn [feed]. constructor; [exact Hsig|exact (IH _ Hp')].
Qed.

(** X26: a price that is not a number silences the manager for good. After
    a call with a NaN price, on any manager and with either indicator,
    every later call answers DoNothing, whatever the prices; with the
    classic RSI past its first bar the call with the NaN price answers
    DoNothing too. *)
Theorem nan_price_silences gm price prices :
  (price =? price)%float = false ->
  Forall (fun r => fst r = DoNothingSignal) (feed (Process_state gm price) prices) /\
  (CurrentRsiType gm = RsiTypeClassic -> (prevRawPrice gm =? 0)%float = false ->
   Process_signal gm price = DoNothingSignal).
Proof.
  intros Hnan. apply not_a_number_eqb in Hnan.
  assert (H : if CurrentRsiType gm =? RsiTypeRSX
              then not_a_number (f78 gm) \/ not_a_number (f8 gm) \/ not_a_number price
              else not_a_number (avgLoss gm) \/ not_a_number (prevRawPrice gm)
                   \/ not_a_number price).
  { destruct (CurrentRsiType gm =? RsiTypeRSX); auto. }
  split.
  - apply poisoned_feed. apply (Process_state_poisoned gm price H).
  - intros Hty Hseed. apply nan_current_quiet.
    rewrite computeOscillator_classic by (rewrite Hty; reflexivity). fields.
    unfold computeRSI. rewrite Hseed. cbv zeta.
    assert (Hd : not_a_number (price - prevRawPrice gm)) by (apply nan_sub_l, Hnan).
    rewrite (nan_ltb_r 0 _ Hd).
    match goal with
    | |- context [if ?c then set_avgLoss ?a ?g else ?h] =>
        set (g' := if c then set_avgLoss a g else h)
    end.
    assert (Hl : not_a_number (avgLoss g')).
    { unfold g'. destruct ((avgGain _ =? 0)%float && _); fields.
      - apply nan_opp, Hd.
      - apply nan_add_r, nan_mul_r, nan_opp, Hd. }
    clearbody g'. rewrite (nan_eqb_l _ 0 Hl). cbn [fst].
    rewrite nan_clamp; apply nan_sub_r, nan_div_r, nan_add_r, nan_div_r, Hl.
Qed.

Lemma nan_price_silences_witness :
  Forall (fun r => fst r = DoNothingSignal)
         (feed (Process_state (final (newManager 7 10 "neutral" "n/a" "low" "rsi")
                                     [100; 101; 99]%float) nan)
               [105; 90; 120; 80]%float).
Proof.
  refine (proj1 (nan_price_silences
                   (final (newManager 7 10 "neutral" "n/a" "low" "rsi") [100; 101; 99]%float)
                   nan [105; 90; 120; 80]%float _)).
  vm_compute. reflexivity.
Defined.
